(** * fs_ext2.c: the ext2 VFS driver of KallistiOS (addons/libkosext2fs)

    A shallow embedding of the driver's operation table: the fixed
    open-file table, read/seek/tell/total, the directory iterator, the
    structural mutators (rename, unlink, mkdir, rmdir) and the mount
    registry, all running under one global mutex.

    The driver sits between the VFS and the ext2 library (inode.c,
    directory.c, ext2fs.c) and the kernel (malloc, mutex, nmmgr).  Both
    are outside this file: their calls are the members of the [Backend]
    class, the constants of their headers the members of [Headers]. *)

From Stdlib Require Import ZArith Lia Bool Ascii String.
From stdpp Require Import base list gmap.

Local Open Scope Z_scope.

(** ** Constants and widths declared in headers outside fs_ext2.c *)

(** The open flags ([fcntl.h], [kos/fs.h]), the seek origins, the mount
    flag ([ext2/fs_ext2.h]) and the directory type bits ([inode.h]) are
    used by name only; so are the widths of [off_t] and [size_t].  The
    three seek origins label the cases of one [switch], hence differ. *)
Class Headers := {
  O_WRONLY : Z;
  O_TRUNC : Z;
  O_CREAT : Z;
  O_DIR : Z;
  SEEK_SET : Z;
  SEEK_CUR : Z;
  SEEK_END : Z;
  FS_EXT2_MOUNT_READWRITE : Z;
  EXT2_S_IFDIR : Z;
  EXT2_S_IFLNK : Z;
  EXT2_S_IFREG : Z;
  EXT2_S_IFSOCK : Z;
  EXT2_S_IFIFO : Z;
  EXT2_S_IFBLK : Z;
  EXT2_S_IFCHR : Z;
  EXT2_S_IRUSR : Z;
  EXT2_S_IWUSR : Z;
  off_bits : Z;
  size_bits : Z;
  seek_set_cur : SEEK_SET <> SEEK_CUR;
  seek_set_end : SEEK_SET <> SEEK_END;
  seek_cur_end : SEEK_CUR <> SEEK_END;
  off_bits_32_64 : off_bits = 32 \/ off_bits = 64;
  size_bits_32_64 : size_bits = 32 \/ size_bits = 64
}.

(** The [fcntl] commands ([fcntl.h]) are used by name only.  [F_GETFL]
    labels a case of its own in the [switch] of [fs_ext2_fcntl], hence
    differs from the three that share the next case. *)
Class FcntlCmds := {
  F_GETFL : Z;
  F_SETFL : Z;
  F_GETFD : Z;
  F_SETFD : Z;
  getfl_setfl : F_GETFL <> F_SETFL;
  getfl_getfd : F_GETFL <> F_GETFD;
  getfl_setfd : F_GETFL <> F_SETFD
}.

(** [#define MAX_EXT2_FILES 16] *)
Definition MAX_EXT2_FILES : Z := 16.

(** Error numbers are used by name; a backend may also hand back a code
    the driver never names. *)
Inductive errno_t :=
| EPERM | ENOENT | EIO | EBADF | ENOMEM | EBUSY | EEXIST | ENOTDIR
| EISDIR | EINVAL | ENFILE | EROFS | ENOTEMPTY
| Ecode (z : Z).

#[global] Instance errno_eq_dec : EqDecision errno_t.
Proof. solve_decision. Defined.

(** ** Machine integers *)

Definition wrap (w x : Z) : Z := x mod 2 ^ w.
Definition u16 := wrap 16.
Definition u32 := wrap 32.
Definition u64 := wrap 64.

(** Conversion to a signed [w]-bit integer (two's complement). *)
Definition to_signed (w x : Z) : Z :=
  let m := wrap w x in if m <? 2 ^ (w - 1) then m else m - 2 ^ w.

Definition in_signed (w x : Z) : Prop := - 2 ^ (w - 1) <= x < 2 ^ (w - 1).
Definition in_unsigned (w x : Z) : Prop := 0 <= x < 2 ^ w.

(** C truth value of an integer. *)
Definition nz (x : Z) : bool := negb (x =? 0).

(** ** Data of the backend seen by the driver *)

(** Address of an [ext2_inode_t] in the backend's inode cache. *)
Definition iptr := Z.
(** Address of an [ext2_fs_t]. *)
Definition fsptr := Z.

(** The fields of [ext2_inode_t] the driver reads or writes. *)
Record ext2_inode := {
  i_mode : Z;
  i_uid : Z;
  i_size : Z;
  i_atime : Z;
  i_ctime : Z;
  i_mtime : Z;
  i_gid : Z;
  i_links_count : Z;
  l_i_uid_high : Z;
  l_i_gid_high : Z
}.

(** The fields of an on-disk [ext2_dirent_t]. *)
Record ext2_dirent := {
  d_inode : Z;
  d_rec_len : Z;
  d_name_len : Z;
  d_name : string
}.

(** [dirent_t], the record [readdir] hands to its caller. *)
Record dirent_t := {
  de_size : Z;
  de_name : string;
  de_time : Z;
  de_attr : Z
}.

(** [kos_blockdev_t]: only whether [write_blocks] is set matters. *)
Record kos_blockdev := {
  dev_id : Z;
  write_blocks : bool
}.

(** ** The backend interface

    [B] is the state of everything behind the driver: the ext2 contexts
    with their inode and block caches, the disk, the allocator, the
    clock, the name manager.  Each call maps a state to its result and
    the next state.  A call returning [int] yields [inl e] for the
    failure [-e] (or [e] where the C function reports it positively) and
    [inr v] for success. *)
Class Backend (B : Type) := {
  ext2_inode_by_path : B -> fsptr -> string -> (errno_t + iptr * Z) * B;
  ext2_inode_get : B -> fsptr -> Z -> option iptr * B;
  ext2_inode_put : B -> iptr -> B;
  ext2_inode_alloc : B -> fsptr -> Z -> (errno_t + iptr * Z) * B;
  ext2_inode_deref : B -> fsptr -> Z -> bool -> (errno_t + unit) * B;
  ext2_inode_mark_dirty : B -> iptr -> B;
  ext2_inode_read_block : B -> fsptr -> iptr -> Z -> (errno_t + list Z) * B;
  ext2_dir_entry : B -> fsptr -> iptr -> string -> option ext2_dirent * B;
  ext2_dir_rm_entry : B -> fsptr -> iptr -> string -> (errno_t + Z) * B;
  ext2_dir_add_entry : B -> fsptr -> iptr -> string -> Z -> iptr -> (errno_t + unit) * B;
  ext2_dir_redir_entry : B -> fsptr -> iptr -> string -> Z -> (errno_t + unit) * B;
  ext2_dir_is_empty : B -> fsptr -> iptr -> Z * B;
  ext2_dir_create_empty : B -> fsptr -> iptr -> Z -> Z -> (errno_t + unit) * B;
  ext2_block_size : B -> fsptr -> Z;
  ext2_log_block_size : B -> fsptr -> Z;
  ext2_fs_init : B -> kos_blockdev -> Z -> option fsptr * B;
  ext2_fs_shutdown : B -> fsptr -> B;
  (** the inode object behind a pointer, and a store through it *)
  inode_load : B -> iptr -> ext2_inode;
  inode_store : B -> iptr -> ext2_inode -> B;
  (** the directory entry at an offset of a block *)
  dirent_at : list Z -> Z -> ext2_dirent;
  (** kernel: [malloc]/[strdup], [free], [time(NULL)], the name manager *)
  malloc : B -> option Z * B;
  free : B -> Z -> B;
  time_now : B -> Z * B;
  nmmgr_handler_add : B -> Z -> Z * B;
  nmmgr_handler_remove : B -> Z -> B
}.

(** ** Driver state *)

(** [fs_ext2_fs_t]: one mount (the list linkage is [ext2_fses]). *)
Record fs_ext2_fs := {
  mnt_vfsh : Z;
  mnt_fs : fsptr;
  mount_flags : Z
}.

(** The part of [vfs_handler_t] that differs between mounts. *)
Record vfs_handler := {
  pathname : string;
  privdata : Z
}.

(** One element of the static array [fh].  [fh_fs] is the mount the
    handle was opened on; a mount record is never written after
    [fs_ext2_mount] filled it, so the slot carries its contents. *)
Record fh_t := {
  fh_inode_num : Z;
  fh_mode : Z;
  fh_ptr : Z;
  fh_dent : dirent_t;
  fh_inode : iptr;
  fh_fs : fs_ext2_fs
}.

Definition zero_dirent : dirent_t :=
  {| de_size := 0; de_name := EmptyString; de_time := 0; de_attr := 0 |}.

(** A slot after [memset(fh, 0, sizeof(fh))]. *)
Definition zero_fh : fh_t :=
  {| fh_inode_num := 0; fh_mode := 0; fh_ptr := 0; fh_dent := zero_dirent;
     fh_inode := 0;
     fh_fs := {| mnt_vfsh := 0; mnt_fs := 0; mount_flags := 0 |} |}.

Definition set_inode_num (v : Z) (x : fh_t) : fh_t :=
  {| fh_inode_num := v; fh_mode := fh_mode x; fh_ptr := fh_ptr x;
     fh_dent := fh_dent x; fh_inode := fh_inode x; fh_fs := fh_fs x |}.
Definition set_mode (v : Z) (x : fh_t) : fh_t :=
  {| fh_inode_num := fh_inode_num x; fh_mode := v; fh_ptr := fh_ptr x;
     fh_dent := fh_dent x; fh_inode := fh_inode x; fh_fs := fh_fs x |}.
Definition set_ptr (v : Z) (x : fh_t) : fh_t :=
  {| fh_inode_num := fh_inode_num x; fh_mode := fh_mode x; fh_ptr := v;
     fh_dent := fh_dent x; fh_inode := fh_inode x; fh_fs := fh_fs x |}.
Definition set_dent (v : dirent_t) (x : fh_t) : fh_t :=
  {| fh_inode_num := fh_inode_num x; fh_mode := fh_mode x; fh_ptr := fh_ptr x;
     fh_dent := v; fh_inode := fh_inode x; fh_fs := fh_fs x |}.
Definition set_inode (v : iptr) (x : fh_t) : fh_t :=
  {| fh_inode_num := fh_inode_num x; fh_mode := fh_mode x; fh_ptr := fh_ptr x;
     fh_dent := fh_dent x; fh_inode := v; fh_fs := fh_fs x |}.
Definition set_fs (v : fs_ext2_fs) (x : fh_t) : fh_t :=
  {| fh_inode_num := fh_inode_num x; fh_mode := fh_mode x; fh_ptr := fh_ptr x;
     fh_dent := fh_dent x; fh_inode := fh_inode x; fh_fs := v |}.

(** Calls into the backend, as the driver issues them. *)
Inductive call :=
| CByPath (fs : fsptr) (path : string)
| CGet (fs : fsptr) (num : Z)
| CPut (p : iptr)
| CAlloc (fs : fsptr) (parent : Z)
| CDeref (fs : fsptr) (num : Z) (isdir : bool)
| CMarkDirty (p : iptr)
| CReadBlock (p : iptr) (blk : Z)
| CDirEntry (dir : iptr) (name : string)
| CRmEntry (dir : iptr) (name : string)
| CAddEntry (dir : iptr) (name : string) (num : Z)
| CRedirEntry (dir : iptr) (name : string) (num : Z)
| CIsEmpty (dir : iptr)
| CCreateEmpty (p : iptr) (num parent : Z)
| CStore (p : iptr) (v : ext2_inode)
| CFsInit (dev : Z)
| CFsShutdown (fs : fsptr)
| CMalloc
| CFree (a : Z)
| CNmmgrAdd (vfsh : Z)
| CNmmgrRemove (vfsh : Z).

(** A call together with whether it succeeded. *)
Record event := Ev { ev_call : call; ev_ok : bool }.

(** Why a call of the driver does not return to its caller. *)
Inductive hang :=
| Deadlock        (** [mutex_lock] on the mutex the caller already holds *)
| OutOfBounds     (** [fh] indexed outside its sixteen slots *)
| UseAfterFree    (** a freed mount record or VFS handler dereferenced *)
| OutOfFuel.      (** the fuel given to a loop ran out: no verdict *)

Section Driver.
Context {HD : Headers} {B : Type} {BE : Backend B}.

(** The globals of fs_ext2.c, the backend behind them, [errno], and a
    record of the backend calls made so far, most recent first. *)
Record state := {
  fh : list fh_t;
  ext2_mutex : bool;
  world : B;
  errno : errno_t;
  log : list event;
  ext2_fses : list Z;
  mnt_mem : gmap Z fs_ext2_fs;
  vfs_mem : gmap Z vfs_handler;
  initted : bool
}.

Definition with_fh (f : list fh_t -> list fh_t) (s : state) : state :=
  {| fh := f (fh s); ext2_mutex := ext2_mutex s; world := world s;
     errno := errno s; log := log s; ext2_fses := ext2_fses s;
     mnt_mem := mnt_mem s; vfs_mem := vfs_mem s; initted := initted s |}.
Definition with_mutex (v : bool) (s : state) : state :=
  {| fh := fh s; ext2_mutex := v; world := world s;
     errno := errno s; log := log s; ext2_fses := ext2_fses s;
     mnt_mem := mnt_mem s; vfs_mem := vfs_mem s; initted := initted s |}.
Definition with_world (v : B) (s : state) : state :=
  {| fh := fh s; ext2_mutex := ext2_mutex s; world := v;
     errno := errno s; log := log s; ext2_fses := ext2_fses s;
     mnt_mem := mnt_mem s; vfs_mem := vfs_mem s; initted := initted s |}.
Definition with_errno (v : errno_t) (s : state) : state :=
  {| fh := fh s; ext2_mutex := ext2_mutex s; world := world s;
     errno := v; log := log s; ext2_fses := ext2_fses s;
     mnt_mem := mnt_mem s; vfs_mem := vfs_mem s; initted := initted s |}.
Definition with_log (f : list event -> list event) (s : state) : state :=
  {| fh := fh s; ext2_mutex := ext2_mutex s; world := world s;
     errno := errno s; log := f (log s); ext2_fses := ext2_fses s;
     mnt_mem := mnt_mem s; vfs_mem := vfs_mem s; initted := initted s |}.
Definition with_fses (f : list Z -> list Z) (s : state) : state :=
  {| fh := fh s; ext2_mutex := ext2_mutex s; world := world s;
     errno := errno s; log := log s; ext2_fses := f (ext2_fses s);
     mnt_mem := mnt_mem s; vfs_mem := vfs_mem s; initted := initted s |}.
Definition with_mnt_mem (f : gmap Z fs_ext2_fs -> gmap Z fs_ext2_fs) (s : state) : state :=
  {| fh := fh s; ext2_mutex := ext2_mutex s; world := world s;
     errno := errno s; log := log s; ext2_fses := ext2_fses s;
     mnt_mem := f (mnt_mem s); vfs_mem := vfs_mem s; initted := initted s |}.
Definition with_vfs_mem (f : gmap Z vfs_handler -> gmap Z vfs_handler) (s : state) : state :=
  {| fh := fh s; ext2_mutex := ext2_mutex s; world := world s;
     errno := errno s; log := log s; ext2_fses := ext2_fses s;
     mnt_mem := mnt_mem s; vfs_mem := f (vfs_mem s); initted := initted s |}.
Definition with_initted (v : bool) (s : state) : state :=
  {| fh := fh s; ext2_mutex := ext2_mutex s; world := world s;
     errno := errno s; log := log s; ext2_fses := ext2_fses s;
     mnt_mem := mnt_mem s; vfs_mem := vfs_mem s; initted := v |}.

(** ** The monad of driver code *)

Inductive outcome (A : Type) :=
| Ret (a : A) (s : state)
| Hang (h : hang) (s : state).
Arguments Ret {A} a s.
Arguments Hang {A} h s.

Definition M (A : Type) : Type := state -> outcome A.

Definition ret {A} (a : A) : M A := fun s => Ret a s.
Definition bind {A C} (m : M A) (k : A -> M C) : M C :=
  fun s => match m s with
           | Ret a s' => k a s'
           | Hang h s' => Hang h s'
           end.
Definition stuck {A} (h : hang) : M A := fun s => Hang h s.
Definition gets {A} (f : state -> A) : M A := fun s => Ret (f s) s.
Definition modify (f : state -> state) : M unit := fun s => Ret tt (f s).

Notation "x <- m ;; k" := (bind m (fun x => k))
  (at level 100, m at next level, right associativity).
Notation "m ;; k" := (bind m (fun _ => k))
  (at level 100, right associativity).

(** The state a call ends in, returned or not. *)
Definition final {A} (o : outcome A) : state :=
  match o with Ret _ s => s | Hang _ s => s end.

Definition returned {A} (o : outcome A) : option A :=
  match o with Ret a _ => Some a | Hang _ _ => None end.

(** Modelled from the spec: [mutex_lock]/[mutex_unlock] of kos/mutex.h,
    on a mutex created with [MUTEX_TYPE_NORMAL].  The lock is not
    reentrant: taking it while it is held never comes back. *)
Definition mutex_lock : M unit := fun s =>
  if ext2_mutex s then Hang Deadlock s else Ret tt (with_mutex true s).
Definition mutex_unlock : M unit := modify (with_mutex false).

Definition set_errno (e : errno_t) : M unit := modify (with_errno e).
Definition emit (c : call) (ok : bool) : M unit :=
  modify (with_log (cons (Ev c ok))).

(** Run a backend call on [world]. *)
Definition be_call {A} (f : B -> A * B) : M A := fun s =>
  let '(a, w) := f (world s) in Ret a (with_world w s).
Definition be_exec (f : B -> B) : M unit := modify (fun s => with_world (f (world s)) s).

Definition is_inr {X Y} (r : X + Y) : bool :=
  match r with inr _ => true | inl _ => false end.

(** The backend calls, each leaving its mark in the log. *)
Definition inode_by_path (fs : fsptr) (path : string) : M (errno_t + iptr * Z) :=
  r <- be_call (fun b => ext2_inode_by_path b fs path) ;;
  emit (CByPath fs path) (is_inr r) ;; ret r.
Definition inode_get (fs : fsptr) (num : Z) : M (option iptr) :=
  r <- be_call (fun b => ext2_inode_get b fs num) ;;
  emit (CGet fs num) (bool_decide (is_Some r)) ;; ret r.
Definition inode_put (p : iptr) : M unit :=
  be_exec (fun b => ext2_inode_put b p) ;; emit (CPut p) true.
Definition inode_alloc (fs : fsptr) (parent : Z) : M (errno_t + iptr * Z) :=
  r <- be_call (fun b => ext2_inode_alloc b fs parent) ;;
  emit (CAlloc fs parent) (is_inr r) ;; ret r.
Definition inode_deref (fs : fsptr) (num : Z) (isdir : bool) : M (errno_t + unit) :=
  r <- be_call (fun b => ext2_inode_deref b fs num isdir) ;;
  emit (CDeref fs num isdir) (is_inr r) ;; ret r.
Definition inode_mark_dirty (p : iptr) : M unit :=
  be_exec (fun b => ext2_inode_mark_dirty b p) ;; emit (CMarkDirty p) true.
Definition inode_read_block (fs : fsptr) (p : iptr) (blk : Z) : M (errno_t + list Z) :=
  r <- be_call (fun b => ext2_inode_read_block b fs p blk) ;;
  emit (CReadBlock p blk) (is_inr r) ;; ret r.
Definition dir_entry (fs : fsptr) (dir : iptr) (name : string) : M (option ext2_dirent) :=
  r <- be_call (fun b => ext2_dir_entry b fs dir name) ;;
  emit (CDirEntry dir name) (bool_decide (is_Some r)) ;; ret r.
Definition dir_rm_entry (fs : fsptr) (dir : iptr) (name : string) : M (errno_t + Z) :=
  r <- be_call (fun b => ext2_dir_rm_entry b fs dir name) ;;
  emit (CRmEntry dir name) (is_inr r) ;; ret r.
Definition dir_add_entry (fs : fsptr) (dir : iptr) (name : string) (num : Z) (ino : iptr)
  : M (errno_t + unit) :=
  r <- be_call (fun b => ext2_dir_add_entry b fs dir name num ino) ;;
  emit (CAddEntry dir name num) (is_inr r) ;; ret r.
Definition dir_redir_entry (fs : fsptr) (dir : iptr) (name : string) (num : Z)
  : M (errno_t + unit) :=
  r <- be_call (fun b => ext2_dir_redir_entry b fs dir name num) ;;
  emit (CRedirEntry dir name num) (is_inr r) ;; ret r.
Definition dir_is_empty (fs : fsptr) (dir : iptr) : M Z :=
  r <- be_call (fun b => ext2_dir_is_empty b fs dir) ;;
  emit (CIsEmpty dir) (negb (r =? -1)) ;; ret r.
Definition dir_create_empty (fs : fsptr) (p : iptr) (num parent : Z) : M (errno_t + unit) :=
  r <- be_call (fun b => ext2_dir_create_empty b fs p num parent) ;;
  emit (CCreateEmpty p num parent) (is_inr r) ;; ret r.
Definition load (p : iptr) : M ext2_inode := gets (fun s => inode_load (world s) p).
Definition store (p : iptr) (v : ext2_inode) : M unit :=
  be_exec (fun b => inode_store b p v) ;; emit (CStore p v) true.
Definition k_malloc : M (option Z) :=
  r <- be_call malloc ;; emit CMalloc (bool_decide (is_Some r)) ;; ret r.
Definition k_free (a : Z) : M unit :=
  be_exec (fun b => free b a) ;; emit (CFree a) true.
Definition k_time : M Z := be_call time_now.

(** ** The handle table *)

(** [fh[fd]].  Handles are the values [fd + 1] open hands out, so
    [fd] is not negative; C leaves an index outside the array undefined. *)
Definition slot (fd : Z) : M fh_t := fun s =>
  if fd <? 0 then Hang OutOfBounds s
  else match fh s !! Z.to_nat fd with
       | Some x => Ret x s
       | None => Hang OutOfBounds s
       end.

(** [fh[fd].field = v]. *)
Definition upd_slot (fd : Z) (f : fh_t -> fh_t) : M unit :=
  x <- slot fd ;;
  modify (with_fh (fun l => <[Z.to_nat fd := f x]> l)).

(** The scan [for(fd = 0; fd < MAX_EXT2_FILES; ++fd)] of [fs_ext2_open]
    for a slot with [inode_num == 0]: the index where it stops. *)
Fixpoint find_free (l : list fh_t) : Z :=
  match l with
  | [] => 0
  | x :: l' => if fh_inode_num x =? 0 then 0 else 1 + find_free l'
  end.

(** The scan of the mutators for a handle on inode [num]:
    [fh[irv].inode_num == dent->inode] for some [irv]. *)
Definition busy (l : list fh_t) (num : Z) : bool :=
  existsb (fun x => fh_inode_num x =? num) l.

(** The slots a loop over [fh] visits. *)
Definition table (s : state) : list fh_t := take (Z.to_nat MAX_EXT2_FILES) (fh s).

(** [fh[fd].mode & O_DIR] *)
Definition is_dir_mode (x : fh_t) : bool := nz (Z.land (fh_mode x) O_DIR).

(** The check every handle operation but [close] starts with,
    [fd >= MAX_EXT2_FILES || !fh[fd].inode_num || wrong_kind], evaluated
    left to right: the slot when the handle passes, [None] otherwise. *)
Definition checked_slot (fd : Z) (wrong_kind : fh_t -> bool) : M (option fh_t) :=
  if MAX_EXT2_FILES <=? fd then ret None
  else
    x <- slot fd ;;
    if (fh_inode_num x =? 0) || wrong_kind x then ret None else ret (Some x).

(** ** open and close *)

(** [fs_ext2_open].  [mnt] is [vfs->privdata]; the result is the handle
    [fd + 1], or 0 for [NULL].  When [ext2_inode_by_path] fails the
    slot's [inode] field still holds what it held before the call, and
    that is what the driver hands to [ext2_inode_put]. *)
Definition fs_ext2_open (mnt : fs_ext2_fs) (fn : string) (md : Z) : M Z :=
  if nz (Z.land md (Z.lor O_WRONLY O_TRUNC)) then
    set_errno EROFS ;; ret 0
  else
    mutex_lock ;;
    fd <- gets (fun s => find_free (table s)) ;;
    (if fd <? MAX_EXT2_FILES then upd_slot fd (set_inode_num (u32 (-1))) else ret tt) ;;
    if MAX_EXT2_FILES <=? fd then
      set_errno ENFILE ;; mutex_unlock ;; ret 0
    else
      r <- inode_by_path (mnt_fs mnt) fn ;;
      match r with
      | inl e =>
          upd_slot fd (set_inode_num 0) ;;
          x <- slot fd ;;
          inode_put (fh_inode x) ;;
          mutex_unlock ;;
          match e with
          | ENOENT => if nz (Z.land md O_CREAT) then set_errno EROFS else set_errno ENOENT
          | _ => set_errno e
          end ;;
          ret 0
      | inr (p, n) =>
          upd_slot fd (fun x => set_inode_num n (set_inode p x)) ;;
          ino <- load p ;;
          if nz (Z.land (i_mode ino) EXT2_S_IFDIR)
             && (nz (Z.land md O_WRONLY) || negb (nz (Z.land md O_DIR))) then
            set_errno EISDIR ;;
            upd_slot fd (set_inode_num 0) ;;
            inode_put p ;;
            mutex_unlock ;;
            ret 0
          else if nz (Z.land md O_DIR) && negb (nz (Z.land (i_mode ino) EXT2_S_IFDIR)) then
            set_errno ENOTDIR ;;
            upd_slot fd (set_inode_num 0) ;;
            inode_put p ;;
            mutex_unlock ;;
            ret 0
          else
            upd_slot fd (fun x => set_fs mnt (set_ptr 0 (set_mode md x))) ;;
            mutex_unlock ;;
            ret (fd + 1)
      end.

(** [fs_ext2_close]: the slot is given up when [fh[fd].mode] is set. *)
Definition fs_ext2_close (h : Z) : M unit :=
  let fd := h - 1 in
  mutex_lock ;;
  (if fd <? MAX_EXT2_FILES then
     x <- slot fd ;;
     if nz (fh_mode x) then
       inode_put (fh_inode x) ;;
       upd_slot fd (fun y => set_mode 0 (set_inode_num 0 y))
     else ret tt
   else ret tt) ;;
  mutex_unlock.

(** ** read, seek, tell, total *)

(** [memcpy(bbuf, block + off, n)]: the bytes that reach the buffer. *)
Definition memcpy_from (block : list Z) (off n : Z) : list Z :=
  take (Z.to_nat n) (drop (Z.to_nat off) block).

(** The loop [while(cnt)] of [fs_ext2_read]; [out] is what the caller's
    buffer holds so far.  [None] is the early [return -1]. *)
Fixpoint read_loop (fuel : nat) (fd : Z) (fs : fsptr) (bs lbs cnt : Z) (out : list Z)
  : M (option (list Z)) :=
  if cnt =? 0 then ret (Some out)
  else match fuel with
       | O => stuck OutOfFuel
       | S fuel' =>
           x <- slot fd ;;
           r <- inode_read_block fs (fh_inode x) (u32 (Z.shiftr (fh_ptr x) lbs)) ;;
           match r with
           | inl e => set_errno e ;; mutex_unlock ;; ret None
           | inr block =>
               if cnt >? bs then
                 upd_slot fd (set_ptr (u64 (fh_ptr x + bs))) ;;
                 read_loop fuel' fd fs bs lbs (wrap size_bits (cnt - bs))
                           (out ++ memcpy_from block 0 bs)
               else
                 upd_slot fd (set_ptr (u64 (fh_ptr x + cnt))) ;;
                 read_loop fuel' fd fs bs lbs 0 (out ++ memcpy_from block 0 cnt)
           end
       end.

(** [fs_ext2_read]: the value returned and the bytes copied to [buf]. *)
Definition fs_ext2_read (fuel : nat) (h : Z) (cnt : Z) : M (Z * list Z) :=
  let fd := h - 1 in
  mutex_lock ;;
  v <- checked_slot fd is_dir_mode ;;
  match v with
  | None => mutex_unlock ;; set_errno EINVAL ;; ret (-1, [])
  | Some x =>
    ino <- load (fh_inode x) ;;
    let cnt := if u64 (fh_ptr x + cnt) >? i_size ino
               then wrap size_bits (u64 (i_size ino - fh_ptr x)) else cnt in
    let fs := mnt_fs (fh_fs x) in
    bs <- gets (fun s => u32 (ext2_block_size (world s) fs)) ;;
    lbs <- gets (fun s => u32 (ext2_log_block_size (world s) fs)) ;;
    let rv := to_signed size_bits cnt in
    let bo := u32 (Z.land (fh_ptr x) (Z.shiftl 1 lbs - 1)) in
    first <-
      (if nz bo then
         r <- inode_read_block fs (fh_inode x) (u32 (Z.shiftr (fh_ptr x) lbs)) ;;
         match r with
         | inl e => set_errno e ;; mutex_unlock ;; ret None
         | inr block =>
             if cnt >? u32 (bs - bo) then
               upd_slot fd (set_ptr (u64 (fh_ptr x + u32 (bs - bo)))) ;;
               ret (Some (wrap size_bits (cnt - u32 (bs - bo)),
                          memcpy_from block bo (u32 (bs - bo))))
             else
               upd_slot fd (set_ptr (u64 (fh_ptr x + cnt))) ;;
               ret (Some (0, memcpy_from block bo cnt))
         end
       else ret (Some (cnt, []))) ;;
    match first with
    | None => ret (-1, [])
    | Some (cnt', out) =>
        r <- read_loop fuel fd fs bs lbs cnt' out ;;
        match r with
        | None => ret (-1, out)
        | Some out' => mutex_unlock ;; ret (rv, out')
        end
    end
  end.

(** [fh[fd].inode->i_size + offset], in the type C gives the sum: for a
    32-bit [off_t] both operands become unsigned 32-bit, for a 64-bit
    one the sum is taken in [off_t]. *)
Definition size_plus_offset (size offset : Z) : Z :=
  if off_bits =? 32 then u32 (size + offset) else size + offset.

(** [fs_ext2_seek] *)
Definition fs_ext2_seek (h : Z) (offset : Z) (whence : Z) : M Z :=
  let fd := h - 1 in
  mutex_lock ;;
  v <- checked_slot fd is_dir_mode ;;
  match v with
  | None => mutex_unlock ;; set_errno EINVAL ;; ret (-1)
  | Some x =>
    ino <- load (fh_inode x) ;;
    let clamp :=
      y <- slot fd ;;
      ino' <- load (fh_inode y) ;;
      (if fh_ptr y >? i_size ino' then upd_slot fd (set_ptr (i_size ino')) else ret tt) ;;
      z <- slot fd ;;
      mutex_unlock ;;
      ret (to_signed off_bits (fh_ptr z)) in
    if whence =? SEEK_SET then
      upd_slot fd (set_ptr (u64 offset)) ;; clamp
    else if whence =? SEEK_CUR then
      upd_slot fd (set_ptr (u64 (fh_ptr x + offset))) ;; clamp
    else if whence =? SEEK_END then
      upd_slot fd (set_ptr (u64 (size_plus_offset (i_size ino) offset))) ;; clamp
    else
      mutex_unlock ;; ret (-1)
  end.

(** [fs_ext2_tell] *)
Definition fs_ext2_tell (h : Z) : M Z :=
  let fd := h - 1 in
  mutex_lock ;;
  v <- checked_slot fd is_dir_mode ;;
  match v with
  | None => mutex_unlock ;; set_errno EINVAL ;; ret (-1)
  | Some x => mutex_unlock ;; ret (to_signed off_bits (fh_ptr x))
  end.

(** [fs_ext2_total]; [-1] returned as [size_t]. *)
Definition fs_ext2_total (h : Z) : M Z :=
  let fd := h - 1 in
  mutex_lock ;;
  v <- checked_slot fd is_dir_mode ;;
  match v with
  | None => mutex_unlock ;; set_errno EINVAL ;; ret (wrap size_bits (-1))
  | Some x =>
    ino <- load (fh_inode x) ;;
    mutex_unlock ;; ret (i_size ino)
  end.

(** ** readdir *)

(** The code from the label [retry] on.  The result pairs the on-disk
    entry the record was filled from with the record itself; the C
    function returns the address of the latter, [&fh[fd].dent]. *)
Fixpoint readdir_loop (fuel : nat) (fd : Z) (fs : fsptr) (bs lbs : Z)
  : M (option (ext2_dirent * dirent_t)) :=
  match fuel with
  | O => stuck OutOfFuel
  | S fuel' =>
      x <- slot fd ;;
      dir <- load (fh_inode x) ;;
      if fh_ptr x >=? i_size dir then
        mutex_unlock ;; ret None
      else
        r <- inode_read_block fs (fh_inode x) (u32 (Z.shiftr (fh_ptr x) lbs)) ;;
        match r with
        | inl e => set_errno e ;; mutex_unlock ;; ret None
        | inr block =>
            let dent := dirent_at block (Z.land (fh_ptr x) (u32 (bs - 1))) in
            if d_rec_len dent =? 0 then
              mutex_unlock ;; set_errno EBADF ;; ret None
            else if d_inode dent =? 0 then
              upd_slot fd (set_ptr (u64 (fh_ptr x + d_rec_len dent))) ;;
              readdir_loop fuel' fd fs bs lbs
            else
              i <- inode_get fs (d_inode dent) ;;
              match i with
              | None => mutex_unlock ;; set_errno EIO ;; ret None
              | Some inode =>
                  ino <- load inode ;;
                  let rec :=
                    {| de_size := i_size ino;
                       de_name := substring 0 (Z.to_nat (d_name_len dent)) (d_name dent);
                       de_time := i_mtime ino;
                       de_attr := if nz (Z.land (i_mode ino) EXT2_S_IFDIR) then O_DIR else 0 |} in
                  upd_slot fd (fun y => set_ptr (u64 (fh_ptr x + d_rec_len dent)) (set_dent rec y)) ;;
                  inode_put inode ;;
                  mutex_unlock ;;
                  ret (Some (dent, rec))
              end
        end
  end.

(** The same with the C result only: [None] is [NULL]. *)
Definition readdir_retry (fuel : nat) (fd : Z) (fs : fsptr) (bs lbs : Z)
  : M (option dirent_t) :=
  r <- readdir_loop fuel fd fs bs lbs ;; ret (snd <$> r).

(** [fs_ext2_readdir] *)
Definition fs_ext2_readdir (fuel : nat) (h : Z) : M (option dirent_t) :=
  let fd := h - 1 in
  mutex_lock ;;
  v <- checked_slot fd (fun x => negb (is_dir_mode x)) ;;
  match v with
  | None => mutex_unlock ;; set_errno EINVAL ;; ret None
  | Some x =>
    let fs := mnt_fs (fh_fs x) in
    bs <- gets (fun s => u32 (ext2_block_size (world s) fs)) ;;
    lbs <- gets (fun s => u32 (ext2_log_block_size (world s) fs)) ;;
    readdir_retry fuel fd fs bs lbs
  end.

(** ** Paths *)

(** [strrchr(cp, '/')] followed by [*ent++ = 0]: the text before the
    last slash and the text after it; [None] when there is no slash. *)
Fixpoint split_last_slash (s : string) : option (string * string) :=
  match s with
  | EmptyString => None
  | String c s' =>
      match split_last_slash s' with
      | Some (d, e) => Some (String c d, e)
      | None => if Ascii.eqb c "/"%char then Some (EmptyString, s') else None
      end
  end.

(** [(inode->i_mode & 0xF000) == EXT2_S_IFDIR] *)
Definition is_dir (ino : ext2_inode) : bool :=
  Z.land (i_mode ino) 0xF000 =? EXT2_S_IFDIR.

Definition set_times_cm (t : Z) (x : ext2_inode) : ext2_inode :=
  {| i_mode := i_mode x; i_uid := i_uid x; i_size := i_size x;
     i_atime := i_atime x; i_ctime := t; i_mtime := t; i_gid := i_gid x;
     i_links_count := i_links_count x;
     l_i_uid_high := l_i_uid_high x; l_i_gid_high := l_i_gid_high x |}.
Definition set_links (n : Z) (x : ext2_inode) : ext2_inode :=
  {| i_mode := i_mode x; i_uid := i_uid x; i_size := i_size x;
     i_atime := i_atime x; i_ctime := i_ctime x; i_mtime := i_mtime x;
     i_gid := i_gid x; i_links_count := n;
     l_i_uid_high := l_i_uid_high x; l_i_gid_high := l_i_gid_high x |}.
(** The fields [fs_ext2_mkdir] copies from the parent [par] into the
    fresh inode [x], and the three times it sets to [t]. *)
Definition inherit (par : ext2_inode) (t : Z) (x : ext2_inode) : ext2_inode :=
  {| i_mode := i_mode par; i_uid := i_uid par; i_size := i_size x;
     i_atime := t; i_ctime := t; i_mtime := t; i_gid := i_gid par;
     i_links_count := i_links_count x;
     l_i_uid_high := l_i_uid_high par; l_i_gid_high := l_i_gid_high par |}.

(** [--p->i_links_count] and [++p->i_links_count] on a 16-bit field. *)
Definition dec_links (p : iptr) : M unit :=
  x <- load p ;; store p (set_links (u16 (i_links_count x - 1)) x).
Definition inc_links (p : iptr) : M unit :=
  x <- load p ;; store p (set_links (u16 (i_links_count x + 1)) x).

Definition is_rw (mnt : fs_ext2_fs) : bool :=
  nz (Z.land (mount_flags mnt) FS_EXT2_MOUNT_READWRITE).

(** ** rename *)

(** [int_rename]: [inl e] is the return value [-e], [inr tt] is 0. *)
Definition int_rename (mnt : fs_ext2_fs) (fn1 fn2 : string)
    (pinode finode : iptr) (finode_num : Z) (isfile : bool) : M (errno_t + unit) :=
  let fs := mnt_fs mnt in
  c <- k_malloc ;;
  match c with
  | None => ret (inl ENOMEM)
  | Some cp =>
  match split_last_slash fn2 with
  | None => k_free cp ;; ret (inl EINVAL)
  | Some (dir, ent) =>
  r <- inode_by_path fs dir ;;
  match r with
  | inl e => k_free cp ;; ret (inl e)
  | inr (dpinode, dpinode_num) =>
  dp <- load dpinode ;;
  if negb (is_dir dp) then
    inode_put dpinode ;; k_free cp ;; ret (inl ENOTDIR)
  else
  dent <- dir_entry fs dpinode ent ;;
  (** the checks on an existing destination; [inl] is an early return,
      [inr] carries [dinode] and [isdir] on *)
  chk <-
    match dent with
    | None => ret (inr (None, false))
    | Some de =>
        g <- inode_get fs (d_inode de) ;;
        match g with
        | None => k_free cp ;; inode_put dpinode ;; ret (inl EIO)
        | Some dinode =>
            di <- load dinode ;;
            pre <-
              (if is_dir di then
                 if isfile then
                   k_free cp ;; inode_put dinode ;; inode_put dpinode ;;
                   ret (Some EISDIR)
                 else
                   e <- dir_is_empty fs dinode ;;
                   if e =? 0 then
                     k_free cp ;; inode_put dinode ;; inode_put dpinode ;;
                     ret (Some ENOTEMPTY)
                   else if e =? -1 then
                     k_free cp ;; inode_put dinode ;; inode_put dpinode ;;
                     ret (Some EIO)
                   else ret None
               else ret None) ;;
            match pre with
            | Some e => ret (inl e)
            | None =>
                b <- gets (fun s => busy (table s) (d_inode de)) ;;
                if b then
                  k_free cp ;; inode_put dinode ;; inode_put dpinode ;;
                  ret (inl EBUSY)
                else ret (inr (Some dinode, is_dir di))
            end
        end
    end ;;
  match chk with
  | inl e => ret (inl e)
  | inr (dinode, isdir) =>
  (** remove what is overwritten *)
  rm <-
    match dinode with
    | None => ret (inr tt)
    | Some dinode =>
        r <- dir_rm_entry fs dpinode ent ;;
        match r with
        | inl _ => k_free cp ;; inode_put dpinode ;; inode_put dinode ;; ret (inl EIO)
        | inr tmp =>
            inode_put dinode ;;
            d <- inode_deref fs tmp isdir ;;
            match d with
            | inl _ => k_free cp ;; inode_put dpinode ;; ret (inl EIO)
            | inr _ =>
                (if isdir then dec_links dpinode ;; inode_mark_dirty dpinode
                 else ret tt) ;;
                ret (inr tt)
            end
        end
    end ;;
  match rm with
  | inl e => ret (inl e)
  | inr _ =>
  a <- dir_add_entry fs dpinode ent finode_num finode ;;
  match a with
  | inl _ => k_free cp ;; inode_put dpinode ;; ret (inl EIO)
  | inr _ =>
  r <- dir_rm_entry fs pinode fn1 ;;
  match r with
  | inl _ => k_free cp ;; inode_put dpinode ;; ret (inl EIO)
  | inr _ =>
  mv <-
    (if negb isfile then
       rd <- dir_redir_entry fs finode ".."%string dpinode_num ;;
       match rd with
       | inl _ => ret false
       | inr _ =>
           dec_links pinode ;;
           inc_links dpinode ;;
           inode_mark_dirty dpinode ;;
           inode_mark_dirty pinode ;;
           ret true
       end
     else ret true) ;;
  if mv then k_free cp ;; inode_put dpinode ;; ret (inr tt)
  else ret (inl EIO)
  end end end end end end end.

(** [fs_ext2_rename]; [None] is a [NULL] file name. *)
Definition fs_ext2_rename (mnt : fs_ext2_fs) (fn1 fn2 : option string) : M Z :=
  match fn1, fn2 with
  | Some fn1, Some fn2 =>
  if String.eqb fn1 EmptyString then set_errno EINVAL ;; ret (-1) else
  if negb (is_rw mnt) then set_errno EROFS ;; ret (-1) else
  c <- k_malloc ;;
  match c with
  | None => set_errno ENOMEM ;; ret (-1)
  | Some cp =>
  match split_last_slash fn1 with
  | None => k_free cp ;; set_errno EINVAL ;; ret (-1)
  | Some (dir, ent) =>
  mutex_lock ;;
  r <- inode_by_path (mnt_fs mnt) dir ;;
  match r with
  | inl e => mutex_unlock ;; k_free cp ;; set_errno e ;; ret (-1)
  | inr (pinode, _) =>
  pi <- load pinode ;;
  if negb (is_dir pi) then
    inode_put pinode ;; mutex_unlock ;; k_free cp ;; set_errno ENOTDIR ;; ret (-1)
  else
  d <- dir_entry (mnt_fs mnt) pinode ent ;;
  match d with
  | None =>
    inode_put pinode ;; mutex_unlock ;; k_free cp ;; set_errno ENOENT ;; ret (-1)
  | Some dent =>
  g <- inode_get (mnt_fs mnt) (d_inode dent) ;;
  match g with
  | None => mutex_unlock ;; set_errno EIO ;; ret (-1)
  | Some inode =>
  ii <- load inode ;;
  r <- int_rename mnt ent fn2 pinode inode (d_inode dent) (negb (is_dir ii)) ;;
  irv <- match r with
         | inl e => set_errno e ;; ret (-1)
         | inr _ => ret 0
         end ;;
  k_free cp ;;
  inode_put pinode ;;
  inode_put inode ;;
  mutex_lock ;;
  ret irv
  end end end end end
  | _, _ => set_errno ENOENT ;; ret (-1)
  end.

(** ** unlink *)

(** [fs_ext2_unlink] *)
Definition fs_ext2_unlink (mnt : fs_ext2_fs) (fn : option string) : M Z :=
  match fn with
  | None => set_errno ENOENT ;; ret (-1)
  | Some fn =>
  if String.eqb fn EmptyString then set_errno EPERM ;; ret (-1) else
  if negb (is_rw mnt) then set_errno EROFS ;; ret (-1) else
  c <- k_malloc ;;
  match c with
  | None => set_errno ENOMEM ;; ret (-1)
  | Some cp =>
  match split_last_slash fn with
  | None => k_free cp ;; set_errno EPERM ;; ret (-1)
  | Some (dir, ent) =>
  mutex_lock ;;
  r <- inode_by_path (mnt_fs mnt) dir ;;
  match r with
  | inl e => mutex_unlock ;; k_free cp ;; set_errno e ;; ret (-1)
  | inr (pinode, _) =>
  pi <- load pinode ;;
  if negb (is_dir pi) then
    inode_put pinode ;; mutex_unlock ;; k_free cp ;; set_errno ENOTDIR ;; ret (-1)
  else
  d <- dir_entry (mnt_fs mnt) pinode ent ;;
  match d with
  | None =>
    inode_put pinode ;; mutex_unlock ;; k_free cp ;; set_errno ENOENT ;; ret (-1)
  | Some dent =>
  g <- inode_get (mnt_fs mnt) (d_inode dent) ;;
  match g with
  | None =>
    inode_put pinode ;; mutex_unlock ;; k_free cp ;; set_errno EIO ;; ret (-1)
  | Some inode =>
  ii <- load inode ;;
  if is_dir ii then
    inode_put pinode ;; inode_put inode ;; mutex_unlock ;; k_free cp ;;
    set_errno EPERM ;; ret (-1)
  else
  b <- gets (fun s => busy (table s) (d_inode dent)) ;;
  if b then
    inode_put pinode ;; inode_put inode ;; mutex_unlock ;; k_free cp ;;
    set_errno EBUSY ;; ret (-1)
  else
  r <- dir_rm_entry (mnt_fs mnt) pinode ent ;;
  match r with
  | inl e =>
    inode_put pinode ;; inode_put inode ;; mutex_unlock ;; k_free cp ;;
    set_errno e ;; ret (-1)
  | inr in_num =>
  t <- k_time ;;
  pi' <- load pinode ;;
  store pinode (set_times_cm t pi') ;;
  inode_put pinode ;;
  inode_put inode ;;
  k_free cp ;;
  r <- inode_deref (mnt_fs mnt) in_num false ;;
  match r with
  | inl e => mutex_unlock ;; set_errno e ;; ret (-1)
  | inr _ => mutex_unlock ;; ret 0
  end end end end end end end
  end.

(** ** stat *)

Inductive stat_type :=
| STAT_TYPE_NONE | STAT_TYPE_FILE | STAT_TYPE_DIR | STAT_TYPE_PIPE | STAT_TYPE_SYMLINK.

(** [stat_t] without [dev]; [attr] as its two bits. *)
Record stat_t := {
  st_unique : Z;
  st_size : Z;
  st_time : Z;
  st_type : stat_type;
  st_attr_r : bool;
  st_attr_w : bool
}.

(** The [switch(inode->i_mode & 0xF000)] of [fs_ext2_stat]. *)
Definition stat_type_of (m : Z) : stat_type :=
  let t := Z.land m 0xF000 in
  if t =? EXT2_S_IFLNK then STAT_TYPE_SYMLINK
  else if t =? EXT2_S_IFREG then STAT_TYPE_FILE
  else if t =? EXT2_S_IFDIR then STAT_TYPE_DIR
  else if (t =? EXT2_S_IFSOCK) || (t =? EXT2_S_IFIFO)
          || (t =? EXT2_S_IFBLK) || (t =? EXT2_S_IFCHR) then STAT_TYPE_PIPE
  else STAT_TYPE_NONE.

(** [fs_ext2_stat]; [has_rv] is [rv != NULL], the record is what the
    call writes through [rv]. *)
Definition fs_ext2_stat (mnt : fs_ext2_fs) (fn : string) (has_rv : bool)
  : M (Z * option stat_t) :=
  if negb has_rv then set_errno EINVAL ;; ret (-1, None)
  else
    mutex_lock ;;
    r <- inode_by_path (mnt_fs mnt) fn ;;
    match r with
    | inl e => mutex_unlock ;; set_errno e ;; ret (-1, None)
    | inr (inode, inode_num) =>
        ino <- load inode ;;
        let st :=
          {| st_unique := inode_num; st_size := i_size ino; st_time := i_mtime ino;
             st_type := stat_type_of (i_mode ino);
             st_attr_r := nz (Z.land (i_mode ino) EXT2_S_IRUSR);
             st_attr_w := nz (Z.land (i_mode ino) EXT2_S_IWUSR) |} in
        inode_put inode ;;
        mutex_unlock ;;
        ret (0, Some st)
    end.

(** ** mkdir *)

(** [fs_ext2_mkdir] *)
Definition fs_ext2_mkdir (mnt : fs_ext2_fs) (fn : option string) : M Z :=
  match fn with
  | None => set_errno ENOENT ;; ret (-1)
  | Some fn =>
  if negb (is_rw mnt) then set_errno EROFS ;; ret (-1) else
  if String.eqb fn EmptyString then set_errno EEXIST ;; ret (-1) else
  c <- k_malloc ;;
  match c with
  | None => set_errno ENOMEM ;; ret (-1)
  | Some cp =>
  match split_last_slash fn with
  | None => k_free cp ;; set_errno ENOENT ;; ret (-1)
  | Some (dir, nd) =>
  mutex_lock ;;
  r <- inode_by_path (mnt_fs mnt) dir ;;
  match r with
  | inl e => mutex_unlock ;; k_free cp ;; set_errno e ;; ret (-1)
  | inr (inode, inode_num) =>
  d <- dir_entry (mnt_fs mnt) inode nd ;;
  match d with
  | Some _ =>
    inode_put inode ;; mutex_unlock ;; k_free cp ;; set_errno EEXIST ;; ret (-1)
  | None =>
  a <- inode_alloc (mnt_fs mnt) inode_num ;;
  match a with
  | inl e =>
    inode_put inode ;; mutex_unlock ;; k_free cp ;; set_errno e ;; ret (-1)
  | inr (ninode, ninode_num) =>
  par <- load inode ;;
  t <- k_time ;;
  ni <- load ninode ;;
  store ninode (inherit par t ni) ;;
  ce <- dir_create_empty (mnt_fs mnt) ninode ninode_num inode_num ;;
  match ce with
  | inl e =>
    inode_put inode ;;
    inode_deref (mnt_fs mnt) ninode_num true ;;
    mutex_unlock ;; k_free cp ;; set_errno e ;; ret (-1)
  | inr _ =>
  ae <- dir_add_entry (mnt_fs mnt) inode nd ninode_num ninode ;;
  match ae with
  | inl e =>
    inode_put inode ;;
    inode_deref (mnt_fs mnt) ninode_num true ;;
    mutex_unlock ;; k_free cp ;; set_errno e ;; ret (-1)
  | inr _ =>
  inc_links inode ;;
  inode_mark_dirty inode ;;
  inode_put ninode ;;
  inode_put inode ;;
  mutex_unlock ;;
  k_free cp ;;
  ret 0
  end end end end end end end
  end.

(** ** rmdir *)

(** [fs_ext2_rmdir] *)
Definition fs_ext2_rmdir (mnt : fs_ext2_fs) (fn : option string) : M Z :=
  match fn with
  | None => set_errno ENOENT ;; ret (-1)
  | Some fn =>
  if String.eqb fn EmptyString || String.eqb fn "/"%string then
    set_errno EPERM ;; ret (-1) else
  if negb (is_rw mnt) then set_errno EROFS ;; ret (-1) else
  c <- k_malloc ;;
  match c with
  | None => set_errno ENOMEM ;; ret (-1)
  | Some cp =>
  match split_last_slash fn with
  | None => k_free cp ;; set_errno EPERM ;; ret (-1)
  | Some (dir, ent) =>
  mutex_lock ;;
  r <- inode_by_path (mnt_fs mnt) dir ;;
  match r with
  | inl e => mutex_unlock ;; k_free cp ;; set_errno e ;; ret (-1)
  | inr (pinode, _) =>
  pi <- load pinode ;;
  if negb (is_dir pi) then
    inode_put pinode ;; mutex_unlock ;; k_free cp ;; set_errno ENOTDIR ;; ret (-1)
  else
  d <- dir_entry (mnt_fs mnt) pinode ent ;;
  match d with
  | None =>
    inode_put pinode ;; mutex_unlock ;; k_free cp ;; set_errno ENOENT ;; ret (-1)
  | Some dent =>
  g <- inode_get (mnt_fs mnt) (d_inode dent) ;;
  match g with
  | None =>
    inode_put pinode ;; mutex_unlock ;; k_free cp ;; set_errno EIO ;; ret (-1)
  | Some inode =>
  ii <- load inode ;;
  if negb (is_dir ii) then
    inode_put pinode ;; inode_put inode ;; mutex_unlock ;; k_free cp ;;
    set_errno EPERM ;; ret (-1)
  else
  b <- gets (fun s => busy (table s) (d_inode dent)) ;;
  if b then
    inode_put pinode ;; inode_put inode ;; mutex_unlock ;; k_free cp ;;
    set_errno EBUSY ;; ret (-1)
  else
  r <- dir_rm_entry (mnt_fs mnt) pinode ent ;;
  match r with
  | inl e =>
    inode_put pinode ;; inode_put inode ;; mutex_unlock ;; k_free cp ;;
    set_errno e ;; ret (-1)
  | inr in_num =>
  inode_put inode ;;
  k_free cp ;;
  r <- inode_deref (mnt_fs mnt) in_num true ;;
  match r with
  | inl e => mutex_unlock ;; set_errno e ;; ret (-1)
  | inr _ =>
  t <- k_time ;;
  pi' <- load pinode ;;
  store pinode (set_times_cm t pi') ;;
  dec_links pinode ;;
  inode_mark_dirty pinode ;;
  inode_put pinode ;;
  mutex_unlock ;;
  ret 0
  end end end end end end end
  end.

(** ** The mount registry *)

(** [free] of a mount record or of a VFS handler. *)
Definition free_mnt (a : Z) : M unit :=
  k_free a ;; modify (with_mnt_mem (delete a)).
Definition free_vfsh (a : Z) : M unit :=
  k_free a ;; modify (with_vfs_mem (delete a)).

Definition fs_shutdown (fs : fsptr) : M unit :=
  be_exec (fun b => ext2_fs_shutdown b fs) ;; emit (CFsShutdown fs) true.

(** [fs_ext2_mount] *)
Definition fs_ext2_mount (mp : string) (dev : kos_blockdev) (flags : Z) : M Z :=
  ini <- gets initted ;;
  if negb ini then ret (-1) else
  if nz (Z.land flags FS_EXT2_MOUNT_READWRITE) && negb (write_blocks dev) then ret (-1) else
  mutex_lock ;;
  f <- be_call (fun b => ext2_fs_init b dev flags) ;;
  emit (CFsInit (dev_id dev)) (bool_decide (is_Some f)) ;;
  match f with
  | None => mutex_unlock ;; ret (-1)
  | Some fs =>
  m <- k_malloc ;;
  match m with
  | None => fs_shutdown fs ;; mutex_unlock ;; ret (-1)
  | Some mnt =>
  modify (with_mnt_mem <[mnt := {| mnt_vfsh := 0; mnt_fs := fs; mount_flags := flags |}]>) ;;
  v <- k_malloc ;;
  match v with
  | None => free_mnt mnt ;; fs_shutdown fs ;; mutex_unlock ;; ret (-1)
  | Some vfsh =>
  modify (with_vfs_mem <[vfsh := {| pathname := mp; privdata := mnt |}]>) ;;
  modify (with_mnt_mem <[mnt := {| mnt_vfsh := vfsh; mnt_fs := fs; mount_flags := flags |}]>) ;;
  modify (with_fses (cons mnt)) ;;
  r <- be_call (fun b => nmmgr_handler_add b vfsh) ;;
  emit (CNmmgrAdd vfsh) (r =? 0) ;;
  if nz r then
    free_vfsh vfsh ;; free_mnt mnt ;; fs_shutdown fs ;; mutex_unlock ;; ret (-1)
  else
    mutex_unlock ;; ret 0
  end end end.

(** [LIST_FOREACH] of [fs_ext2_unmount]: the first mount whose handler
    carries the path [mp].  Each step reads [i->vfsh->nmmgr.pathname]. *)
Fixpoint find_mount (mp : string) (l : list Z) : M (option Z) :=
  match l with
  | [] => ret None
  | i :: l' =>
      m <- gets (fun s => mnt_mem s !! i) ;;
      match m with
      | None => stuck UseAfterFree
      | Some mnt =>
          v <- gets (fun s => vfs_mem s !! mnt_vfsh mnt) ;;
          match v with
          | None => stuck UseAfterFree
          | Some vh => if String.eqb mp (pathname vh) then ret (Some i)
                       else find_mount mp l'
          end
      end
  end.

(** [LIST_REMOVE]: unlink one element. *)
Fixpoint list_remove (i : Z) (l : list Z) : list Z :=
  match l with
  | [] => []
  | j :: l' => if i =? j then l' else j :: list_remove i l'
  end.

(** [fs_ext2_unmount] *)
Definition fs_ext2_unmount (mp : string) : M Z :=
  mutex_lock ;;
  l <- gets ext2_fses ;;
  f <- find_mount mp l ;;
  match f with
  | Some i =>
      modify (with_fses (list_remove i)) ;;
      m <- gets (fun s => mnt_mem s !! i) ;;
      match m with
      | None => stuck UseAfterFree
      | Some mnt =>
          be_exec (fun b => nmmgr_handler_remove b (mnt_vfsh mnt)) ;;
          emit (CNmmgrRemove (mnt_vfsh mnt)) true ;;
          free_vfsh (mnt_vfsh mnt) ;;
          free_mnt i ;;
          mutex_unlock ;;
          ret 0
      end
  | None =>
      set_errno ENOENT ;;
      mutex_unlock ;;
      ret (-1)
  end.

(** [fs_ext2_init]: [mutex_init] leaves the mutex free. *)
Definition fs_ext2_init : M Z :=
  ini <- gets initted ;;
  if ini then ret 0
  else
    modify (with_fses (fun _ => [])) ;;
    modify (with_mutex false) ;;
    modify (with_initted true) ;;
    modify (with_fh (fun _ => replicate (Z.to_nat MAX_EXT2_FILES) zero_fh)) ;;
    ret 0.

(** ** shutdown *)

(** Modelled from the spec: [mutex_destroy] of kos/mutex.h gives the
    lock up for good.  Of what this file keeps about the mutex, whether
    it is held, nothing changes. *)
Definition mutex_destroy : M unit := ret tt.

(** The loop [while(i)] of [fs_ext2_shutdown] over the list of mounts.
    Each round reads [LIST_NEXT(i, entry)] and [i->vfsh] from the
    record before freeing it. *)
Fixpoint shutdown_loop (l : list Z) : M unit :=
  match l with
  | [] => ret tt
  | i :: l' =>
      m <- gets (fun s => mnt_mem s !! i) ;;
      match m with
      | None => stuck UseAfterFree
      | Some mnt =>
          be_exec (fun b => nmmgr_handler_remove b (mnt_vfsh mnt)) ;;
          emit (CNmmgrRemove (mnt_vfsh mnt)) true ;;
          free_vfsh (mnt_vfsh mnt) ;;
          free_mnt i ;;
          shutdown_loop l'
      end
  end.

(** [fs_ext2_shutdown]: the list head [ext2_fses] is read, never
    written. *)
Definition fs_ext2_shutdown : M Z :=
  ini <- gets initted ;;
  if negb ini then ret 0
  else
    l <- gets ext2_fses ;;
    shutdown_loop l ;;
    mutex_destroy ;;
    modify (with_initted false) ;;
    ret 0.

(** ** fcntl *)

Context {FC : FcntlCmds}.

(** [fs_ext2_fcntl]; the [va_list] is not looked at. *)
Definition fs_ext2_fcntl (h : Z) (cmd : Z) : M Z :=
  let fd := h - 1 in
  mutex_lock ;;
  v <- checked_slot fd (fun _ => false) ;;
  match v with
  | None => mutex_unlock ;; set_errno EBADF ;; ret (-1)
  | Some x =>
      if cmd =? F_GETFL then
        mutex_unlock ;; ret (fh_mode x)
      else if (cmd =? F_SETFL) || (cmd =? F_GETFD) || (cmd =? F_SETFD) then
        mutex_unlock ;; ret 0
      else
        set_errno EINVAL ;; mutex_unlock ;; ret (-1)
  end.

End Driver.

Arguments state B : clear implicits.
Arguments outcome B A : clear implicits.
Arguments M B A : clear implicits.
Arguments Ret {B A} a s.
Arguments Hang {B A} h s.

(** ** A concrete platform and a scripted backend

    The values of KallistiOS on the Dreamcast (newlib's fcntl.h, an
    ILP32 target with a 32-bit [off_t]), and a backend whose calls
    answer from a script, used to run the driver on concrete calls. *)

#[export] Instance dreamcast : Headers := {|
  O_WRONLY := 1;
  O_TRUNC := 0x400;
  O_CREAT := 0x200;
  O_DIR := 0x1000;
  SEEK_SET := 0;
  SEEK_CUR := 1;
  SEEK_END := 2;
  FS_EXT2_MOUNT_READWRITE := 1;
  EXT2_S_IFDIR := 0x4000;
  EXT2_S_IFLNK := 0xA000;
  EXT2_S_IFREG := 0x8000;
  EXT2_S_IFSOCK := 0xC000;
  EXT2_S_IFIFO := 0x1000;
  EXT2_S_IFBLK := 0x6000;
  EXT2_S_IFCHR := 0x2000;
  EXT2_S_IRUSR := 0x100;
  EXT2_S_IWUSR := 0x80;
  off_bits := 32;
  size_bits := 32;
  seek_set_cur := ltac:(discriminate);
  seek_set_end := ltac:(discriminate);
  seek_cur_end := ltac:(discriminate);
  off_bits_32_64 := or_introl eq_refl;
  size_bits_32_64 := or_introl eq_refl
|}.

(** One scripted answer per kind of backend call. *)
Inductive answer :=
| AByPath (r : errno_t + iptr * Z)
| AGet (r : option iptr)
| AAlloc (r : errno_t + iptr * Z)
| ADeref (r : errno_t + unit)
| AReadBlock (r : errno_t + list Z)
| ADirEntry (r : option ext2_dirent)
| ARmEntry (r : errno_t + Z)
| AAddEntry (r : errno_t + unit)
| ARedirEntry (r : errno_t + unit)
| AIsEmpty (r : Z)
| ACreateEmpty (r : errno_t + unit)
| AFsInit (r : option fsptr)
| AMalloc (r : option Z)
| ANmmgrAdd (r : Z).

(** The script still to be played, the inode objects in memory, the
    block-size exponent and the clock. *)
Record scripted := {
  sc_script : list answer;
  sc_inodes : gmap Z ext2_inode;
  sc_lbs : Z;
  sc_clock : Z
}.

Definition zero_inode : ext2_inode :=
  {| i_mode := 0; i_uid := 0; i_size := 0; i_atime := 0; i_ctime := 0;
     i_mtime := 0; i_gid := 0; i_links_count := 0;
     l_i_uid_high := 0; l_i_gid_high := 0 |}.

Definition sc_rest (b : scripted) : scripted :=
  {| sc_script := tail (sc_script b); sc_inodes := sc_inodes b;
     sc_lbs := sc_lbs b; sc_clock := sc_clock b |}.

(** Play the next answer when it is of the kind asked for ([pick]
    recognises it); otherwise answer [dflt] and leave the script. *)
Definition play {A} (pick : answer -> option A) (dflt : A) (b : scripted) : A * scripted :=
  match sc_script b with
  | a :: _ => match pick a with
              | Some r => (r, sc_rest b)
              | None => (dflt, b)
              end
  | [] => (dflt, b)
  end.

(** Little-endian fields of an on-disk directory entry. *)
Definition byte_at (blk : list Z) (i : Z) : Z := nth (Z.to_nat i) blk 0.
Definition le16 (blk : list Z) (i : Z) : Z := byte_at blk i + 256 * byte_at blk (i + 1).
Definition le32 (blk : list Z) (i : Z) : Z := le16 blk i + 65536 * le16 blk (i + 2).
Definition string_of_bytes (l : list Z) : string :=
  string_of_list_ascii (map (fun z => ascii_of_nat (Z.to_nat z)) l).
Definition decode_dirent (blk : list Z) (off : Z) : ext2_dirent :=
  {| d_inode := le32 blk off;
     d_rec_len := le16 blk (off + 4);
     d_name_len := byte_at blk (off + 6);
     d_name := string_of_bytes (take (Z.to_nat (byte_at blk (off + 6)))
                                     (drop (Z.to_nat (off + 8)) blk)) |}.

#[export] Instance scripted_backend : Backend scripted := {|
  ext2_inode_by_path b _ _ :=
    play (fun a => match a with AByPath r => Some r | _ => None end) (inl EIO) b;
  ext2_inode_get b _ _ :=
    play (fun a => match a with AGet r => Some r | _ => None end) None b;
  ext2_inode_put b _ := b;
  ext2_inode_alloc b _ _ :=
    play (fun a => match a with AAlloc r => Some r | _ => None end) (inl EIO) b;
  ext2_inode_deref b _ _ _ :=
    play (fun a => match a with ADeref r => Some r | _ => None end) (inl EIO) b;
  ext2_inode_mark_dirty b _ := b;
  ext2_inode_read_block b _ _ _ :=
    play (fun a => match a with AReadBlock r => Some r | _ => None end) (inl EIO) b;
  ext2_dir_entry b _ _ _ :=
    play (fun a => match a with ADirEntry r => Some r | _ => None end) None b;
  ext2_dir_rm_entry b _ _ _ :=
    play (fun a => match a with ARmEntry r => Some r | _ => None end) (inl EIO) b;
  ext2_dir_add_entry b _ _ _ _ _ :=
    play (fun a => match a with AAddEntry r => Some r | _ => None end) (inl EIO) b;
  ext2_dir_redir_entry b _ _ _ _ :=
    play (fun a => match a with ARedirEntry r => Some r | _ => None end) (inl EIO) b;
  ext2_dir_is_empty b _ _ :=
    play (fun a => match a with AIsEmpty r => Some r | _ => None end) 0 b;
  ext2_dir_create_empty b _ _ _ _ :=
    play (fun a => match a with ACreateEmpty r => Some r | _ => None end) (inl EIO) b;
  ext2_block_size b _ := Z.shiftl 1 (sc_lbs b);
  ext2_log_block_size b _ := sc_lbs b;
  ext2_fs_init b _ _ :=
    play (fun a => match a with AFsInit r => Some r | _ => None end) None b;
  ext2_fs_shutdown b _ := b;
  inode_load b p := default zero_inode (sc_inodes b !! p);
  inode_store b p v :=
    {| sc_script := sc_script b; sc_inodes := <[p := v]> (sc_inodes b);
       sc_lbs := sc_lbs b; sc_clock := sc_clock b |};
  dirent_at := decode_dirent;
  malloc b :=
    play (fun a => match a with AMalloc r => Some r | _ => None end) (Some 4096) b;
  free b _ := b;
  time_now b := (sc_clock b, b);
  nmmgr_handler_add b _ :=
    play (fun a => match a with ANmmgrAdd r => Some r | _ => None end) 0 b;
  nmmgr_handler_remove b _ := b
|}.

(** The driver right after [fs_ext2_init], over the scripted backend. *)
Definition boot (b : scripted) : state scripted :=
  {| fh := replicate (Z.to_nat MAX_EXT2_FILES) zero_fh;
     ext2_mutex := false; world := b; errno := Ecode 0; log := [];
     ext2_fses := []; mnt_mem := ∅; vfs_mem := ∅; initted := true |}.

(** A regular file of ten bytes at address 112 (inode 12), and a
    directory at address 102 (inode 2), with 1 KiB blocks. *)
Definition file12 : ext2_inode :=
  {| i_mode := 0x81A4; i_uid := 0; i_size := 10; i_atime := 0; i_ctime := 0;
     i_mtime := 7; i_gid := 0; i_links_count := 1;
     l_i_uid_high := 0; l_i_gid_high := 0 |}.
Definition dir2 : ext2_inode :=
  {| i_mode := 0x41ED; i_uid := 0; i_size := 1024; i_atime := 0; i_ctime := 0;
     i_mtime := 5; i_gid := 0; i_links_count := 3;
     l_i_uid_high := 0; l_i_gid_high := 0 |}.
Definition dir13 : ext2_inode :=
  {| i_mode := 0x41ED; i_uid := 0; i_size := 1024; i_atime := 0; i_ctime := 0;
     i_mtime := 6; i_gid := 0; i_links_count := 2;
     l_i_uid_high := 0; l_i_gid_high := 0 |}.

Definition disk (sc : list answer) : scripted :=
  {| sc_script := sc;
     sc_inodes := <[112 := file12]> (<[102 := dir2]> (<[113 := dir13]> ∅));
     sc_lbs := 10; sc_clock := 1000 |}.

(** A read-write and a read-only mount of the context at address 1. *)
Definition rw_mount : fs_ext2_fs := {| mnt_vfsh := 0; mnt_fs := 1; mount_flags := 1 |}.
Definition ro_mount : fs_ext2_fs := {| mnt_vfsh := 0; mnt_fs := 1; mount_flags := 0 |}.

(** The entries "x" (the file, inode 12) and "sub" (the directory,
    inode 13) of the directory 2. *)
Definition dent_x : ext2_dirent :=
  {| d_inode := 12; d_rec_len := 12; d_name_len := 1; d_name := "x" |}.
Definition dent_sub : ext2_dirent :=
  {| d_inode := 13; d_rec_len := 1012; d_name_len := 3; d_name := "sub" |}.

(** What the backend answers while "/a/x" is opened: it resolves to the
    file. *)
Definition open_script : list answer := [AByPath (inr (112, 12))].

(** What the backend answers during one unlink of "/a/x": the parent
    resolves to the directory, "x" is found, its inode is the file, the
    entry is removed and the inode dereferenced. *)
Definition unlink_script : list answer :=
  [AByPath (inr (102, 2)); ADirEntry (Some dent_x); AGet (Some 112);
   ARmEntry (inr 12); ADeref (inr tt)].

(** The answers an unlink of "/a/x" uses up when it stops at the scan
    of the handle table. *)
Definition busy_script : list answer := take 3 unlink_script.

(** The same for rmdir of "/a/sub". *)
Definition rmdir_script : list answer :=
  [AByPath (inr (102, 2)); ADirEntry (Some dent_sub); AGet (Some 113);
   ARmEntry (inr 13); ADeref (inr tt)].

(** rename of "/a/x" to "/b/y": both parents resolve to directories, "x"
    is the file, there is no "y", and the backend adds the new entry and
    removes the old one. *)
Definition rename_script : list answer :=
  [AByPath (inr (102, 2)); ADirEntry (Some dent_x); AGet (Some 112);
   AByPath (inr (113, 13)); ADirEntry None; AAddEntry (inr tt); ARmEntry (inr 12)].

(** A mount whose registration with the name manager fails: the
    filesystem initialises, both allocations succeed (at addresses 500
    and 600), [nmmgr_handler_add] returns -1. *)
Definition mount_script : list answer :=
  [AFsInit (Some 1); AMalloc (Some 500); AMalloc (Some 600); ANmmgrAdd (-1)].
Definition rw_device : kos_blockdev := {| dev_id := 0; write_blocks := true |}.

(** A directory block that starts with a deleted entry of 12 bytes
    followed by the entry "x" for inode 12 that fills the block. *)
Definition tomb_block : list Z :=
  [0; 0; 0; 0; 12; 0; 1; 0; 122; 0; 0; 0;
   12; 0; 0; 0; 244; 3; 1; 0; 120; 0; 0; 0].

(** The file "/a/x" opened with mode 0 on a fresh driver, the backend
    then playing [sc]. *)
Definition opened (sc : list answer) : state scripted :=
  final (fs_ext2_open rw_mount "/a/x" 0 (boot (disk (open_script ++ sc)))).

(** The directory "/a" opened with [O_DIR]. *)
Definition opened_dir (sc : list answer) : state scripted :=
  final (fs_ext2_open rw_mount "/a" O_DIR (boot (disk (AByPath (inr (102, 2)) :: sc)))).


(** ** Reading the log *)

(** How many events of a log satisfy [P]. *)
Fixpoint tally (P : event -> bool) (l : list event) : Z :=
  match l with
  | [] => 0
  | e :: l' => (if P e then 1 else 0) + tally P l'
  end.

(** An inode reference is acquired by a successful path resolution,
    inode-get or allocation, and released by [ext2_inode_put]. *)
Definition is_acquire (e : event) : bool :=
  match ev_call e with
  | CByPath _ _ | CGet _ _ | CAlloc _ _ => ev_ok e
  | _ => false
  end.
Definition is_release (e : event) : bool :=
  match ev_call e with
  | CPut _ => true
  | _ => false
  end.
Definition acquires : list event -> Z := tally is_acquire.
Definition releases : list event -> Z := tally is_release.

Definition failed_get (e : event) : bool :=
  match ev_call e with CGet _ _ => negb (ev_ok e) | _ => false end.
Definition failed_deref (e : event) : bool :=
  match ev_call e with CDeref _ _ _ => negb (ev_ok e) | _ => false end.
Definition failed_create_empty (e : event) : bool :=
  match ev_call e with CCreateEmpty _ _ _ => negb (ev_ok e) | _ => false end.
Definition failed_add_entry (e : event) : bool :=
  match ev_call e with CAddEntry _ _ _ => negb (ev_ok e) | _ => false end.
Definition failed_redir (e : event) : bool :=
  match ev_call e with CRedirEntry _ _ _ => negb (ev_ok e) | _ => false end.
Definition failed_read_block (e : event) : bool :=
  match ev_call e with CReadBlock _ _ => negb (ev_ok e) | _ => false end.

(** Calls that change the file system's structure or an inode. *)
Definition is_mutation (e : event) : bool :=
  match ev_call e with
  | CRmEntry _ _ | CAddEntry _ _ _ | CRedirEntry _ _ _ | CDeref _ _ _
  | CStore _ _ | CMarkDirty _ | CAlloc _ _ | CCreateEmpty _ _ _ => true
  | _ => false
  end.

(** ** Properties of a call, read off its first and last state *)

(** The handle table has its sixteen slots. *)
Definition wf {B} (s : state B) : Prop := length (fh s) = Z.to_nat MAX_EXT2_FILES.

(** Between [s] and [s'] as many inode references were released as were
    acquired. *)
Definition balanced {B} (s s' : state B) : Prop :=
  acquires (log s') - acquires (log s) = releases (log s') - releases (log s).


(** Between [s] and [s'] no event satisfying [P] was logged (a log only
    ever grows at its head). *)
Definition unseen {B} (P : event -> bool) (s s' : state B) : Prop :=
  tally P (log s') = tally P (log s).

(** The call came back to its caller and left the mutex free. *)
Definition returns_unlocked {B A} (o : outcome B A) : Prop :=
  match o with
  | Ret _ s' => ext2_mutex s' = false
  | Hang _ _ => False
  end.

(** The position a seek asks for, before any clamping, as an unbounded
    integer; [None] for an unknown origin. *)
Definition seek_target `{Headers} (whence ptr size offset : Z) : option Z :=
  if whence =? SEEK_SET then Some offset
  else if whence =? SEEK_CUR then Some (ptr + offset)
  else if whence =? SEEK_END then Some (size + offset)
  else None.

(** newlib's [fcntl] commands. *)
#[export] Instance dreamcast_fcntl : FcntlCmds := {|
  F_GETFL := 3;
  F_SETFL := 4;
  F_GETFD := 1;
  F_SETFD := 2;
  getfl_setfl := ltac:(discriminate);
  getfl_getfd := ltac:(discriminate);
  getfl_setfd := ltac:(discriminate)
|}.

(** ** Memory and the registry in the log *)

(** A block of memory is obtained by a successful [malloc] or [strdup]
    and given back by [free]. *)
Definition is_alloc (e : event) : bool :=
  match ev_call e with CMalloc => ev_ok e | _ => false end.
Definition is_free (e : event) : bool :=
  match ev_call e with CFree _ => true | _ => false end.
Definition allocs : list event -> Z := tally is_alloc.
Definition frees : list event -> Z := tally is_free.

(** An ext2 context is set up by a successful [ext2_fs_init] and torn
    down by [ext2_fs_shutdown]. *)
Definition is_fs_init (e : event) : bool :=
  match ev_call e with CFsInit _ => ev_ok e | _ => false end.
Definition is_fs_shutdown (e : event) : bool :=
  match ev_call e with CFsShutdown _ => true | _ => false end.
Definition is_nmmgr_remove (e : event) : bool :=
  match ev_call e with CNmmgrRemove _ => true | _ => false end.

(** The path copy made between [s] and [s'] was freed in between. *)
Definition copy_freed {B} (s s' : state B) : Prop :=
  allocs (log s') - allocs (log s) = frees (log s') - frees (log s).

(** The mount record at [i] is live, so is its VFS handler, and the
    handler is registered under [mp] or not, as [b] says. *)
Definition mounted_at {B} (s : state B) (mp : string) (b : bool) (i : Z) : Prop :=
  exists m v, mnt_mem s !! i = Some m /\ vfs_mem s !! mnt_vfsh m = Some v /\
              String.eqb mp (pathname v) = b.

(** ** The bytes of a file *)

(** The byte at offset [o] of a file whose block number [k] is
    [image k], with blocks of [bs] bytes. *)
Definition file_byte (image : Z -> list Z) (bs o : Z) : Z :=
  nth (Z.to_nat (o mod bs)) (image (o / bs)) 0.

(** The [n] bytes of the file from offset [o] on. *)
Definition file_bytes (image : Z -> list Z) (bs o n : Z) : list Z :=
  file_byte image bs <$> seqZ o n.

(** The scripted backend, except that every block fetch succeeds and
    hands out the block of [image]. *)
Definition serving (image : Z -> list Z) : Backend scripted := {|
  ext2_inode_by_path := @ext2_inode_by_path _ scripted_backend;
  ext2_inode_get := @ext2_inode_get _ scripted_backend;
  ext2_inode_put := @ext2_inode_put _ scripted_backend;
  ext2_inode_alloc := @ext2_inode_alloc _ scripted_backend;
  ext2_inode_deref := @ext2_inode_deref _ scripted_backend;
  ext2_inode_mark_dirty := @ext2_inode_mark_dirty _ scripted_backend;
  ext2_inode_read_block b _ _ k := (inr (image k), b);
  ext2_dir_entry := @ext2_dir_entry _ scripted_backend;
  ext2_dir_rm_entry := @ext2_dir_rm_entry _ scripted_backend;
  ext2_dir_add_entry := @ext2_dir_add_entry _ scripted_backend;
  ext2_dir_redir_entry := @ext2_dir_redir_entry _ scripted_backend;
  ext2_dir_is_empty := @ext2_dir_is_empty _ scripted_backend;
  ext2_dir_create_empty := @ext2_dir_create_empty _ scripted_backend;
  ext2_block_size := @ext2_block_size _ scripted_backend;
  ext2_log_block_size := @ext2_log_block_size _ scripted_backend;
  ext2_fs_init := @ext2_fs_init _ scripted_backend;
  ext2_fs_shutdown := @ext2_fs_shutdown _ scripted_backend;
  inode_load := @inode_load _ scripted_backend;
  inode_store := @inode_store _ scripted_backend;
  dirent_at := @dirent_at _ scripted_backend;
  malloc := @malloc _ scripted_backend;
  free := @free _ scripted_backend;
  time_now := @time_now _ scripted_backend;
  nmmgr_handler_add := @nmmgr_handler_add _ scripted_backend;
  nmmgr_handler_remove := @nmmgr_handler_remove _ scripted_backend
|}.

(** A change of the file system that the backend carried out. *)
Definition is_change (e : event) : bool := is_mutation e && ev_ok e.

(** ** Further scenarios over the scripted backend *)

(** "/a/x" opened with mode [md] on a fresh driver, the backend then
    playing [sc]. *)
Definition opened_with (md : Z) (sc : list answer) : state scripted :=
  final (fs_ext2_open rw_mount "/a/x" md (boot (disk (open_script ++ sc)))).

(** All sixteen slots taken by handles on inode 12. *)
Definition full_table : state scripted :=
  with_fh (fun _ => replicate (Z.to_nat MAX_EXT2_FILES) (set_inode_num 12 zero_fh))
          (boot (disk [])).

(** What the backend answers during mkdir of "/a/new": the parent
    resolves to the directory 2, there is no "new" in it, inode 14 is
    allocated at address 114, set up and entered. *)
Definition mkdir_script : list answer :=
  [AByPath (inr (102, 2)); ADirEntry None; AAlloc (inr (114, 14));
   ACreateEmpty (inr tt); AAddEntry (inr tt)].

(** Two mounts in a row, "/ext2" (record 500, handler 600) and then
    "/sd" (record 700, handler 800), both registered. *)
Definition two_mounts_script : list answer :=
  [AFsInit (Some 1); AMalloc (Some 500); AMalloc (Some 600); ANmmgrAdd 0;
   AFsInit (Some 2); AMalloc (Some 700); AMalloc (Some 800); ANmmgrAdd 0].
Definition two_mounts : state scripted :=
  final (fs_ext2_mount "/sd" rw_device 1
           (final (fs_ext2_mount "/ext2" rw_device 1 (boot (disk two_mounts_script))))).

(** A directory block whose first entry is "x" for inode 12. *)
Definition live_block : list Z := drop 12 tomb_block.

(** The file of ten bytes on a file system with blocks of four bytes,
    block [k] of the file holding the numbers [4k] to [4k+3]. *)
Definition small_disk (sc : list answer) : scripted :=
  {| sc_script := sc; sc_inodes := <[112 := file12]> ∅; sc_lbs := 2; sc_clock := 1000 |}.
Definition count_up (k : Z) : list Z := seqZ (4 * k) 4.

(** * Proofs *)

Section Proofs.
Context {HD : Headers} {B : Type} {BE : Backend B}.

Ltac unfold_ops :=
  unfold inode_by_path, inode_get, inode_put, inode_alloc, inode_deref,
    inode_mark_dirty, inode_read_block, dir_entry, dir_rm_entry, dir_add_entry,
    dir_redir_entry, dir_is_empty, dir_create_empty, load, store, k_malloc,
    k_free, k_time, dec_links, inc_links, set_errno, emit, be_call, be_exec,
    mutex_lock, mutex_unlock, bind, ret, gets, modify, stuck in *.

(** Case analysis on the innermost scrutinee of the goal, reusing an
    equation about it when the context has one. *)
Ltac break_match :=
  match goal with
  | H : ?x = _ |- context [match ?x with _ => _ end] => rewrite H
  | |- context [match ?x with _ => _ end] =>
      lazymatch x with
      | context [match _ with _ => _ end] => fail
      | _ => destruct x eqn:?
      end
  end.

Ltac crunch Hm := repeat (break_match; cbn in *; try rewrite Hm in *; try lia).

(** *** The handle table *)

Lemma table_wf (s : state B) : wf s -> table s = fh s.
Proof. intros H. unfold table. apply take_ge. rewrite H. lia. Qed.

Lemma find_free_range (l : list fh_t) : 0 <= find_free l <= Z.of_nat (length l).
Proof.
  induction l as [|x l IH]; cbn [find_free length]; [lia|].
  destruct (fh_inode_num x =? 0); lia.
Qed.

Lemma find_free_lookup (l : list fh_t) :
  find_free l < Z.of_nat (length l) ->
  exists x, l !! Z.to_nat (find_free l) = Some x /\ fh_inode_num x = 0.
Proof.
  induction l as [|x l IH]; cbn [find_free length]; [lia|].
  destruct (fh_inode_num x =? 0) eqn:E; intros H.
  - exists x. split; [reflexivity | lia].
  - destruct IH as [y [Hy Hz]]; [lia|]. exists y. split; [|exact Hz].
    pose proof (find_free_range l).
    replace (Z.to_nat (1 + find_free l)) with (S (Z.to_nat (find_free l))) by lia.
    exact Hy.
Qed.

Lemma slot_ok (s : state B) fd x :
  0 <= fd -> fh s !! Z.to_nat fd = Some x -> slot fd s = Ret x s.
Proof.
  intros H0 Hx. unfold slot. destruct (fd <? 0) eqn:E; [lia|]. now rewrite Hx.
Qed.

Lemma upd_slot_ok (s : state B) fd x f :
  0 <= fd -> fh s !! Z.to_nat fd = Some x ->
  upd_slot fd f s = Ret tt (with_fh (fun l => <[Z.to_nat fd := f x]> l) s).
Proof.
  intros H0 Hx. unfold upd_slot, bind. now rewrite (slot_ok s fd x).
Qed.

Lemma bind_Ret {A C} (m : M B A) (k : A -> M B C) s a s' :
  m s = Ret a s' -> bind m k s = k a s'.
Proof. intros H. unfold bind. now rewrite H. Qed.

(** *** Reference counting, operation by operation *)







Lemma read_loop_tally (P : event -> bool) :
  (forall p blk ok, P (Ev (CReadBlock p blk) ok) = false) ->
  forall fuel fd fs bs lbs cnt out (s : state B),
    tally P (log (final (read_loop fuel fd fs bs lbs cnt out s))) = tally P (log s).
Proof.
  intros HP. induction fuel as [|fuel IH]; intros; cbn [read_loop].
  - destruct (cnt =? 0); reflexivity.
  - destruct (cnt =? 0); [reflexivity|].
    unfold slot, upd_slot, slot. unfold_ops.
    repeat (break_match; cbn [final log with_fh with_world with_log with_mutex with_errno tally];
            rewrite ?IH; cbn [final log with_fh with_world with_log with_mutex with_errno tally];
            rewrite ?HP; try reflexivity).
Qed.

Lemma read_tally (P : event -> bool) :
  (forall p blk ok, P (Ev (CReadBlock p blk) ok) = false) ->
  forall fuel h cnt (s : state B),
    tally P (log (final (fs_ext2_read fuel h cnt s))) = tally P (log s).
Proof.
  intros HP fuel h cnt s. unfold fs_ext2_read, checked_slot.
  unfold slot, upd_slot, slot. unfold_ops.
  repeat (break_match; cbn [final log with_fh with_world with_log with_mutex with_errno tally];
          rewrite ?HP; try reflexivity).
  all: match goal with
       | H : read_loop ?a1 ?a2 ?a3 ?a4 ?a5 ?a6 ?a7 ?s0 = _ |- _ =>
           pose proof (read_loop_tally P HP a1 a2 a3 a4 a5 a6 a7 s0) as HL; rewrite H in HL;
           cbn [final log with_fh with_world with_log with_mutex with_errno tally] in HL;
           rewrite ?HP in HL; cbn in HL; rewrite HL; reflexivity
       end.
Qed.






(** *** The mutex *)

(** unlink, mkdir, rmdir and stat come back with the mutex free. *)
Lemma siblings_release_mutex mnt fn (s : state B) :
  ext2_mutex s = false ->
  returns_unlocked (fs_ext2_unlink mnt fn s) /\
  returns_unlocked (fs_ext2_mkdir mnt fn s) /\
  returns_unlocked (fs_ext2_rmdir mnt fn s) /\
  (forall path rv, returns_unlocked (fs_ext2_stat mnt path rv s)).
Proof.
  intros Hm. repeat split; intros;
    unfold fs_ext2_unlink, fs_ext2_mkdir, fs_ext2_rmdir, fs_ext2_stat, returns_unlocked;
    unfold_ops; crunch Hm; auto.
Qed.

(** So does mount, whether it succeeds or fails. *)
Lemma mount_releases_mutex mp dev flags (s : state B) :
  ext2_mutex s = false ->
  returns_unlocked (fs_ext2_mount mp dev flags s).
Proof.
  intros Hm. unfold fs_ext2_mount, fs_shutdown, free_mnt, free_vfsh, returns_unlocked.
  unfold_ops. crunch Hm; auto.
Qed.

(** rename comes back only from its early error returns; every path
    through [int_rename] ends in a second [mutex_lock] on the mutex the
    call itself holds. *)
Lemma rename_returns_or_deadlocks mnt fn1 fn2 (s : state B) :
  ext2_mutex s = false ->
  match fs_ext2_rename mnt fn1 fn2 s with
  | Ret rv s' => rv = -1 /\ ext2_mutex s' = false
  | Hang why s' => why = Deadlock /\ ext2_mutex s' = true
  end.
Proof.
  intros Hm. unfold fs_ext2_rename, int_rename.
  unfold_ops. crunch Hm; auto.
Qed.

(** *** The mount registry *)

(** A mount that fails before the VFS registration is attempted leaves
    the list of mounts as it was. *)
Lemma mount_fails_early mp dev flags (s : state B) :
  ext2_mutex s = false ->
  let o := fs_ext2_mount mp dev flags s in
  unseen (fun e => match ev_call e with CNmmgrAdd _ => true | _ => false end) s (final o) ->
  returned o = Some (-1) ->
  ext2_fses (final o) = ext2_fses s /\ ext2_mutex (final o) = false.
Proof.
  intros Hm. unfold fs_ext2_mount, fs_shutdown, free_mnt, free_vfsh, unseen.
  unfold_ops. crunch Hm; intros; try discriminate; auto; try lia.
Qed.

(** *** Machine arithmetic *)

Lemma wrap_small w z : 0 <= z < 2 ^ w -> wrap w z = z.
Proof. intros H. unfold wrap. now apply Z.mod_small. Qed.

Lemma wrap_neg w z : - 2 ^ w <= z < 0 -> wrap w z = z + 2 ^ w.
Proof.
  intros H. unfold wrap.
  replace z with (z + 2 ^ w + (-1) * 2 ^ w) at 1 by lia.
  rewrite Z.mod_add by lia. apply Z.mod_small. lia.
Qed.

Lemma to_signed_small w z : 0 < w -> 0 <= z < 2 ^ (w - 1) -> to_signed w z = z.
Proof.
  intros Hw H. unfold to_signed.
  assert (2 ^ w = 2 * 2 ^ (w - 1)).
  { replace w with (1 + (w - 1)) at 1 by lia. rewrite Z.pow_add_r by lia. reflexivity. }
  rewrite wrap_small by lia.
  destruct (z <? 2 ^ (w - 1)) eqn:E; lia.
Qed.

Lemma set_ptr_set_ptr a b x : set_ptr a (set_ptr b x) = set_ptr a x.
Proof. reflexivity. Qed.

(** *** seek *)

(** What [fs_ext2_seek] does once the handle passed its check and the
    cursor was set to [p]: clamp, unlock, return. *)
Lemma seek_tail h x p whence offset (s : state B) :
  ext2_mutex s = false ->
  0 < h <= MAX_EXT2_FILES ->
  fh s !! Z.to_nat (h - 1) = Some x ->
  fh_inode_num x <> 0 -> is_dir_mode x = false ->
  (whence = SEEK_SET /\ p = u64 offset \/
   whence = SEEK_CUR /\ p = u64 (fh_ptr x + offset) \/
   whence = SEEK_END /\
     p = u64 (size_plus_offset (i_size (inode_load (world s) (fh_inode x))) offset)) ->
  let size := i_size (inode_load (world s) (fh_inode x)) in
  let c := if p >? size then size else p in
  exists s', fs_ext2_seek h offset whence s = Ret (to_signed off_bits c) s' /\
             fh s' !! Z.to_nat (h - 1) = Some (set_ptr c x) /\
             ext2_mutex s' = false.
Proof.
  intros Hm Hh Hx Hnum Hdir Hw size c.
  assert (Hlt : (Z.to_nat (h - 1) < length (fh s))%nat) by (apply lookup_lt_is_Some; eauto).
  pose proof seek_set_cur. pose proof seek_set_end. pose proof seek_cur_end.
  unfold fs_ext2_seek, checked_slot, slot, upd_slot, slot. unfold_ops.
  rewrite Hm. cbn.
  destruct (MAX_EXT2_FILES <=? h - 1) eqn:E1; [unfold MAX_EXT2_FILES in *; lia|].
  destruct (h - 1 <? 0) eqn:E0; [lia|]. cbn. rewrite Hx. cbn.
  destruct (fh_inode_num x =? 0) eqn:E2; [lia|]. rewrite Hdir. cbn.
  destruct Hw as [[-> ->]|[[-> ->]|[-> ->]]].
  - rewrite Z.eqb_refl. cbn. rewrite Hx. cbn.
    rewrite list_lookup_insert_eq by lia. cbn. subst c size.
    destruct (u64 offset >? _) eqn:Ec; cbn;
      repeat (rewrite list_lookup_insert_eq by (rewrite ?length_insert; lia); cbn);
      (eexists; split; [reflexivity|]; cbn;
       rewrite list_lookup_insert_eq by (rewrite ?length_insert; lia); auto).
  - destruct (SEEK_CUR =? SEEK_SET) eqn:Ea; [lia|]. rewrite Z.eqb_refl. cbn. rewrite Hx. cbn.
    rewrite list_lookup_insert_eq by lia. cbn. subst c size.
    destruct (u64 (fh_ptr x + offset) >? _) eqn:Ec; cbn;
      repeat (rewrite list_lookup_insert_eq by (rewrite ?length_insert; lia); cbn);
      (eexists; split; [reflexivity|]; cbn;
       rewrite list_lookup_insert_eq by (rewrite ?length_insert; lia); auto).
  - destruct (SEEK_END =? SEEK_SET) eqn:Ea; [lia|].
    destruct (SEEK_END =? SEEK_CUR) eqn:Eb; [lia|]. rewrite Z.eqb_refl. cbn. rewrite Hx. cbn.
    rewrite list_lookup_insert_eq by lia. cbn. subst c size.
    destruct (u64 (size_plus_offset _ offset) >? _) eqn:Ec; cbn;
      repeat (rewrite list_lookup_insert_eq by (rewrite ?length_insert; lia); cbn);
      (eexists; split; [reflexivity|]; cbn;
       rewrite list_lookup_insert_eq by (rewrite ?length_insert; lia); auto).
Qed.

Lemma clamp_nonneg p t size :
  0 <= size -> p = t -> 0 <= t ->
  (if p >? size then size else p) = (if (0 <=? t) && (t <=? size) then t else size).
Proof.
  intros Hs -> Ht. destruct (t >? size) eqn:E1, (0 <=? t) eqn:E2, (t <=? size) eqn:E3; cbn; lia.
Qed.

Lemma clamp_negative p t size :
  size < p -> t < 0 ->
  (if p >? size then size else p) = (if (0 <=? t) && (t <=? size) then t else size).
Proof.
  intros Hp Ht. destruct (p >? size) eqn:E1, (0 <=? t) eqn:E2; cbn; lia.
Qed.

Lemma u64_target t size :
  0 <= size < 2 ^ 32 -> - 2 ^ 63 <= t < 2 ^ 64 ->
  (if u64 t >? size then size else u64 t) = (if (0 <=? t) && (t <=? size) then t else size).
Proof.
  intros Hs Ht. unfold u64.
  change (2 ^ 32) with 4294967296 in *. change (2 ^ 63) with 9223372036854775808 in *.
  destruct (Z_lt_le_dec t 0).
  - apply clamp_negative; [|lia]. rewrite wrap_neg; change (2 ^ 64) with 18446744073709551616 in *; lia.
  - apply clamp_nonneg; [lia| |lia]. apply wrap_small. lia.
Qed.

(** C4 (amended): on a valid file handle, a seek from one of the three
    origins leaves the cursor inside [0, size] and returns it: a target
    inside the file is taken as it is, a target past the end and a
    target below zero both end at exactly the file size (a negative
    position wraps to a huge unsigned one before the bound check); for
    [SEEK_END] with a 32-bit [off_t] this needs [size + offset] to fit
    32 bits.  Any other origin returns -1 and leaves the table alone. *)
Theorem seek_clamps_into_file h x offset whence (s : state B) :
  ext2_mutex s = false ->
  0 < h <= MAX_EXT2_FILES ->
  fh s !! Z.to_nat (h - 1) = Some x ->
  fh_inode_num x <> 0 -> is_dir_mode x = false ->
  let size := i_size (inode_load (world s) (fh_inode x)) in
  0 <= fh_ptr x <= size -> size < 2 ^ 32 ->
  in_signed off_bits offset ->
  (whence = SEEK_END -> off_bits = 32 -> size + offset < 2 ^ 32) ->
  match seek_target whence (fh_ptr x) size offset with
  | Some t =>
      let c := if (0 <=? t) && (t <=? size) then t else size in
      0 <= c <= size /\
      (size < 2 ^ (off_bits - 1) -> to_signed off_bits c = c) /\
      exists s', fs_ext2_seek h offset whence s = Ret (to_signed off_bits c) s' /\
                 fh s' !! Z.to_nat (h - 1) = Some (set_ptr c x) /\
                 ext2_mutex s' = false
  | None =>
      exists s', fs_ext2_seek h offset whence s = Ret (-1) s' /\
                 fh s' = fh s /\ ext2_mutex s' = false
  end.
Proof.
  intros Hm Hh Hx Hnum Hdir size Hptr Hsize Hoff Hend.
  assert (Hob : 0 < off_bits /\ - 2 ^ 63 <= offset < 2 ^ 63).
  { unfold in_signed in Hoff.
    destruct off_bits_32_64 as [E|E]; rewrite E in *.
    - change (2 ^ (32 - 1)) with 2147483648 in Hoff.
      change (2 ^ 63) with 9223372036854775808. lia.
    - change (2 ^ (64 - 1)) with 9223372036854775808 in Hoff.
      change (2 ^ 63) with 9223372036854775808. lia. }
  destruct Hob as [Hpos Hoff'].
  change (2 ^ 32) with 4294967296 in *. change (2 ^ 63) with 9223372036854775808 in *.
  unfold seek_target.
  assert (Hc : forall t, let c := if (0 <=? t) && (t <=? size) then t else size in
             0 <= c <= size /\ (size < 2 ^ (off_bits - 1) -> to_signed off_bits c = c)).
  { intros t c. assert (0 <= c <= size).
    { subst c. destruct (0 <=? t) eqn:E2, (t <=? size) eqn:E3; cbn; lia. }
    split; [assumption|]. intros Hfit. apply to_signed_small; lia. }
  assert (Htail : forall p t,
    (whence = SEEK_SET /\ p = u64 offset \/
     whence = SEEK_CUR /\ p = u64 (fh_ptr x + offset) \/
     whence = SEEK_END /\ p = u64 (size_plus_offset size offset)) ->
    (if p >? size then size else p) = (if (0 <=? t) && (t <=? size) then t else size) ->
    let c := if (0 <=? t) && (t <=? size) then t else size in
    0 <= c <= size /\
    (size < 2 ^ (off_bits - 1) -> to_signed off_bits c = c) /\
    exists s', fs_ext2_seek h offset whence s = Ret (to_signed off_bits c) s' /\
               fh s' !! Z.to_nat (h - 1) = Some (set_ptr c x) /\
               ext2_mutex s' = false).
  { intros p t Hw Heq c. destruct (Hc t) as [H1 H2]. split; [exact H1|]. split; [exact H2|].
    destruct (seek_tail h x p whence offset s Hm Hh Hx Hnum Hdir Hw) as [s' Hs'].
    cbv zeta in Hs'. fold size in Hs'. rewrite Heq in Hs'. exists s'. exact Hs'. }
  destruct (whence =? SEEK_SET) eqn:E1.
  { apply (Htail (u64 offset)); [left; split; [lia|reflexivity]|].
    apply u64_target; change (2 ^ 32) with 4294967296; change (2 ^ 63) with 9223372036854775808;
      change (2 ^ 64) with 18446744073709551616; lia. }
  destruct (whence =? SEEK_CUR) eqn:E2.
  { apply (Htail (u64 (fh_ptr x + offset))); [right; left; split; [lia|reflexivity]|].
    apply u64_target; change (2 ^ 32) with 4294967296; change (2 ^ 63) with 9223372036854775808;
      change (2 ^ 64) with 18446744073709551616; lia. }
  destruct (whence =? SEEK_END) eqn:E3.
  { apply (Htail (u64 (size_plus_offset size offset))); [right; right; split; [lia|reflexivity]|].
    unfold size_plus_offset.
    destruct off_bits_32_64 as [E|E]; rewrite E in *; cbn [Z.eqb Pos.eqb].
    - assert (Ht : size + offset < 4294967296) by (apply Hend; lia).
      unfold in_signed in Hoff. change (2 ^ (32 - 1)) with 2147483648 in Hoff.
      destruct (Z_lt_le_dec (size + offset) 0).
      + apply clamp_negative; [|lia]. unfold u64, u32.
        rewrite (wrap_neg 32) by (change (2 ^ 32) with 4294967296; lia).
        rewrite wrap_small; change (2 ^ 32) with 4294967296;
          change (2 ^ 64) with 18446744073709551616; lia.
      + apply clamp_nonneg; [lia| |lia]. unfold u64, u32.
        rewrite (wrap_small 32) by (change (2 ^ 32) with 4294967296; lia).
        apply wrap_small. change (2 ^ 64) with 18446744073709551616; lia.
    - apply u64_target; change (2 ^ 32) with 4294967296; change (2 ^ 63) with 9223372036854775808;
        change (2 ^ 64) with 18446744073709551616; lia. }
  (* unknown origin *)
  assert (Hlt : (Z.to_nat (h - 1) < length (fh s))%nat) by (apply lookup_lt_is_Some; eauto).
  unfold fs_ext2_seek, checked_slot, slot, upd_slot, slot. unfold_ops.
  rewrite Hm. cbn.
  destruct (MAX_EXT2_FILES <=? h - 1) eqn:E4; [unfold MAX_EXT2_FILES in *; lia|].
  destruct (h - 1 <? 0) eqn:E0; [lia|]. cbn. rewrite Hx. cbn.
  destruct (fh_inode_num x =? 0) eqn:E5; [lia|]. rewrite Hdir. cbn.
  rewrite E1, E2, E3. cbn. eexists. split; [reflexivity|]. auto.
Qed.

(** *** open *)

Lemma set_inode_num_id x : fh_inode_num x = 0 -> set_inode_num 0 x = x.
Proof. destruct x; cbn; intros ->; reflexivity. Qed.

(** C5 (amended): a mode with the write or the truncate flag is refused
    with EROFS before the lock, the table or the backend are touched.
    Without those flags and with a free slot: a path the backend reports
    as missing (ENOENT) makes open return NULL with the table as it was,
    errno being EROFS when the create flag is set and ENOENT when it is
    not; a path that resolves to something that is not a directory,
    opened without [O_DIR], yields the handle of the first free slot,
    with or without the create flag. *)
Theorem open_rejects_write_intent mnt fn md (s : state B) :
  ext2_mutex s = false -> wf s ->
  (Z.land md (Z.lor O_WRONLY O_TRUNC) <> 0 ->
   fs_ext2_open mnt fn md s = Ret 0 (with_errno EROFS s)) /\
  (Z.land md (Z.lor O_WRONLY O_TRUNC) = 0 ->
   find_free (fh s) < MAX_EXT2_FILES ->
   forall w, ext2_inode_by_path (world s) (mnt_fs mnt) fn = (inl ENOENT, w) ->
   exists s', fs_ext2_open mnt fn md s = Ret 0 s' /\
              fh s' = fh s /\ ext2_mutex s' = false /\
              errno s' = if nz (Z.land md O_CREAT) then EROFS else ENOENT) /\
  (Z.land md (Z.lor O_WRONLY O_TRUNC) = 0 ->
   find_free (fh s) < MAX_EXT2_FILES ->
   forall p n w, ext2_inode_by_path (world s) (mnt_fs mnt) fn = (inr (p, n), w) ->
   nz (Z.land (i_mode (inode_load w p)) EXT2_S_IFDIR) = false ->
   nz (Z.land md O_DIR) = false ->
   exists x s', fs_ext2_open mnt fn md s = Ret (find_free (fh s) + 1) s' /\
                fh s' !! Z.to_nat (find_free (fh s)) = Some x /\
                fh_inode_num x = n /\ fh_inode x = p /\ fh_mode x = md /\
                errno s' = errno s /\ ext2_mutex s' = false).
Proof.
  intros Hm Hwf. split; [|split].
  - intros Hflags. unfold fs_ext2_open, nz.
    destruct (Z.land md (Z.lor O_WRONLY O_TRUNC) =? 0) eqn:E; [lia|]. reflexivity.
  - intros Hflags Hfree w Hw. unfold fs_ext2_open, nz at 1. rewrite Hflags. cbn [Z.eqb negb].
    unfold mutex_lock at 1. unfold bind at 1. rewrite Hm.
    unfold bind at 1, gets at 1.
    replace (table (with_mutex true s)) with (fh s) by (symmetry; apply (table_wf s Hwf)).
    pose proof (find_free_range (fh s)) as Hr.
    destruct (find_free_lookup (fh s)) as [x [Hx Hz]].
    { unfold wf in Hwf. rewrite Hwf. unfold MAX_EXT2_FILES in *. lia. }
    assert (Hlt : (Z.to_nat (find_free (fh s)) < length (fh s))%nat).
    { apply lookup_lt_is_Some. eauto. }
    set (fd := find_free (fh s)) in *.
    destruct (fd <? MAX_EXT2_FILES) eqn:Efd; [|lia].
    erewrite bind_Ret; [| apply upd_slot_ok; [lia | exact Hx]].
    destruct (MAX_EXT2_FILES <=? fd) eqn:E2; [lia|].
    unfold inode_by_path. unfold_ops. cbn. rewrite Hw. cbn.
    unfold slot, upd_slot, slot. unfold_ops. cbn.
    destruct (fd <? 0) eqn:E3; [lia|]. cbn.
    rewrite list_lookup_insert_eq by lia. cbn.
    rewrite list_lookup_insert_eq by (rewrite length_insert; lia). cbn.
    assert (Hfh : <[Z.to_nat fd := set_inode_num 0 (set_inode_num (u32 (-1)) x)]>
                    (<[Z.to_nat fd := set_inode_num (u32 (-1)) x]> (fh s)) = fh s).
    { rewrite list_insert_insert_eq.
      change (set_inode_num 0 (set_inode_num (u32 (-1)) x)) with (set_inode_num 0 x).
      rewrite set_inode_num_id by exact Hz. apply list_insert_id. exact Hx. }
    destruct (nz (Z.land md O_CREAT)); cbn;
      (eexists; split; [reflexivity|]; cbn; rewrite Hfh; auto).
  - intros Hflags Hfree p n w Hw Hnd Hmd. unfold fs_ext2_open, nz at 1. rewrite Hflags.
    cbn [Z.eqb negb].
    unfold mutex_lock at 1. unfold bind at 1. rewrite Hm.
    unfold bind at 1, gets at 1.
    replace (table (with_mutex true s)) with (fh s) by (symmetry; apply (table_wf s Hwf)).
    pose proof (find_free_range (fh s)) as Hr.
    destruct (find_free_lookup (fh s)) as [x [Hx Hz]].
    { unfold wf in Hwf. rewrite Hwf. unfold MAX_EXT2_FILES in *. lia. }
    assert (Hlt : (Z.to_nat (find_free (fh s)) < length (fh s))%nat).
    { apply lookup_lt_is_Some. eauto. }
    set (fd := find_free (fh s)) in *.
    destruct (fd <? MAX_EXT2_FILES) eqn:Efd; [|lia].
    erewrite bind_Ret; [| apply upd_slot_ok; [lia | exact Hx]].
    destruct (MAX_EXT2_FILES <=? fd) eqn:E2; [lia|].
    unfold inode_by_path. unfold_ops. cbn. rewrite Hw. cbn.
    unfold slot, upd_slot, slot. unfold_ops. cbn.
    destruct (fd <? 0) eqn:E3; [lia|]. cbn.
    rewrite list_lookup_insert_eq by lia. cbn.
    rewrite Hnd, Hmd. cbn.
    rewrite list_lookup_insert_eq by (rewrite length_insert; lia). cbn.
    eexists. eexists. split; [reflexivity|]. cbn.
    rewrite list_lookup_insert_eq by (rewrite !length_insert; lia).
    split; [reflexivity|]. cbn. auto.
Qed.

(** *** Close, and handles that are not open *)

Lemma relock_id (s : state B) :
  ext2_mutex s = false -> with_mutex false (with_mutex true s) = s.
Proof. destruct s; cbn; intros ->; reflexivity. Qed.

(** On a valid file handle tell and total report the cursor and the
    size and change nothing. *)
Lemma tell_total_at_call h x (s : state B) :
  ext2_mutex s = false ->
  0 < h <= MAX_EXT2_FILES ->
  fh s !! Z.to_nat (h - 1) = Some x ->
  fh_inode_num x <> 0 -> is_dir_mode x = false ->
  fs_ext2_tell h s = Ret (to_signed off_bits (fh_ptr x)) s /\
  fs_ext2_total h s = Ret (i_size (inode_load (world s) (fh_inode x))) s.
Proof.
  intros Hm Hh Hx Hnum Hdir.
  unfold fs_ext2_tell, fs_ext2_total, checked_slot, slot. unfold_ops. rewrite Hm. cbn.
  destruct (MAX_EXT2_FILES <=? h - 1) eqn:E1; [unfold MAX_EXT2_FILES in *; lia|].
  destruct (h - 1 <? 0) eqn:E0; [lia|]. cbn. rewrite Hx. cbn.
  destruct (fh_inode_num x =? 0) eqn:E2; [lia|]. rewrite Hdir. cbn.
  rewrite (relock_id s Hm). auto.
Qed.

(** What [fs_ext2_close] does to a slot, by the mode stored in it: with
    a mode it puts the inode back and frees the slot; with mode 0 it
    does nothing at all, whatever the slot's inode number. *)
Lemma close_by_mode h x (s : state B) :
  ext2_mutex s = false ->
  0 < h <= MAX_EXT2_FILES ->
  fh s !! Z.to_nat (h - 1) = Some x ->
  (fh_mode x = 0 -> fs_ext2_close h s = Ret tt s) /\
  (fh_mode x <> 0 ->
   exists s', fs_ext2_close h s = Ret tt s' /\
              fh s' = <[Z.to_nat (h - 1) := set_mode 0 (set_inode_num 0 x)]> (fh s) /\
              ext2_mutex s' = false /\ errno s' = errno s /\
              log s' = Ev (CPut (fh_inode x)) true :: log s).
Proof.
  intros Hm Hh Hx.
  unfold fs_ext2_close, upd_slot, slot. unfold_ops. rewrite Hm. cbn.
  destruct (h - 1 <? MAX_EXT2_FILES) eqn:E1; [|unfold MAX_EXT2_FILES in *; lia].
  destruct (h - 1 <? 0) eqn:E0; [lia|]. cbn. rewrite Hx. cbn. unfold nz. split.
  - intros ->. cbn. now rewrite (relock_id s Hm).
  - intros Hmode. destruct (fh_mode x =? 0) eqn:E2; [lia|]. cbn. rewrite Hx. cbn.
    eexists. split; [reflexivity|]. cbn. auto.
Qed.

(** A handle past the table is left alone by close. *)
Lemma close_out_of_range h (s : state B) :
  ext2_mutex s = false -> MAX_EXT2_FILES < h -> fs_ext2_close h s = Ret tt s.
Proof.
  intros Hm Hh. unfold fs_ext2_close. unfold_ops. rewrite Hm. cbn.
  destruct (h - 1 <? MAX_EXT2_FILES) eqn:E1; [lia|]. cbn. now rewrite (relock_id s Hm).
Qed.

(** A handle past the table, or one whose slot has inode number 0, is
    refused with EINVAL by tell, total, seek, read and readdir; the
    table stays as it is. *)
Lemma free_slot_rejected h (s : state B) :
  ext2_mutex s = false ->
  MAX_EXT2_FILES < h \/
  (0 < h /\ exists x, fh s !! Z.to_nat (h - 1) = Some x /\ fh_inode_num x = 0) ->
  let bad := with_errno EINVAL s in
  fs_ext2_tell h s = Ret (-1) bad /\
  fs_ext2_total h s = Ret (wrap size_bits (-1)) bad /\
  (forall offset whence, fs_ext2_seek h offset whence s = Ret (-1) bad) /\
  (forall fuel cnt, fs_ext2_read fuel h cnt s = Ret (-1, []) bad) /\
  (forall fuel, fs_ext2_readdir fuel h s = Ret None bad).
Proof.
  intros Hm Hbad bad.
  assert (Hchk : forall wrong, checked_slot (h - 1) wrong (with_mutex true s)
                               = Ret None (with_mutex true s)).
  { intros wrong. unfold checked_slot, slot. unfold_ops.
    destruct Hbad as [Hh|[Hh [x [Hx Hz]]]].
    - destruct (MAX_EXT2_FILES <=? h - 1) eqn:E1; [reflexivity|lia].
    - destruct (MAX_EXT2_FILES <=? h - 1) eqn:E1; [reflexivity|].
      destruct (h - 1 <? 0) eqn:E0; [lia|]. cbn. rewrite Hx, Hz. reflexivity. }
  assert (Hbad' : with_errno EINVAL (with_mutex false (with_mutex true s)) = bad).
  { subst bad. now rewrite (relock_id s Hm). }
  unfold fs_ext2_tell, fs_ext2_total, fs_ext2_seek, fs_ext2_read, fs_ext2_readdir.
  unfold mutex_lock, bind. rewrite Hm.
  repeat split; intros; rewrite Hchk; unfold_ops; cbn; rewrite Hbad'; reflexivity.
Qed.

(** open always comes back, with the mutex free; when it returns a
    handle, this is what it leaves in the slot. *)
Lemma open_returns mnt fn md (s : state B) :
  ext2_mutex s = false -> wf s ->
  exists h s', fs_ext2_open mnt fn md s = Ret h s' /\
    ext2_mutex s' = false /\
    (h <> 0 ->
     0 < h <= MAX_EXT2_FILES /\
     exists x, fh s' !! Z.to_nat (h - 1) = Some x /\
               fh_mode x = md /\ fh_ptr x = 0 /\ fh_fs x = mnt).
Proof.
  intros Hm Hwf. unfold fs_ext2_open.
  destruct (nz _) eqn:Eflags.
  { cbn. eexists. eexists. split; [reflexivity|]. cbn. split; [exact Hm|]. lia. }
  unfold mutex_lock at 1. unfold bind at 1. rewrite Hm.
  unfold bind at 1, gets at 1.
  replace (table (with_mutex true s)) with (fh s) by (symmetry; apply (table_wf s Hwf)).
  pose proof (find_free_range (fh s)) as Hr.
  destruct (find_free (fh s) <? MAX_EXT2_FILES) eqn:Efd.
  - destruct (find_free_lookup (fh s)) as [x [Hx Hz]].
    { unfold wf in Hwf. rewrite Hwf. unfold MAX_EXT2_FILES in *. lia. }
    assert (Hlt : (Z.to_nat (find_free (fh s)) < length (fh s))%nat).
    { apply lookup_lt_is_Some. eauto. }
    set (fd := find_free (fh s)) in *.
    erewrite bind_Ret; [| apply upd_slot_ok; [lia | exact Hx]].
    destruct (MAX_EXT2_FILES <=? fd) eqn:E2; [lia|].
    unfold inode_by_path. unfold_ops. cbn.
    destruct (ext2_inode_by_path _ _ _) as [[e|[p n]] w] eqn:Ep; cbn.
    + unfold slot, upd_slot, slot. unfold_ops. cbn.
      destruct (fd <? 0) eqn:E3; [lia|].
      rewrite list_lookup_insert_eq by lia. cbn.
      rewrite list_lookup_insert_eq by (rewrite length_insert; lia). cbn.
      destruct e; cbn; try destruct (nz (Z.land md O_CREAT)); cbn;
        (eexists; eexists; split; [reflexivity|]; cbn; split; [reflexivity|]; lia).
    + unfold slot, upd_slot, slot. unfold_ops. cbn.
      destruct (fd <? 0) eqn:E3; [lia|].
      rewrite list_lookup_insert_eq by lia. cbn.
      destruct (_ && _) eqn:E4; cbn.
      * rewrite list_lookup_insert_eq by (rewrite length_insert; lia). cbn.
        eexists; eexists; split; [reflexivity|]; cbn; split; [reflexivity|]; lia.
      * destruct (nz (Z.land md O_DIR) && _) eqn:E5; cbn.
        -- rewrite list_lookup_insert_eq by (rewrite length_insert; lia). cbn.
           eexists; eexists; split; [reflexivity|]; cbn; split; [reflexivity|]; lia.
        -- rewrite list_lookup_insert_eq by (rewrite length_insert; lia). cbn.
           eexists; eexists; split; [reflexivity|]; cbn; split; [reflexivity|].
           intros _. replace (fd + 1 - 1) with fd by lia.
           split; [lia|].
           rewrite list_lookup_insert_eq by (rewrite !length_insert; lia).
           eexists. split; [reflexivity|]. auto.
  - cbn. destruct (MAX_EXT2_FILES <=? find_free (fh s)) eqn:E2; [|lia].
    cbn. eexists; eexists; split; [reflexivity|]; cbn; split; [reflexivity|]; lia.
Qed.

(** Whatever the backend and the file: a handle that open returned for
    mode 0 is never given up by close. *)
Lemma mode_zero_handle_never_closes mnt fn h (s s' : state B) :
  ext2_mutex s = false -> wf s ->
  fs_ext2_open mnt fn 0 s = Ret h s' -> h <> 0 ->
  fs_ext2_close h s' = Ret tt s'.
Proof.
  intros Hm Hwf Ho Hh.
  destruct (open_returns mnt fn 0 s Hm Hwf) as [h' [s1 [Ho' [Hm' Hslot]]]].
  rewrite Ho in Ho'. injection Ho' as <- <-.
  destruct (Hslot Hh) as [Hr [x [Hx [Hmode _]]]].
  exact (proj1 (close_by_mode h x s' Hm' Hr Hx) Hmode).
Qed.

(** open, close, seek, tell and total come back with the mutex free. *)
Lemma handle_ops_release_mutex (s : state B) :
  ext2_mutex s = false -> wf s ->
  (forall mnt fn md, returns_unlocked (fs_ext2_open mnt fn md s)) /\
  (forall h, 0 < h ->
     returns_unlocked (fs_ext2_close h s) /\
     returns_unlocked (fs_ext2_tell h s) /\
     returns_unlocked (fs_ext2_total h s) /\
     (forall offset whence, returns_unlocked (fs_ext2_seek h offset whence s))).
Proof.
  intros Hm Hwf. split.
  - intros mnt fn md.
    destruct (open_returns mnt fn md s Hm Hwf) as [h [s' [Ho [Hm' _]]]].
    rewrite Ho. exact Hm'.
  - intros h Hh.
    assert (Hlen : forall fd, 0 <= fd < MAX_EXT2_FILES -> is_Some (fh s !! Z.to_nat fd)).
    { intros fd Hfd. apply lookup_lt_is_Some. unfold wf in Hwf. rewrite Hwf. lia. }
    assert (E0 : (h - 1 <? 0) = false) by lia.
    repeat split; intros;
      unfold fs_ext2_close, fs_ext2_tell, fs_ext2_total, fs_ext2_seek, checked_slot,
        returns_unlocked, upd_slot, slot; unfold_ops; rewrite Hm; cbn; rewrite ?E0; cbn.
    all: destruct (Z_lt_le_dec (h - 1) MAX_EXT2_FILES) as [Hin|Hout].
    all: try (destruct (Hlen (h - 1) ltac:(lia)) as [x Hx]).
    all: repeat (break_match; cbn in *; try lia; try discriminate; try reflexivity;
                 try congruence;
                 rewrite ?list_lookup_insert_eq in * by (rewrite ?length_insert;
                   apply lookup_lt_is_Some; eauto)).
  all: first [discriminate | reflexivity].
Qed.

(** *** A mount whose registration fails, for every backend *)

Lemma mount_registration_failure mp dev flags fs w1 mnt w2 vfsh w3 r w4 (s : state B) :
  ext2_mutex s = false -> initted s = true ->
  (nz (Z.land flags FS_EXT2_MOUNT_READWRITE) && negb (write_blocks dev)) = false ->
  ext2_fs_init (world s) dev flags = (Some fs, w1) ->
  malloc w1 = (Some mnt, w2) ->
  malloc w2 = (Some vfsh, w3) ->
  nmmgr_handler_add w3 vfsh = (r, w4) -> r <> 0 ->
  exists s', fs_ext2_mount mp dev flags s = Ret (-1) s' /\
             ext2_mutex s' = false /\
             ext2_fses s' = mnt :: ext2_fses s /\
             mnt_mem s' !! mnt = None.
Proof.
  intros Hm Hi Hrw Hf Hm1 Hm2 Hn Hr.
  unfold fs_ext2_mount, fs_shutdown, free_mnt, free_vfsh. unfold_ops.
  rewrite Hi. cbn. rewrite Hrw, Hm. cbn. rewrite Hf. cbn. rewrite Hm1. cbn.
  rewrite Hm2. cbn. rewrite Hn. cbn. unfold nz.
  destruct (r =? 0) eqn:E; [lia|]. cbn.
  eexists. split; [reflexivity|]. cbn. repeat split. apply lookup_delete_eq.
Qed.

(** *** read *)

Lemma set_ptr_id x : set_ptr (fh_ptr x) x = x.
Proof. destruct x; reflexivity. Qed.

(** The loop of [fs_ext2_read], started with the cursor of slot [fd] at
    [fh_ptr x] and [cnt] bytes to go: with fuel for [cnt] rounds it comes
    back, either having moved the cursor by [cnt] with every fetch
    successful, or with [None] right after a failed fetch. *)
Lemma read_loop_spec bs lbs fs fd :
  0 < bs -> 0 <= fd ->
  forall fuel cnt out (s : state B) x,
    fh s !! Z.to_nat fd = Some x ->
    0 <= cnt -> (Z.to_nat cnt <= fuel)%nat ->
    0 <= fh_ptr x -> fh_ptr x + cnt < 2 ^ 64 -> cnt < 2 ^ size_bits ->
    match read_loop fuel fd fs bs lbs cnt out s with
    | Ret (Some _) s' =>
        fh s' !! Z.to_nat fd = Some (set_ptr (fh_ptr x + cnt) x) /\
        ext2_mutex s' = ext2_mutex s /\ unseen failed_read_block s s'
    | Ret None s' =>
        ext2_mutex s' = false /\
        exists p blk l, log s' = Ev (CReadBlock p blk) false :: l
    | Hang _ _ => False
    end.
Proof.
  intros Hbs Hfd. induction fuel as [|fuel IH]; intros cnt out s x Hx Hc Hfuel Hp Hsum Hsz.
  - assert (cnt = 0) by lia. subst cnt. cbn.
    rewrite Z.add_0_r, set_ptr_id. unfold unseen. auto.
  - cbn [read_loop]. destruct (cnt =? 0) eqn:E0.
    { assert (cnt = 0) by lia. subst cnt. cbn.
      rewrite Z.add_0_r, set_ptr_id. unfold unseen. auto. }
    erewrite bind_Ret; [| apply slot_ok; [lia | exact Hx]].
    unfold inode_read_block. unfold_ops. cbn.
    destruct (ext2_inode_read_block _ _ _ _) as [[e|block] w]; cbn.
    + split; [reflexivity|]. eauto.
    + assert (Hlt : (Z.to_nat fd < length (fh s))%nat) by (apply lookup_lt_is_Some; eauto).
      destruct (cnt >? bs) eqn:Ec.
      * unfold upd_slot, slot. unfold_ops. cbn.
        destruct (fd <? 0) eqn:Ef; [lia|]. cbn. rewrite Hx. cbn.
        match goal with
        | |- context [read_loop fuel fd fs bs lbs ?c ?o ?s1] =>
            specialize (IH c o s1 (set_ptr (u64 (fh_ptr x + bs)) x))
        end.
        unfold u64 in *. rewrite (wrap_small 64) in * by lia.
        rewrite wrap_small in * by lia. cbn in IH.
        rewrite list_lookup_insert_eq in IH by lia.
        specialize (IH eq_refl ltac:(lia) ltac:(lia) ltac:(lia) ltac:(lia) ltac:(lia)).
        destruct (read_loop _ _ _ _ _ _ _ _) as [[o'|] s'|]; [| |exact IH].
        -- destruct IH as [H1 [H2 H3]]. split; [|split].
           ++ rewrite H1. f_equal. unfold set_ptr; cbn. f_equal. lia.
           ++ exact H2.
           ++ unfold unseen in *. rewrite H3. reflexivity.
        -- exact IH.
      * unfold upd_slot, slot. unfold_ops. cbn.
        destruct (fd <? 0) eqn:Ef; [lia|]. cbn. rewrite Hx. cbn.
        destruct fuel; cbn; rewrite list_lookup_insert_eq by lia;
          unfold u64; rewrite wrap_small by lia; unfold unseen; cbn; auto.
Qed.

Lemma wrap_range w z : 0 <= w -> 0 <= wrap w z < 2 ^ w.
Proof. intros Hw. unfold wrap. apply Z.mod_pos_bound. apply Z.pow_pos_nonneg; lia. Qed.

(** Widths: [size_t] has 32 or 64 bits. *)
Lemma size_bits_facts :
  0 < size_bits /\ 2 ^ 32 <= 2 ^ size_bits /\ 2 ^ (size_bits - 1) <= 2 ^ 63 /\
  2 ^ (size_bits - 1) < 2 ^ size_bits.
Proof.
  destruct size_bits_32_64 as [E|E]; rewrite E.
  - change (2 ^ (32 - 1)) with 2147483648. change (2 ^ 32) with 4294967296.
    change (2 ^ 63) with 9223372036854775808. lia.
  - change (2 ^ (64 - 1)) with 9223372036854775808. change (2 ^ 32) with 4294967296.
    change (2 ^ 64) with 18446744073709551616.
    change (2 ^ 63) with 9223372036854775808. lia.
Qed.

(** C7: on a valid file handle whose cursor lies inside the file, total
    and tell report the size and the cursor, and a read of [cnt] bytes
    ([cnt] at most SSIZE_MAX, block size not zero, fuel for [cnt] rounds
    of the loop) returns.  When every block fetch succeeds it returns
    exactly [min cnt (size - cursor)] and the cursor has advanced by
    exactly that number; when a fetch fails it returns -1, never a short
    count.  The mutex is free afterwards. *)
Theorem read_returns_clamped_count fuel h cnt x (s : state B) :
  ext2_mutex s = false ->
  0 < h <= MAX_EXT2_FILES ->
  fh s !! Z.to_nat (h - 1) = Some x ->
  fh_inode_num x <> 0 -> is_dir_mode x = false ->
  let size := i_size (inode_load (world s) (fh_inode x)) in
  0 <= fh_ptr x <= size -> size < 2 ^ 32 ->
  0 <= cnt < 2 ^ (size_bits - 1) ->
  0 < u32 (ext2_block_size (world s) (mnt_fs (fh_fs x))) ->
  (Z.to_nat cnt <= fuel)%nat ->
  fs_ext2_total h s = Ret size s /\
  fs_ext2_tell h s = Ret (to_signed off_bits (fh_ptr x)) s /\
  exists rv data s',
    fs_ext2_read fuel h cnt s = Ret (rv, data) s' /\ ext2_mutex s' = false /\
    (rv = Z.min cnt (size - fh_ptr x) /\
     fh s' !! Z.to_nat (h - 1) = Some (set_ptr (fh_ptr x + rv) x) /\
     unseen failed_read_block s s'
     \/
     rv = -1 /\ exists p blk l, log s' = Ev (CReadBlock p blk) false :: l).
Proof.
  intros Hm Hh Hx Hnum Hdir size Hptr Hsize Hcnt Hbs Hfuel.
  destruct (tell_total_at_call h x s Hm Hh Hx Hnum Hdir) as [Htell Htotal].
  split; [exact Htotal|]. split; [exact Htell|]. clear Htell Htotal.
  destruct size_bits_facts as [Hsb0 [Hsb1 [Hsb2 Hsb3]]].
  change (2 ^ 32) with 4294967296 in *. change (2 ^ 63) with 9223372036854775808 in *.
  assert (H64 : 2 ^ 64 = 18446744073709551616) by reflexivity.
  assert (Hlt : (Z.to_nat (h - 1) < length (fh s))%nat) by (apply lookup_lt_is_Some; eauto).
  unfold fs_ext2_read, checked_slot.
  unfold mutex_lock at 1. unfold bind at 1. rewrite Hm.
  unfold bind at 1.
  destruct (MAX_EXT2_FILES <=? h - 1) eqn:E1; [unfold MAX_EXT2_FILES in *; lia|].
  unfold bind at 1. rewrite (slot_ok _ (h - 1) x) by (cbn; first [lia | exact Hx]).
  destruct (fh_inode_num x =? 0) eqn:E2; [lia|]. rewrite Hdir. cbn [orb ret].
  unfold bind at 1, load at 1, gets at 1. cbn [world with_mutex]. fold size.
  set (cnt1 := if u64 (fh_ptr x + cnt) >? size
               then wrap size_bits (u64 (size - fh_ptr x)) else cnt).
  assert (Hc1 : cnt1 = Z.min cnt (size - fh_ptr x)).
  { subst cnt1. unfold u64. rewrite (wrap_small 64 (fh_ptr x + cnt)) by lia.
    destruct (fh_ptr x + cnt >? size) eqn:E.
    - rewrite (wrap_small 64) by lia. rewrite wrap_small by lia. lia.
    - lia. }
  assert (Hc1r : 0 <= cnt1 <= cnt) by lia.
  assert (Hrv : to_signed size_bits cnt1 = cnt1) by (apply to_signed_small; lia).
  rewrite Hrv.
  unfold bind at 1, gets at 1. unfold bind at 1, gets at 1. cbn [world with_mutex].
  set (bs := u32 (ext2_block_size (world s) (mnt_fs (fh_fs x)))) in *.
  set (lbs := u32 (ext2_log_block_size (world s) (mnt_fs (fh_fs x)))).
  set (bo := u32 (Z.land (fh_ptr x) (Z.shiftl 1 lbs - 1))).
  assert (Hloop : forall c out (s1 : state B) x1,
    fh s1 !! Z.to_nat (h - 1) = Some x1 -> ext2_mutex s1 = true ->
    0 <= c -> c <= cnt1 -> 0 <= fh_ptr x1 -> fh_ptr x1 + c = fh_ptr x + cnt1 ->
    set_ptr 0 x1 = set_ptr 0 x ->
    unseen failed_read_block s s1 ->
    match read_loop fuel (h - 1) (mnt_fs (fh_fs x)) bs lbs c out s1 with
    | Ret (Some _) s2 =>
        fh s2 !! Z.to_nat (h - 1) = Some (set_ptr (fh_ptr x + cnt1) x) /\
        unseen failed_read_block s s2
    | Ret None s2 =>
        ext2_mutex s2 = false /\
        exists p blk l, log s2 = Ev (CReadBlock p blk) false :: l
    | Hang _ _ => False
    end).
  { intros c out s1 x1 Hx1 Hm1 Hc0 Hc1' Hp1 Hsum Hsame Hun.
    pose proof (read_loop_spec bs lbs (mnt_fs (fh_fs x)) (h - 1) Hbs ltac:(lia)
                  fuel c out s1 x1 Hx1 Hc0 ltac:(lia) Hp1 ltac:(lia) ltac:(lia)) as HL.
    destruct (read_loop _ _ _ _ _ _ _ _) as [[o'|] s2|]; [| |contradiction].
    - destruct HL as [H1 [H2 H3]]. split.
      + rewrite H1. f_equal. rewrite Hsum.
        change (set_ptr (fh_ptr x + cnt1) x1) with (set_ptr (fh_ptr x + cnt1) (set_ptr 0 x1)).
        rewrite Hsame. reflexivity.
      + unfold unseen in *. rewrite H3. exact Hun.
    - exact HL. }
  assert (Hend : forall c out (s1 : state B),
    match read_loop fuel (h - 1) (mnt_fs (fh_fs x)) bs lbs c out s1 with
    | Ret (Some _) s2 =>
        fh s2 !! Z.to_nat (h - 1) = Some (set_ptr (fh_ptr x + cnt1) x) /\
        unseen failed_read_block s s2
    | Ret None s2 =>
        ext2_mutex s2 = false /\
        exists p blk l, log s2 = Ev (CReadBlock p blk) false :: l
    | Hang _ _ => False
    end ->
    exists rv data s',
      match read_loop fuel (h - 1) (mnt_fs (fh_fs x)) bs lbs c out s1 with
      | Ret a s2 =>
          match a with
          | Some out' => fun s3 : state B => Ret (cnt1, out') (with_mutex false s3)
          | None => fun s3 : state B => Ret (-1, out) s3
          end s2
      | Hang hh s2 => Hang hh s2
      end = Ret (rv, data) s' /\ ext2_mutex s' = false /\
      (rv = cnt1 /\
       fh s' !! Z.to_nat (h - 1) = Some (set_ptr (fh_ptr x + rv) x) /\
       unseen failed_read_block s s'
       \/
       rv = -1 /\ exists p blk l, log s' = Ev (CReadBlock p blk) false :: l)).
  { intros c out s1 HL.
    destruct (read_loop _ _ _ _ _ _ _ _) as [[o'|] s2|]; [| |contradiction].
    - destruct HL as [H1 H2].
      exists cnt1, o'. eexists. split; [reflexivity|]. split; [reflexivity|].
      left. split; [reflexivity|]. split; [cbn; exact H1|exact H2].
    - destruct HL as [H1 H2]. exists (-1), out, s2. split; [reflexivity|]. split; [exact H1|].
      right. split; [reflexivity|exact H2]. }
  rewrite <- Hc1.
  destruct (nz bo) eqn:Ebo.
  - (* offset within the first block *)
    unfold inode_read_block. unfold_ops. cbn.
    destruct (ext2_inode_read_block _ _ _ _) as [[e|block] w]; cbn.
    + exists (-1), []. eexists. split; [reflexivity|]. split; [reflexivity|]. right. eauto.
    + pose proof (wrap_range 32 (bs - bo) ltac:(lia)) as Hk. fold (u32 (bs - bo)) in Hk.
      change (2 ^ 32) with 4294967296 in Hk.
      set (k := u32 (bs - bo)) in *.
      destruct (cnt1 >? k) eqn:Ek.
      * unfold upd_slot, slot. unfold_ops. cbn.
        destruct (h - 1 <? 0) eqn:Ef; [lia|]. cbn. rewrite Hx. cbn.
        apply Hend. apply (Hloop _ _ _ (set_ptr (u64 (fh_ptr x + k)) x)).
        -- cbn. apply list_lookup_insert_eq. lia.
        -- reflexivity.
        -- rewrite wrap_small by lia. lia.
        -- rewrite wrap_small by lia. lia.
        -- cbn. apply wrap_range. lia.
        -- cbn. unfold u64. rewrite (wrap_small 64) by lia. rewrite wrap_small by lia. lia.
        -- reflexivity.
        -- unfold unseen. cbn. lia.
      * unfold upd_slot, slot. unfold_ops. cbn.
        destruct (h - 1 <? 0) eqn:Ef; [lia|]. cbn. rewrite Hx. cbn.
        apply Hend. apply (Hloop _ _ _ (set_ptr (u64 (fh_ptr x + cnt1)) x)).
        -- cbn. apply list_lookup_insert_eq. lia.
        -- reflexivity.
        -- lia.
        -- lia.
        -- cbn. apply wrap_range. lia.
        -- cbn. unfold u64. rewrite (wrap_small 64) by lia. lia.
        -- reflexivity.
        -- unfold unseen. cbn. lia.
  - (* block aligned *)
    unfold_ops. cbn.
    apply Hend. apply (Hloop _ _ _ x); try reflexivity; try lia.
    cbn. exact Hx.
Qed.

(** *** readdir *)

(** A record comes only from an entry with a non-zero inode number and
    a non-zero record length, whose inode was acquired and put back. *)
Lemma readdir_loop_live fuel fd fs bs lbs :
  forall (s s' : state B) dent rec,
    readdir_loop fuel fd fs bs lbs s = Ret (Some (dent, rec)) s' ->
    d_inode dent <> 0 /\ d_rec_len dent <> 0 /\
    de_name rec = substring 0 (Z.to_nat (d_name_len dent)) (d_name dent) /\
    exists p l, log s' = Ev (CPut p) true :: Ev (CGet fs (d_inode dent)) true :: l.
Proof.
  induction fuel as [|fuel IH]; intros s s' dent rec H; [discriminate|].
  cbn [readdir_loop] in H. revert H.
  unfold slot, upd_slot, slot. unfold_ops.
  repeat (break_match; cbn in *; try discriminate);
    try (intros H; apply IH in H; exact H).
  all: intros H; injection H as <- <- <-; cbn; repeat split; try lia; eauto.
Qed.

(** C8: on a valid directory handle, [fs_ext2_readdir] is the code from
    [retry] run under the lock, and that code (1) at or past the end of
    the directory returns NULL with errno, table and log as they were:
    the end of the directory, not an error; (2) on an entry whose record
    length is zero returns NULL with errno EBADF; (3) on an entry whose
    inode number is zero moves the cursor by the record length and goes
    round again without returning; (4) whenever it returns a record, the
    entry it was filled from has a non-zero inode number. *)
Theorem readdir_skips_tombstones fuel h x (s : state B) :
  ext2_mutex s = false ->
  0 < h <= MAX_EXT2_FILES ->
  fh s !! Z.to_nat (h - 1) = Some x ->
  fh_inode_num x <> 0 -> is_dir_mode x = true ->
  let fd := h - 1 in
  let fs := mnt_fs (fh_fs x) in
  let bs := u32 (ext2_block_size (world s) fs) in
  let lbs := u32 (ext2_log_block_size (world s) fs) in
  let size := i_size (inode_load (world s) (fh_inode x)) in
  (size <= fh_ptr x ->
   exists s', fs_ext2_readdir (S fuel) h s = Ret None s' /\
              errno s' = errno s /\ fh s' = fh s /\ log s' = log s /\
              ext2_mutex s' = false) /\
  (fh_ptr x < size ->
   forall block w,
     ext2_inode_read_block (world s) fs (fh_inode x) (u32 (Z.shiftr (fh_ptr x) lbs))
       = (inr block, w) ->
     let dent := dirent_at block (Z.land (fh_ptr x) (u32 (bs - 1))) in
     let fetched :=
       with_log (cons (Ev (CReadBlock (fh_inode x) (u32 (Z.shiftr (fh_ptr x) lbs))) true))
                (with_world w (with_mutex true s)) in
     (d_rec_len dent = 0 ->
      exists s', fs_ext2_readdir (S fuel) h s = Ret None s' /\
                 errno s' = EBADF /\ fh s' = fh s /\ ext2_mutex s' = false) /\
     (d_rec_len dent <> 0 -> d_inode dent = 0 ->
      fs_ext2_readdir (S fuel) h s =
      readdir_retry fuel fd fs bs lbs
        (with_fh (fun l => <[Z.to_nat fd := set_ptr (u64 (fh_ptr x + d_rec_len dent)) x]> l)
                 fetched))) /\
  (forall de s',
     fs_ext2_readdir fuel h s = Ret (Some de) s' ->
     exists dent p l,
       d_inode dent <> 0 /\ d_rec_len dent <> 0 /\
       de_name de = substring 0 (Z.to_nat (d_name_len dent)) (d_name dent) /\
       log s' = Ev (CPut p) true :: Ev (CGet fs (d_inode dent)) true :: l).
Proof.
  intros Hm Hh Hx Hnum Hdir fd fs bs lbs size.
  assert (Hlt : (Z.to_nat (h - 1) < length (fh s))%nat) by (apply lookup_lt_is_Some; eauto).
  assert (Htop : forall n, fs_ext2_readdir n h s
                           = readdir_retry n fd fs bs lbs (with_mutex true s)).
  { intros n. unfold fs_ext2_readdir, checked_slot.
    unfold mutex_lock at 1. unfold bind at 1. rewrite Hm.
    unfold bind at 1.
    destruct (MAX_EXT2_FILES <=? h - 1) eqn:E1; [unfold MAX_EXT2_FILES in *; lia|].
    unfold bind at 1. rewrite (slot_ok _ (h - 1) x) by (cbn; first [lia | exact Hx]).
    destruct (fh_inode_num x =? 0) eqn:E2; [lia|]. rewrite Hdir. cbn [orb negb ret].
    reflexivity. }
  subst fd.
  assert (E0 : (h - 1 <? 0) = false) by lia.
  split; [|split].
  - intros Hend. rewrite Htop. unfold readdir_retry. cbn [readdir_loop].
    unfold slot. unfold_ops. cbn. rewrite E0. cbn. rewrite Hx. cbn.
    fold size. destruct (fh_ptr x >=? size) eqn:E; [|lia]. cbn.
    eexists. split; [reflexivity|]. cbn. auto.
  - intros Hin block w Hblk dent fetched. split.
    + intros Hrec. rewrite Htop. unfold readdir_retry. cbn [readdir_loop].
      unfold slot, inode_read_block. unfold_ops. cbn. rewrite E0. cbn. rewrite Hx. cbn.
      fold size. destruct (fh_ptr x >=? size) eqn:E; [lia|]. cbn.
      fold fs lbs. rewrite Hblk. cbn. fold bs dent. rewrite Hrec. cbn.
      eexists. split; [reflexivity|]. cbn. auto.
    + intros Hrec Hino. rewrite Htop. unfold readdir_retry. cbn [readdir_loop].
      unfold slot, upd_slot, slot, inode_read_block. unfold_ops. cbn. rewrite E0. cbn.
      rewrite Hx. cbn.
      fold size. destruct (fh_ptr x >=? size) eqn:E; [lia|]. cbn.
      fold fs lbs. rewrite Hblk. cbn. fold bs dent.
      destruct (d_rec_len dent =? 0) eqn:Er; [lia|]. rewrite Hino. cbn.
      rewrite Hx. cbn. reflexivity.
  - intros de s' H. rewrite Htop in H. unfold readdir_retry, bind in H.
    destruct (readdir_loop fuel (h - 1) fs bs lbs (with_mutex true s)) as [[[dent rec]|] s2|] eqn:EL;
      cbn in H; try discriminate.
    injection H as <- <-.
    destruct (readdir_loop_live _ _ _ _ _ _ _ _ _ EL) as [H1 [H2 [H3 [p [l H4]]]]].
    exists dent, p, l. auto.
Qed.

(** *** unlink and rmdir *)

Lemma eqb_neq_string (a b : string) : a <> b -> String.eqb a b = false.
Proof. intros H. now apply String.eqb_neq. Qed.

(** With a handle on the target, unlink stops at the scan of the table:
    EBUSY, both references put back, nothing changed on disk. *)
Lemma unlink_busy mnt fn dir ent cp w1 pinode pnum w2 dent w3 inode w4 (s : state B) :
  ext2_mutex s = false ->
  is_rw mnt = true -> fn <> EmptyString ->
  split_last_slash fn = Some (dir, ent) ->
  malloc (world s) = (Some cp, w1) ->
  ext2_inode_by_path w1 (mnt_fs mnt) dir = (inr (pinode, pnum), w2) ->
  is_dir (inode_load w2 pinode) = true ->
  ext2_dir_entry w2 (mnt_fs mnt) pinode ent = (Some dent, w3) ->
  ext2_inode_get w3 (mnt_fs mnt) (d_inode dent) = (Some inode, w4) ->
  is_dir (inode_load w4 inode) = false ->
  busy (table s) (d_inode dent) = true ->
  exists s', fs_ext2_unlink mnt (Some fn) s = Ret (-1) s' /\
             errno s' = EBUSY /\ ext2_mutex s' = false /\ fh s' = fh s /\
             unseen is_mutation s s' /\ balanced s s'.
Proof.
  intros Hm Hrw Hfn Hsplit Hcp Hp Hpd Hd Hg Hi Hb.
  unfold fs_ext2_unlink. rewrite (eqb_neq_string _ _ Hfn), Hrw, Hsplit.
  unfold_ops. cbn. rewrite Hcp. cbn. rewrite Hm. cbn. rewrite Hp. cbn. rewrite Hpd. cbn.
  rewrite Hd. cbn. rewrite Hg. cbn. rewrite Hi. cbn.
  change (table _) with (table s). rewrite Hb. cbn.
  eexists. split; [reflexivity|]. cbn. unfold unseen, balanced, acquires, releases. cbn.
  repeat split; lia.
Qed.

(** With no handle on the target and a backend that removes the entry
    and dereferences the inode, unlink returns 0; the entry is removed
    before the inode is dereferenced. *)
Lemma unlink_free mnt fn dir ent cp w1 pinode pnum w2 dent w3 inode w4 in_num w5 now w6 w7
    (s : state B) :
  ext2_mutex s = false ->
  is_rw mnt = true -> fn <> EmptyString ->
  split_last_slash fn = Some (dir, ent) ->
  malloc (world s) = (Some cp, w1) ->
  ext2_inode_by_path w1 (mnt_fs mnt) dir = (inr (pinode, pnum), w2) ->
  is_dir (inode_load w2 pinode) = true ->
  ext2_dir_entry w2 (mnt_fs mnt) pinode ent = (Some dent, w3) ->
  ext2_inode_get w3 (mnt_fs mnt) (d_inode dent) = (Some inode, w4) ->
  is_dir (inode_load w4 inode) = false ->
  busy (table s) (d_inode dent) = false ->
  ext2_dir_rm_entry w4 (mnt_fs mnt) pinode ent = (inr in_num, w5) ->
  time_now w5 = (now, w6) ->
  ext2_inode_deref
    (free (ext2_inode_put (ext2_inode_put
       (inode_store w6 pinode (set_times_cm now (inode_load w6 pinode))) pinode) inode) cp)
    (mnt_fs mnt) in_num false = (inr tt, w7) ->
  exists s' l, fs_ext2_unlink mnt (Some fn) s = Ret 0 s' /\
               ext2_mutex s' = false /\
               log s' = Ev (CDeref (mnt_fs mnt) in_num false) true :: l /\
               In (Ev (CRmEntry pinode ent) true) l.
Proof.
  intros Hm Hrw Hfn Hsplit Hcp Hp Hpd Hd Hg Hi Hb Hrm Ht Hdr.
  unfold fs_ext2_unlink. rewrite (eqb_neq_string _ _ Hfn), Hrw, Hsplit.
  unfold_ops. cbn. rewrite Hcp. cbn. rewrite Hm. cbn. rewrite Hp. cbn. rewrite Hpd. cbn.
  rewrite Hd. cbn. rewrite Hg. cbn. rewrite Hi. cbn.
  change (table _) with (table s). rewrite Hb. cbn.
  rewrite Hrm. cbn. rewrite Ht. cbn. rewrite Hdr. cbn.
  eexists. eexists. split; [reflexivity|]. cbn. split; [reflexivity|]. split; [reflexivity|].
  cbn. auto 10.
Qed.



(** * Further properties of the driver *)

(** The commands of [fcntl], for the results that mention it. *)
Context {FC : FcntlCmds}.

(** *** The handle table under open and close *)

Lemma find_free_busy (l : list fh_t) :
  Forall (fun x => fh_inode_num x <> 0) l -> find_free l = Z.of_nat (length l).
Proof.
  induction 1 as [|x l Hx _ IH]; cbn [find_free length]; [reflexivity|].
  destruct (fh_inode_num x =? 0) eqn:E; lia.
Qed.

Lemma find_free_first (l : list fh_t) i x :
  l !! i = Some x -> fh_inode_num x = 0 -> find_free l <= Z.of_nat i.
Proof.
  revert i. induction l as [|y l IH]; intros i Hx Hz; [discriminate|].
  cbn [find_free]. destruct (fh_inode_num y =? 0) eqn:E; [lia|].
  destruct i as [|i]; cbn in Hx.
  - injection Hx as ->. lia.
  - specialize (IH i Hx Hz). lia.
Qed.

Lemma find_free_insert_free (l : list fh_t) x y :
  l !! Z.to_nat (find_free l) = Some x -> fh_inode_num y = 0 ->
  find_free (<[Z.to_nat (find_free l) := y]> l) = find_free l.
Proof.
  induction l as [|z l IH]; cbn [find_free]; intros Hx Hy; [discriminate|].
  destruct (fh_inode_num z =? 0) eqn:E.
  - change (Z.to_nat 0) with 0%nat. cbn. rewrite Hy. reflexivity.
  - pose proof (find_free_range l) as Hr.
    replace (Z.to_nat (1 + find_free l)) with (S (Z.to_nat (find_free l))) in * by lia.
    cbn in Hx |- *. rewrite E. f_equal. now apply IH.
Qed.

Lemma errno_under_lock e (s : state B) :
  ext2_mutex s = false ->
  with_mutex false (with_errno e (with_mutex true s)) = with_errno e s.
Proof. destruct s; cbn; intros ->; reflexivity. Qed.

(** A handle comes only from the first free slot, after a successful
    path resolution; the slot then holds the inode, the mode, cursor 0
    and the mount, and nothing else of the driver has changed. *)
Lemma open_inv mnt fn md h (s s' : state B) :
  ext2_mutex s = false -> wf s ->
  fs_ext2_open mnt fn md s = Ret h s' -> h <> 0 ->
  exists x p n w,
    h = find_free (fh s) + 1 /\ 0 < h <= MAX_EXT2_FILES /\
    fh s !! Z.to_nat (h - 1) = Some x /\ fh_inode_num x = 0 /\
    ext2_inode_by_path (world s) (mnt_fs mnt) fn = (inr (p, n), w) /\
    fh s' = <[Z.to_nat (h - 1) :=
                set_fs mnt (set_ptr 0 (set_mode md (set_inode_num n (set_inode p x))))]> (fh s) /\
    world s' = w /\ errno s' = errno s /\ ext2_mutex s' = false /\
    log s' = Ev (CByPath (mnt_fs mnt) fn) true :: log s.
Proof.
  intros Hm Hwf. unfold fs_ext2_open.
  destruct (nz _) eqn:Eflags.
  { cbn. intros H; injection H as <- <-. lia. }
  unfold mutex_lock at 1. unfold bind at 1. rewrite Hm.
  unfold bind at 1, gets at 1.
  replace (table (with_mutex true s)) with (fh s) by (symmetry; apply (table_wf s Hwf)).
  pose proof (find_free_range (fh s)) as Hr.
  destruct (find_free (fh s) <? MAX_EXT2_FILES) eqn:Efd.
  - destruct (find_free_lookup (fh s)) as [x [Hx Hz]].
    { unfold wf in Hwf. rewrite Hwf. unfold MAX_EXT2_FILES in *. lia. }
    assert (Hlt : (Z.to_nat (find_free (fh s)) < length (fh s))%nat).
    { apply lookup_lt_is_Some. eauto. }
    set (fd := find_free (fh s)) in *.
    erewrite bind_Ret; [| apply upd_slot_ok; [lia | exact Hx]].
    destruct (MAX_EXT2_FILES <=? fd) eqn:E2; [lia|].
    unfold inode_by_path. unfold_ops. cbn.
    destruct (ext2_inode_by_path _ _ _) as [[e|[p n]] w] eqn:Ep; cbn.
    + unfold slot, upd_slot, slot. unfold_ops. cbn.
      destruct (fd <? 0) eqn:E3; [lia|].
      rewrite list_lookup_insert_eq by lia. cbn.
      rewrite list_lookup_insert_eq by (rewrite length_insert; lia). cbn.
      destruct e; cbn; try destruct (nz (Z.land md O_CREAT)); cbn;
        intros H; injection H as <- <-; lia.
    + unfold slot, upd_slot, slot. unfold_ops. cbn.
      destruct (fd <? 0) eqn:E3; [lia|].
      rewrite list_lookup_insert_eq by lia. cbn.
      destruct (_ && _) eqn:E4; cbn.
      * rewrite list_lookup_insert_eq by (rewrite length_insert; lia). cbn.
        intros H; injection H as <- <-; lia.
      * destruct (nz (Z.land md O_DIR) && _) eqn:E5; cbn.
        -- rewrite list_lookup_insert_eq by (rewrite length_insert; lia). cbn.
           intros H; injection H as <- <-; lia.
        -- rewrite list_lookup_insert_eq by (rewrite length_insert; lia). cbn.
           intros H; injection H as <- <-. intros _.
           replace (fd + 1 - 1) with fd by lia.
           exists x, p, n, w. cbn.
           rewrite !list_insert_insert_eq.
           repeat split; try reflexivity; try assumption; try lia.
  - cbn. destruct (MAX_EXT2_FILES <=? find_free (fh s)) eqn:E2; [|lia].
    cbn. intros H; injection H as <- <-; lia.
Qed.

(** X1: With all sixteen slots in use, open fails with ENFILE before the
    backend is asked anything; table and log stay as they were. *)
Theorem open_table_full mnt fn md (s : state B) :
  ext2_mutex s = false -> wf s ->
  Z.land md (Z.lor O_WRONLY O_TRUNC) = 0 ->
  Forall (fun x => fh_inode_num x <> 0) (fh s) ->
  fs_ext2_open mnt fn md s = Ret 0 (with_errno ENFILE s).
Proof.
  intros Hm Hwf Hflags Hfull. unfold fs_ext2_open, nz at 1. rewrite Hflags. cbn [Z.eqb negb].
  unfold mutex_lock at 1. unfold bind at 1. rewrite Hm.
  unfold bind at 1, gets at 1.
  replace (table (with_mutex true s)) with (fh s) by (symmetry; apply (table_wf s Hwf)).
  rewrite (find_free_busy _ Hfull). unfold wf in Hwf. rewrite Hwf.
  change (Z.of_nat (Z.to_nat MAX_EXT2_FILES)) with MAX_EXT2_FILES.
  rewrite Z.ltb_irrefl, Z.leb_refl. unfold_ops. cbn.
  now rewrite (errno_under_lock ENFILE s Hm).
Qed.

(** X2: When the path resolves but the inode is of the wrong kind for the
    mode (its directory bit set and [O_DIR] not given, or [O_DIR] given
    and the bit not set), open fails with EISDIR, respectively ENOTDIR:
    the reference just acquired is put back, the slot is free again, and
    the next open finds the same slot. *)
Theorem open_kind_mismatch mnt fn md p n w (s : state B) :
  ext2_mutex s = false -> wf s ->
  Z.land md (Z.lor O_WRONLY O_TRUNC) = 0 ->
  find_free (fh s) < MAX_EXT2_FILES ->
  ext2_inode_by_path (world s) (mnt_fs mnt) fn = (inr (p, n), w) ->
  nz (Z.land (i_mode (inode_load w p)) EXT2_S_IFDIR) <> nz (Z.land md O_DIR) ->
  exists x s', fs_ext2_open mnt fn md s = Ret 0 s' /\
    errno s' = (if nz (Z.land md O_DIR) then ENOTDIR else EISDIR) /\
    fh s !! Z.to_nat (find_free (fh s)) = Some x /\
    fh s' = <[Z.to_nat (find_free (fh s)) := set_inode p x]> (fh s) /\
    find_free (fh s') = find_free (fh s) /\
    ext2_mutex s' = false /\
    log s' = Ev (CPut p) true :: Ev (CByPath (mnt_fs mnt) fn) true :: log s.
Proof.
  intros Hm Hwf Hflags Hfree Hp Hkind. unfold fs_ext2_open, nz at 1. rewrite Hflags.
  cbn [Z.eqb negb].
  unfold mutex_lock at 1. unfold bind at 1. rewrite Hm.
  unfold bind at 1, gets at 1.
  replace (table (with_mutex true s)) with (fh s) by (symmetry; apply (table_wf s Hwf)).
  pose proof (find_free_range (fh s)) as Hr.
  destruct (find_free_lookup (fh s)) as [x [Hx Hz]].
  { unfold wf in Hwf. rewrite Hwf. unfold MAX_EXT2_FILES in *. lia. }
  assert (Hlt : (Z.to_nat (find_free (fh s)) < length (fh s))%nat).
  { apply lookup_lt_is_Some. eauto. }
  assert (Hslot : set_inode_num 0 (set_inode_num n (set_inode p (set_inode_num (u32 (-1)) x)))
                  = set_inode p x).
  { unfold set_inode_num, set_inode. cbn. now rewrite Hz. }
  assert (Hff : find_free (<[Z.to_nat (find_free (fh s)) := set_inode p x]> (fh s))
                = find_free (fh s)).
  { apply (find_free_insert_free _ x); [exact Hx | exact Hz]. }
  revert Hff Hslot. set (fd := find_free (fh s)) in *. intros Hff Hslot.
  destruct (fd <? MAX_EXT2_FILES) eqn:Efd; [|lia].
  erewrite bind_Ret; [| apply upd_slot_ok; [lia | exact Hx]].
  destruct (MAX_EXT2_FILES <=? fd) eqn:E2; [lia|].
  unfold inode_by_path. unfold_ops. cbn. rewrite Hp. cbn.
  unfold slot, upd_slot, slot. unfold_ops. cbn.
  destruct (fd <? 0) eqn:E3; [lia|]. cbn.
  rewrite list_lookup_insert_eq by lia. cbn.
  destruct (nz (Z.land (i_mode (inode_load w p)) EXT2_S_IFDIR)) eqn:Ed,
           (nz (Z.land md O_DIR)) eqn:Eo; try congruence; cbn.
  all: rewrite ?orb_true_r, ?andb_true_r; cbn.
  all: rewrite list_lookup_insert_eq by (rewrite length_insert; lia); cbn.
  all: exists x; eexists; split; [reflexivity|]; cbn.
  all: rewrite !list_insert_insert_eq.
  all: change (set_inode_num 0 (set_inode_num n (set_inode p (set_inode_num (u32 (-1)) x))))
         with (set_inode_num 0 (set_inode p x)).
  all: rewrite set_inode_num_id by exact Hz; rewrite Hff; auto 10.
Qed.

(** X3: Two opens in a row that both return a handle return different
    handles, and the second leaves the slot of the first alone, as long
    as the backend did not resolve the first path to inode number 0. *)
Theorem successive_opens_differ mnt fn md mnt' fn' md' h h' (s s1 s2 : state B) :
  ext2_mutex s = false -> wf s ->
  (forall p w, ext2_inode_by_path (world s) (mnt_fs mnt) fn <> (inr (p, 0), w)) ->
  fs_ext2_open mnt fn md s = Ret h s1 -> h <> 0 ->
  fs_ext2_open mnt' fn' md' s1 = Ret h' s2 -> h' <> 0 ->
  h' <> h /\ fh s2 !! Z.to_nat (h - 1) = fh s1 !! Z.to_nat (h - 1).
Proof.
  intros Hm Hwf Hnum Ho Hh Ho' Hh'.
  destruct (open_inv mnt fn md h s s1 Hm Hwf Ho Hh)
    as [x [p [n [w [Hfd [Hr [Hx [Hz [Hp [Hfh [Hw [He [Hm1 Hl]]]]]]]]]]]]].
  assert (Hn : n <> 0) by (intros ->; exact (Hnum p w Hp)).
  assert (Hlt : (Z.to_nat (h - 1) < length (fh s))%nat) by (apply lookup_lt_is_Some; eauto).
  assert (Hwf1 : wf s1) by (unfold wf in *; rewrite Hfh, length_insert; exact Hwf).
  destruct (open_inv mnt' fn' md' h' s1 s2 Hm1 Hwf1 Ho' Hh')
    as [x' [p' [n' [w' [Hfd' [Hr' [Hx' [Hz' [Hp' [Hfh' _]]]]]]]]]].
  assert (Hne : h' <> h).
  { intros ->. rewrite Hfh, list_lookup_insert_eq in Hx' by exact Hlt.
    injection Hx' as <-. cbn in Hz'. contradiction. }
  split; [exact Hne|].
  rewrite Hfh'. apply list_lookup_insert_ne. lia.
Qed.

(** X4: Closing a handle whose slot has a mode other than 0 puts the
    inode back and frees the slot for the next open; after that tell,
    total, seek, read and readdir on the handle fail with EINVAL, and a
    second close changes nothing. *)
Theorem close_then_use_rejected h x (s : state B) :
  ext2_mutex s = false -> 0 < h <= MAX_EXT2_FILES ->
  fh s !! Z.to_nat (h - 1) = Some x -> fh_mode x <> 0 ->
  exists s', fs_ext2_close h s = Ret tt s' /\
    log s' = Ev (CPut (fh_inode x)) true :: log s /\
    find_free (fh s') <= h - 1 /\
    fs_ext2_close h s' = Ret tt s' /\
    let bad := with_errno EINVAL s' in
    fs_ext2_tell h s' = Ret (-1) bad /\
    fs_ext2_total h s' = Ret (wrap size_bits (-1)) bad /\
    (forall offset whence, fs_ext2_seek h offset whence s' = Ret (-1) bad) /\
    (forall fuel cnt, fs_ext2_read fuel h cnt s' = Ret (-1, []) bad) /\
    (forall fuel, fs_ext2_readdir fuel h s' = Ret None bad).
Proof.
  intros Hm Hh Hx Hmode.
  destruct (proj2 (close_by_mode h x s Hm Hh Hx) Hmode) as [s' [Hc [Hfh [Hm' [He Hl]]]]].
  assert (Hlt : (Z.to_nat (h - 1) < length (fh s))%nat) by (apply lookup_lt_is_Some; eauto).
  assert (Hx' : fh s' !! Z.to_nat (h - 1) = Some (set_mode 0 (set_inode_num 0 x))).
  { rewrite Hfh. apply list_lookup_insert_eq. exact Hlt. }
  exists s'. split; [exact Hc|]. split; [exact Hl|]. split.
  { pose proof (find_free_first (fh s') _ _ Hx' eq_refl). lia. }
  split; [exact (proj1 (close_by_mode h _ s' Hm' Hh Hx') eq_refl)|].
  apply (free_slot_rejected h s' Hm'). right. split; [lia|]. eauto.
Qed.

(** X5: A handle is bound to the kind it was opened as: on a directory
    handle tell, total, seek and read fail with EINVAL, on a file handle
    readdir does; in neither case does anything but errno change. *)
Theorem wrong_kind_rejected h x (s : state B) :
  ext2_mutex s = false -> 0 < h <= MAX_EXT2_FILES ->
  fh s !! Z.to_nat (h - 1) = Some x -> fh_inode_num x <> 0 ->
  let bad := with_errno EINVAL s in
  (is_dir_mode x = true ->
   fs_ext2_tell h s = Ret (-1) bad /\
   fs_ext2_total h s = Ret (wrap size_bits (-1)) bad /\
   (forall offset whence, fs_ext2_seek h offset whence s = Ret (-1) bad) /\
   (forall fuel cnt, fs_ext2_read fuel h cnt s = Ret (-1, []) bad)) /\
  (is_dir_mode x = false ->
   forall fuel, fs_ext2_readdir fuel h s = Ret None bad).
Proof.
  intros Hm Hh Hx Hnum bad.
  assert (Hchk : forall wrong, wrong x = true ->
            checked_slot (h - 1) wrong (with_mutex true s) = Ret None (with_mutex true s)).
  { intros wrong Hw. unfold checked_slot, slot. unfold_ops.
    destruct (MAX_EXT2_FILES <=? h - 1) eqn:E1; [reflexivity|].
    destruct (h - 1 <? 0) eqn:E0; [lia|]. cbn. rewrite Hx, Hw, orb_true_r. reflexivity. }
  assert (Hbad' : with_errno EINVAL (with_mutex false (with_mutex true s)) = bad).
  { subst bad. now rewrite (relock_id s Hm). }
  unfold fs_ext2_tell, fs_ext2_total, fs_ext2_seek, fs_ext2_read, fs_ext2_readdir.
  unfold mutex_lock, bind. rewrite Hm. split.
  - intros Hd. repeat split; intros; rewrite (Hchk _ Hd); unfold_ops; cbn;
      rewrite Hbad'; reflexivity.
  - intros Hd fuel. rewrite (Hchk (fun y => negb (is_dir_mode y))) by (now rewrite Hd).
    unfold_ops. cbn. rewrite Hbad'. reflexivity.
Qed.

(** X6: An open with a mode other than 0 that returns a handle, followed
    by a close of that handle, leaves nothing behind: the one reference
    acquired is released, the slot is free again and is the one the
    next open will take, and no other slot was touched. *)
Theorem open_then_close_balanced mnt fn md h (s s1 : state B) :
  ext2_mutex s = false -> wf s -> md <> 0 ->
  fs_ext2_open mnt fn md s = Ret h s1 -> h <> 0 ->
  exists s2, fs_ext2_close h s1 = Ret tt s2 /\
    balanced s s2 /\ find_free (fh s2) = find_free (fh s) /\
    (forall i, i <> Z.to_nat (h - 1) -> fh s2 !! i = fh s !! i) /\
    ext2_mutex s2 = false /\ errno s2 = errno s.
Proof.
  intros Hm Hwf Hmd Ho Hh.
  destruct (open_inv mnt fn md h s s1 Hm Hwf Ho Hh)
    as [x [p [n [w [Hfd [Hr [Hx [Hz [Hp [Hfh [Hw [He [Hm1 Hl]]]]]]]]]]]]].
  assert (Hlt : (Z.to_nat (h - 1) < length (fh s))%nat) by (apply lookup_lt_is_Some; eauto).
  set (x1 := set_fs mnt (set_ptr 0 (set_mode md (set_inode_num n (set_inode p x))))) in *.
  assert (Hx1 : fh s1 !! Z.to_nat (h - 1) = Some x1).
  { rewrite Hfh. apply list_lookup_insert_eq. exact Hlt. }
  destruct (proj2 (close_by_mode h x1 s1 Hm1 Hr Hx1) Hmd) as [s2 [Hc [Hfh2 [Hm2 [He2 Hl2]]]]].
  exists s2. split; [exact Hc|].
  assert (Hfd' : Z.to_nat (h - 1) = Z.to_nat (find_free (fh s))) by (f_equal; lia).
  split; [|split; [|split; [|split]]].
  - unfold balanced, acquires, releases. rewrite Hl2, Hl. cbn. lia.
  - rewrite Hfh2, Hfh, list_insert_insert_eq, Hfd'.
    apply (find_free_insert_free _ x); [rewrite <- Hfd'; exact Hx | reflexivity].
  - intros i Hi. rewrite Hfh2, Hfh, list_insert_insert_eq.
    apply list_lookup_insert_ne. congruence.
  - exact Hm2.
  - congruence.
Qed.

(** *** seek, tell and total together *)

(** [fs_ext2_seek] from one of the three origins on a valid file
    handle, with the state it ends in: only the cursor of the slot has
    changed. *)
Lemma seek_run h x whence offset (s : state B) :
  ext2_mutex s = false ->
  0 < h <= MAX_EXT2_FILES ->
  fh s !! Z.to_nat (h - 1) = Some x ->
  fh_inode_num x <> 0 -> is_dir_mode x = false ->
  whence = SEEK_SET \/ whence = SEEK_CUR \/ whence = SEEK_END ->
  exists c,
    fs_ext2_seek h offset whence s =
      Ret (to_signed off_bits c)
          (with_fh (fun l => <[Z.to_nat (h - 1) := set_ptr c x]> l) s).
Proof.
  intros Hm Hh Hx Hnum Hdir Hw.
  assert (Hlt : (Z.to_nat (h - 1) < length (fh s))%nat) by (apply lookup_lt_is_Some; eauto).
  pose proof seek_set_cur. pose proof seek_set_end. pose proof seek_cur_end.
  unfold fs_ext2_seek, checked_slot, slot, upd_slot, slot. unfold_ops.
  rewrite Hm. cbn.
  destruct (MAX_EXT2_FILES <=? h - 1) eqn:E1; [unfold MAX_EXT2_FILES in *; lia|].
  destruct (h - 1 <? 0) eqn:E0; [lia|]. cbn. rewrite Hx. cbn.
  destruct (fh_inode_num x =? 0) eqn:E2; [lia|]. rewrite Hdir. cbn.
  destruct Hw as [-> | [-> | ->]].
  - rewrite Z.eqb_refl. cbn. rewrite Hx. cbn.
    rewrite list_lookup_insert_eq by lia. cbn.
    destruct (_ >? _) eqn:Ec; cbn;
      repeat (rewrite list_lookup_insert_eq by (rewrite ?length_insert; lia); cbn);
      eexists; f_equal; unfold with_fh, with_mutex; cbn; rewrite ?list_insert_insert_eq;
      destruct s; cbn in *; subst; reflexivity.
  - destruct (SEEK_CUR =? SEEK_SET) eqn:Ea; [lia|]. rewrite Z.eqb_refl. cbn. rewrite Hx. cbn.
    rewrite list_lookup_insert_eq by lia. cbn.
    destruct (_ >? _) eqn:Ec; cbn;
      repeat (rewrite list_lookup_insert_eq by (rewrite ?length_insert; lia); cbn);
      eexists; f_equal; unfold with_fh, with_mutex; cbn; rewrite ?list_insert_insert_eq;
      destruct s; cbn in *; subst; reflexivity.
  - destruct (SEEK_END =? SEEK_SET) eqn:Ea; [lia|].
    destruct (SEEK_END =? SEEK_CUR) eqn:Eb; [lia|]. rewrite Z.eqb_refl. cbn. rewrite Hx. cbn.
    rewrite list_lookup_insert_eq by lia. cbn.
    destruct (_ >? _) eqn:Ec; cbn;
      repeat (rewrite list_lookup_insert_eq by (rewrite ?length_insert; lia); cbn);
      eexists; f_equal; unfold with_fh, with_mutex; cbn; rewrite ?list_insert_insert_eq;
      destruct s; cbn in *; subst; reflexivity.
Qed.

(** X7: On a valid file handle a seek from one of the three origins
    returns exactly what the next tell reports; it moves the cursor of
    this slot and nothing else, so total reports the same size before
    and after. *)
Theorem seek_then_tell h x offset whence (s : state B) :
  ext2_mutex s = false ->
  0 < h <= MAX_EXT2_FILES ->
  fh s !! Z.to_nat (h - 1) = Some x ->
  fh_inode_num x <> 0 -> is_dir_mode x = false ->
  whence = SEEK_SET \/ whence = SEEK_CUR \/ whence = SEEK_END ->
  exists rv s', fs_ext2_seek h offset whence s = Ret rv s' /\
    fs_ext2_tell h s' = Ret rv s' /\
    fs_ext2_total h s' = Ret (i_size (inode_load (world s) (fh_inode x))) s' /\
    fs_ext2_total h s = Ret (i_size (inode_load (world s) (fh_inode x))) s /\
    (forall i, i <> Z.to_nat (h - 1) -> fh s' !! i = fh s !! i) /\
    world s' = world s /\ errno s' = errno s /\ log s' = log s.
Proof.
  intros Hm Hh Hx Hnum Hdir Hw.
  destruct (seek_run h x whence offset s Hm Hh Hx Hnum Hdir Hw) as [c Hrun].
  assert (Hlt : (Z.to_nat (h - 1) < length (fh s))%nat) by (apply lookup_lt_is_Some; eauto).
  set (s' := with_fh (fun l => <[Z.to_nat (h - 1) := set_ptr c x]> l) s) in *.
  assert (Hx' : fh s' !! Z.to_nat (h - 1) = Some (set_ptr c x)).
  { cbn. apply list_lookup_insert_eq. exact Hlt. }
  destruct (tell_total_at_call h (set_ptr c x) s' Hm Hh Hx' Hnum Hdir) as [Ht Hs].
  exists (to_signed off_bits c), s'. split; [exact Hrun|]. split; [exact Ht|].
  split; [exact Hs|]. split; [exact (proj2 (tell_total_at_call h x s Hm Hh Hx Hnum Hdir))|].
  split; [|repeat split].
  intros i Hi. cbn. apply list_lookup_insert_ne. congruence.
Qed.

(** *** The bytes read *)

Lemma file_bytes_app image bs o n1 n2 :
  0 <= n1 -> 0 <= n2 ->
  file_bytes image bs o (n1 + n2)
  = file_bytes image bs o n1 ++ file_bytes image bs (o + n1) n2.
Proof. intros. unfold file_bytes. now rewrite seqZ_app, fmap_app. Qed.

(** A slice of block [k] is the file from the offset where the slice
    starts. *)
Lemma slice_bytes image bs k off n :
  0 < bs -> length (image k) = Z.to_nat bs ->
  0 <= off -> 0 <= n -> off + n <= bs ->
  memcpy_from (image k) off n = file_bytes image bs (k * bs + off) n.
Proof.
  intros Hbs Hlen Hoff Hn Hfit. unfold memcpy_from, file_bytes.
  apply list_eq. intros i. rewrite list_lookup_fmap.
  destruct (decide (Z.of_nat i < n)) as [Hi|Hi].
  - rewrite lookup_take_lt by lia. rewrite lookup_drop.
    rewrite lookup_seqZ_lt by lia. cbn. unfold file_byte.
    replace ((k * bs + off + Z.of_nat i) / bs) with k
      by (apply (Z.div_unique_pos _ _ _ (off + Z.of_nat i)); lia).
    replace ((k * bs + off + Z.of_nat i) mod bs) with (off + Z.of_nat i)
      by (apply (Z.mod_unique_pos _ _ k); lia).
    replace (Z.to_nat (off + Z.of_nat i)) with (Z.to_nat off + i)%nat by lia.
    destruct (nth_lookup_or_length (image k) (Z.to_nat off + i) 0) as [E|E]; [exact E|lia].
  - rewrite lookup_take_ge by lia. rewrite lookup_seqZ_ge by lia. reflexivity.
Qed.

Lemma block_index lbs p :
  0 <= lbs -> 0 <= p < 2 ^ 32 -> u32 (Z.shiftr p lbs) = p / 2 ^ lbs.
Proof.
  intros Hl Hp. rewrite Z.shiftr_div_pow2 by lia. apply wrap_small.
  assert (0 < 2 ^ lbs) by (apply Z.pow_pos_nonneg; lia).
  split; [apply Z.div_pos; lia|].
  apply Z.le_lt_trans with p; [|lia]. apply Z.div_le_upper_bound; nia.
Qed.

Lemma block_offset lbs p :
  0 <= lbs -> 2 ^ lbs < 2 ^ 32 -> 0 <= p ->
  u32 (Z.land p (Z.shiftl 1 lbs - 1)) = p mod 2 ^ lbs.
Proof.
  intros Hl Hb Hp. rewrite Z.shiftl_1_l.
  replace (2 ^ lbs - 1) with (Z.ones lbs) by (rewrite Z.ones_equiv; lia).
  rewrite Z.land_ones by lia. apply wrap_small.
  assert (0 < 2 ^ lbs) by (apply Z.pow_pos_nonneg; lia).
  pose proof (Z.mod_pos_bound p (2 ^ lbs) ltac:(lia)). lia.
Qed.

(** The loop of [fs_ext2_read] from a cursor on a block boundary, over
    a backend that serves the blocks of [image]: it appends the next
    [c] bytes of the file and moves the cursor by [c]. *)
Lemma read_loop_bytes (Inv : B -> Prop) image fs inode bs lbs fd :
  0 <= lbs -> bs = 2 ^ lbs -> bs < 2 ^ 32 -> 0 <= fd ->
  (forall k, length (image k) = Z.to_nat bs) ->
  (forall w k, Inv w ->
     exists w', ext2_inode_read_block w fs inode k = (inr (image k), w') /\ Inv w') ->
  forall fuel c out (s : state B) x,
    fh s !! Z.to_nat fd = Some x -> fh_inode x = inode ->
    Inv (world s) ->
    0 <= c -> (Z.to_nat c <= fuel)%nat ->
    0 <= fh_ptr x -> (c = 0 \/ fh_ptr x mod bs = 0) -> fh_ptr x + c < 2 ^ 32 ->
    exists s', read_loop fuel fd fs bs lbs c out s
               = Ret (Some (out ++ file_bytes image bs (fh_ptr x) c)) s' /\
      fh s' = <[Z.to_nat fd := set_ptr (fh_ptr x + c) x]> (fh s) /\
      ext2_mutex s' = ext2_mutex s /\ errno s' = errno s /\ Inv (world s').
Proof.
  intros Hl Hbs Hb32 Hfd Hlen Hserve.
  assert (Hpos : 0 < bs) by (subst bs; apply Z.pow_pos_nonneg; lia).
  destruct size_bits_facts as [Hsb0 [Hsb1 _]].
  change (2 ^ 32) with 4294967296 in *.
  assert (Hzero : forall fuel out (s : state B) x,
            fh s !! Z.to_nat fd = Some x -> Inv (world s) ->
            exists s', read_loop fuel fd fs bs lbs 0 out s
                       = Ret (Some (out ++ file_bytes image bs (fh_ptr x) 0)) s' /\
              fh s' = <[Z.to_nat fd := set_ptr (fh_ptr x + 0) x]> (fh s) /\
              ext2_mutex s' = ext2_mutex s /\ errno s' = errno s /\ Inv (world s')).
  { intros fuel out s x Hx Hinv. exists s.
    destruct fuel; cbn; rewrite app_nil_r, Z.add_0_r, set_ptr_id, list_insert_id by exact Hx;
      auto. }
  induction fuel as [|fuel IH]; intros c out s x Hx Hino Hinv Hc Hfuel Hp Hal Hsum.
  { assert (c = 0) by lia. subst c. now apply Hzero. }
  destruct (Z.eq_dec c 0) as [->|Hc0]; [now apply Hzero|].
  destruct Hal as [Hal|Hal]; [contradiction|].
  cbn [read_loop]. destruct (c =? 0) eqn:E0; [lia|].
  erewrite bind_Ret; [| apply slot_ok; [lia | exact Hx]].
  assert (Hlt : (Z.to_nat fd < length (fh s))%nat) by (apply lookup_lt_is_Some; eauto).
  rewrite (block_index lbs (fh_ptr x) Hl) by lia. rewrite <- Hbs.
  set (k := fh_ptr x / bs).
  assert (Hk : fh_ptr x = k * bs).
  { subst k. pose proof (Z.div_mod (fh_ptr x) bs ltac:(lia)). lia. }
  assert (Hk0 : 0 <= k) by (subst k; apply Z.div_pos; lia).
  destruct (Hserve (world s) k Hinv) as [w' [Hblk Hinv']].
  unfold inode_read_block. unfold_ops. cbn. rewrite Hino, Hblk. cbn.
  destruct (c >? bs) eqn:Ec.
  - unfold upd_slot, slot. unfold_ops. cbn.
    destruct (fd <? 0) eqn:Ef; [lia|]. cbn. rewrite Hx. cbn.
    match goal with
    | |- context [read_loop fuel fd fs bs lbs ?c1 ?o ?s1] =>
        destruct (IH c1 o s1 (set_ptr (u64 (fh_ptr x + bs)) x)) as [s' [Hrun [H1 [H2 [H3 H4]]]]]
    end.
    + cbn. apply list_lookup_insert_eq. lia.
    + exact Hino.
    + exact Hinv'.
    + rewrite wrap_small by lia. lia.
    + rewrite wrap_small by lia. lia.
    + cbn. apply wrap_range. lia.
    + right. cbn. unfold u64. rewrite wrap_small by lia.
      rewrite Hk. replace (k * bs + bs) with ((k + 1) * bs) by lia. apply Z.mod_mul. lia.
    + cbn. unfold u64. rewrite (wrap_small 64) by lia. rewrite wrap_small by lia. lia.
    + exists s'. rewrite Hrun. cbn in *. unfold u64 in *.
      rewrite (wrap_small 64) in * by lia. rewrite wrap_small in * by lia.
      split; [|split; [|auto]].
      * do 2 f_equal. rewrite <- app_assoc. f_equal.
        replace c with (bs + (c - bs)) at 2 by lia.
        rewrite file_bytes_app by lia. f_equal.
        rewrite (slice_bytes image bs k 0 bs) by (auto; lia).
        f_equal. lia.
      * rewrite H1, list_insert_insert_eq. f_equal. unfold set_ptr; cbn. f_equal. lia.
  - unfold upd_slot, slot. unfold_ops. cbn.
    destruct (fd <? 0) eqn:Ef; [lia|]. cbn. rewrite Hx. cbn.
    match goal with
    | |- context [read_loop fuel fd fs bs lbs 0 ?o ?s1] =>
        destruct (Hzero fuel o s1 (set_ptr (u64 (fh_ptr x + c)) x)) as [s' [Hrun [H1 [H2 [H3 H4]]]]]
    end.
    + cbn. apply list_lookup_insert_eq. lia.
    + exact Hinv'.
    + exists s'. rewrite Hrun. cbn in *. unfold u64 in *.
      rewrite (wrap_small 64) in * by lia.
      split; [|split; [|auto]].
      * do 2 f_equal. rewrite app_nil_r.
        rewrite (slice_bytes image bs k 0 c) by (auto; lia).
        f_equal. f_equal. lia.
      * rewrite H1, list_insert_insert_eq. f_equal. unfold set_ptr; cbn. f_equal. lia.
Qed.

(** X8: On a valid file handle, over a backend that serves the blocks of
    the file (each of the block size, a power of two below 2^32), a
    read of [cnt] bytes returns [min cnt (size - cursor)] and puts into
    the buffer exactly the bytes of the file from the cursor on, in
    order, whether or not the cursor stands on a block boundary; the
    cursor moves by the number returned and errno is left alone. *)
Theorem read_returns_file_bytes (Inv : B -> Prop) image fuel h cnt x (s : state B) :
  ext2_mutex s = false ->
  0 < h <= MAX_EXT2_FILES ->
  fh s !! Z.to_nat (h - 1) = Some x ->
  fh_inode_num x <> 0 -> is_dir_mode x = false ->
  let fs := mnt_fs (fh_fs x) in
  let size := i_size (inode_load (world s) (fh_inode x)) in
  let lbs := ext2_log_block_size (world s) fs in
  let bs := ext2_block_size (world s) fs in
  0 <= fh_ptr x <= size -> size < 2 ^ 32 ->
  0 <= cnt < 2 ^ (size_bits - 1) ->
  0 <= lbs -> bs = 2 ^ lbs -> bs < 2 ^ 32 ->
  (forall k, length (image k) = Z.to_nat bs) ->
  Inv (world s) ->
  (forall w k, Inv w ->
     exists w', ext2_inode_read_block w fs (fh_inode x) k = (inr (image k), w') /\ Inv w') ->
  (Z.to_nat cnt <= fuel)%nat ->
  let rv := Z.min cnt (size - fh_ptr x) in
  exists s', fs_ext2_read fuel h cnt s = Ret (rv, file_bytes image bs (fh_ptr x) rv) s' /\
    fh s' = <[Z.to_nat (h - 1) := set_ptr (fh_ptr x + rv) x]> (fh s) /\
    ext2_mutex s' = false /\ errno s' = errno s.
Proof.
  intros Hm Hh Hx Hnum Hdir fs size lbs bs Hptr Hsize Hcnt Hl Hbs Hb32 Hlen Hinv Hserve
    Hfuel rv.
  destruct size_bits_facts as [Hsb0 [Hsb1 [Hsb2 Hsb3]]].
  assert (Hpos : 0 < bs) by (rewrite Hbs; apply Z.pow_pos_nonneg; lia).
  assert (Hl32 : lbs < 32).
  { destruct (Z_lt_le_dec lbs 32) as [|Hge]; [assumption|]. exfalso.
    assert (2 ^ 32 <= 2 ^ lbs) by (apply Z.pow_le_mono_r; lia). lia. }
  change (2 ^ 32) with 4294967296 in *. change (2 ^ 63) with 9223372036854775808 in *.
  assert (H64 : 2 ^ 64 = 18446744073709551616) by reflexivity.
  assert (Hlt : (Z.to_nat (h - 1) < length (fh s))%nat) by (apply lookup_lt_is_Some; eauto).
  assert (E0 : (h - 1 <? 0) = false) by lia.
  pose proof (read_loop_bytes Inv image fs (fh_inode x) bs lbs (h - 1)
                Hl Hbs Hb32 ltac:(lia) Hlen Hserve fuel) as Hloop.
  unfold fs_ext2_read, checked_slot.
  unfold mutex_lock at 1. unfold bind at 1. rewrite Hm.
  unfold bind at 1.
  destruct (MAX_EXT2_FILES <=? h - 1) eqn:E1; [unfold MAX_EXT2_FILES in *; lia|].
  unfold bind at 1. rewrite (slot_ok _ (h - 1) x) by (cbn; first [lia | exact Hx]).
  destruct (fh_inode_num x =? 0) eqn:E2; [lia|]. rewrite Hdir. cbn [orb ret].
  unfold bind at 1, load at 1, gets at 1. cbn [world with_mutex]. fold size.
  set (cnt1 := if u64 (fh_ptr x + cnt) >? size
               then wrap size_bits (u64 (size - fh_ptr x)) else cnt).
  assert (Hc1 : cnt1 = rv).
  { subst cnt1 rv. unfold u64. rewrite (wrap_small 64 (fh_ptr x + cnt)) by lia.
    destruct (fh_ptr x + cnt >? size) eqn:E.
    - rewrite (wrap_small 64) by lia. rewrite wrap_small by lia. lia.
    - lia. }
  assert (Hrvr : 0 <= rv <= cnt) by lia.
  rewrite Hc1. rewrite (to_signed_small size_bits rv) by lia.
  unfold bind at 1, gets at 1. unfold bind at 1, gets at 1. cbn [world with_mutex].
  fold fs. fold bs lbs.
  assert (Hubs : u32 bs = bs) by (apply wrap_small; lia).
  assert (Hulbs : u32 lbs = lbs) by (apply wrap_small; lia).
  rewrite !Hubs, !Hulbs.
  rewrite !(block_offset lbs (fh_ptr x)) by (rewrite <- ?Hbs; lia). rewrite <- !Hbs.
  set (bo := fh_ptr x mod bs).
  assert (Hbo : 0 <= bo < bs) by (apply Z.mod_pos_bound; lia).
  assert (Hubo : u32 (bs - bo) = bs - bo) by (apply wrap_small; lia).
  rewrite !Hubo.
  set (k := fh_ptr x / bs).
  assert (Hk : fh_ptr x = k * bs + bo).
  { subst k bo. pose proof (Z.div_mod (fh_ptr x) bs ltac:(lia)). lia. }
  assert (Hk0 : 0 <= k) by (subst k; apply Z.div_pos; lia).
  unfold nz. destruct (bo =? 0) eqn:Ebo; cbn [negb].
  - (* the cursor is on a block boundary *)
    unfold ret at 1. unfold bind at 1.
    destruct (Hloop rv [] (with_mutex true s) x Hx eq_refl Hinv ltac:(lia) ltac:(lia)
                ltac:(lia) ltac:(right; fold bo; lia) ltac:(lia))
      as [s' [Hrun [H1 [H2 [H3 H4]]]]].
    unfold bind at 1. rewrite Hrun. unfold_ops. cbn in *.
    eexists. split; [reflexivity|]. cbn. auto.
  - (* the cursor is inside a block *)
    destruct (Hserve (world s) k Hinv) as [w' [Hblk Hinv']].
    unfold inode_read_block. unfold_ops. cbn.
    rewrite (block_index lbs (fh_ptr x) Hl) by lia. rewrite <- Hbs. fold k.
    rewrite Hblk. cbn.
    destruct (rv >? bs - bo) eqn:Ec.
    + unfold upd_slot, slot. unfold_ops. cbn. rewrite E0. cbn. rewrite Hx. cbn.
      match goal with
      | |- context [read_loop fuel (h - 1) fs bs lbs ?c1 ?o ?s1] =>
          destruct (Hloop c1 o s1 (set_ptr (u64 (fh_ptr x + (bs - bo))) x))
            as [s' [Hrun [H1 [H2 [H3 H4]]]]]
      end.
      * cbn. apply list_lookup_insert_eq. lia.
      * reflexivity.
      * exact Hinv'.
      * rewrite wrap_small by lia. lia.
      * rewrite wrap_small by lia. lia.
      * cbn. apply wrap_range. lia.
      * right. cbn. unfold u64. rewrite wrap_small by lia.
        replace (fh_ptr x + (bs - bo)) with ((k + 1) * bs) by lia. apply Z.mod_mul. lia.
      * cbn. unfold u64. rewrite (wrap_small 64) by lia. rewrite wrap_small by lia. lia.
      * rewrite Hrun. cbn in *. unfold u64 in *.
        rewrite (wrap_small 64) in * by lia. rewrite wrap_small in * by lia.
        eexists. split.
        -- do 2 f_equal.
           rewrite (slice_bytes image bs k bo (bs - bo)) by (auto; lia).
           rewrite <- Hk.
           rewrite <- file_bytes_app by lia. f_equal. lia.
        -- cbn. split; [|auto].
           rewrite H1, list_insert_insert_eq. f_equal. unfold set_ptr; cbn. f_equal. lia.
    + unfold upd_slot, slot. unfold_ops. cbn. rewrite E0. cbn. rewrite Hx. cbn.
      match goal with
      | |- context [read_loop fuel (h - 1) fs bs lbs 0 ?o ?s1] =>
          destruct (Hloop 0 o s1 (set_ptr (u64 (fh_ptr x + rv)) x))
            as [s' [Hrun [H1 [H2 [H3 H4]]]]]
      end.
      * cbn. apply list_lookup_insert_eq. lia.
      * reflexivity.
      * exact Hinv'.
      * lia.
      * lia.
      * cbn. apply wrap_range. lia.
      * left. reflexivity.
      * cbn. unfold u64. rewrite (wrap_small 64) by lia. lia.
      * rewrite Hrun. cbn in *. unfold u64 in *.
        rewrite (wrap_small 64) in * by lia.
        eexists. split.
        -- do 2 f_equal. unfold file_bytes at 1. rewrite seqZ_nil by lia. cbn.
           rewrite app_nil_r.
           rewrite (slice_bytes image bs k bo rv) by (auto; lia).
           now rewrite <- Hk.
        -- cbn. split; [|auto].
           rewrite H1, list_insert_insert_eq. f_equal. unfold set_ptr; cbn. f_equal. lia.
Qed.

(** *** readdir on a live entry *)

(** X9: On a directory handle whose cursor stands on an entry with a
    record length and an inode number: when the backend hands out the
    entry's inode, readdir returns a record with the inode's size and
    modification time, the entry's name cut at its name length, and
    [O_DIR] as the attribute exactly when the inode has the directory
    bit; the cursor moves on by the record length and the inode is put
    back.  When the backend does not hand out the inode, readdir fails
    with EIO and the cursor stays on the entry. *)
Theorem readdir_returns_entry fuel h x block w r w' (s : state B) :
  ext2_mutex s = false ->
  0 < h <= MAX_EXT2_FILES ->
  fh s !! Z.to_nat (h - 1) = Some x ->
  fh_inode_num x <> 0 -> is_dir_mode x = true ->
  let fs := mnt_fs (fh_fs x) in
  let bs := u32 (ext2_block_size (world s) fs) in
  let lbs := u32 (ext2_log_block_size (world s) fs) in
  fh_ptr x < i_size (inode_load (world s) (fh_inode x)) ->
  ext2_inode_read_block (world s) fs (fh_inode x) (u32 (Z.shiftr (fh_ptr x) lbs))
    = (inr block, w) ->
  let dent := dirent_at block (Z.land (fh_ptr x) (u32 (bs - 1))) in
  d_rec_len dent <> 0 -> d_inode dent <> 0 ->
  ext2_inode_get w fs (d_inode dent) = (r, w') ->
  match r with
  | Some inode =>
      let ino := inode_load w' inode in
      let rec :=
        {| de_size := i_size ino;
           de_name := substring 0 (Z.to_nat (d_name_len dent)) (d_name dent);
           de_time := i_mtime ino;
           de_attr := if nz (Z.land (i_mode ino) EXT2_S_IFDIR) then O_DIR else 0 |} in
      exists s', fs_ext2_readdir (S fuel) h s = Ret (Some rec) s' /\
        fh s' = <[Z.to_nat (h - 1) :=
                    set_ptr (u64 (fh_ptr x + d_rec_len dent)) (set_dent rec x)]> (fh s) /\
        errno s' = errno s /\ ext2_mutex s' = false /\
        log s' = [Ev (CPut inode) true; Ev (CGet fs (d_inode dent)) true;
                  Ev (CReadBlock (fh_inode x) (u32 (Z.shiftr (fh_ptr x) lbs))) true] ++ log s
  | None =>
      exists s', fs_ext2_readdir (S fuel) h s = Ret None s' /\
        errno s' = EIO /\ fh s' = fh s /\ ext2_mutex s' = false
  end.
Proof.
  intros Hm Hh Hx Hnum Hdir fs bs lbs Hin Hblk dent Hrec Hino Hget.
  assert (Hlt : (Z.to_nat (h - 1) < length (fh s))%nat) by (apply lookup_lt_is_Some; eauto).
  assert (E0 : (h - 1 <? 0) = false) by lia.
  assert (Htop : fs_ext2_readdir (S fuel) h s
                 = readdir_retry (S fuel) (h - 1) fs bs lbs (with_mutex true s)).
  { unfold fs_ext2_readdir, checked_slot.
    unfold mutex_lock at 1. unfold bind at 1. rewrite Hm.
    unfold bind at 1.
    destruct (MAX_EXT2_FILES <=? h - 1) eqn:E1; [unfold MAX_EXT2_FILES in *; lia|].
    unfold bind at 1. rewrite (slot_ok _ (h - 1) x) by (cbn; first [lia | exact Hx]).
    destruct (fh_inode_num x =? 0) eqn:E2; [lia|]. rewrite Hdir. cbn [orb negb ret].
    reflexivity. }
  rewrite Htop. unfold readdir_retry. cbn [readdir_loop].
  unfold slot, upd_slot, slot, inode_read_block, inode_get, inode_put. unfold_ops. cbn.
  rewrite E0. cbn. rewrite Hx. cbn.
  destruct (fh_ptr x >=? _) eqn:E; [lia|]. cbn.
  fold fs lbs. rewrite Hblk. cbn. fold bs dent.
  destruct (d_rec_len dent =? 0) eqn:Er; [lia|].
  destruct (d_inode dent =? 0) eqn:Ei; [lia|]. cbn.
  rewrite Hget. destruct r as [inode|]; cbn.
  - rewrite Hx. cbn. eexists. split; [reflexivity|]. cbn. repeat split.
  - eexists. split; [reflexivity|]. cbn. repeat split.
Qed.

(** *** What the handle operations never do *)

Lemma readdir_loop_tally (P : event -> bool) :
  (forall p blk ok, P (Ev (CReadBlock p blk) ok) = false) ->
  (forall fs n ok, P (Ev (CGet fs n) ok) = false) ->
  (forall p ok, P (Ev (CPut p) ok) = false) ->
  forall fuel fd fs bs lbs (s : state B),
    tally P (log (final (readdir_loop fuel fd fs bs lbs s))) = tally P (log s).
Proof.
  intros H1 H2 H3. induction fuel as [|fuel IH]; intros; cbn [readdir_loop]; [reflexivity|].
  unfold slot, upd_slot, slot. unfold_ops.
  repeat (break_match; cbn [final log with_fh with_world with_log with_mutex with_errno tally];
          rewrite ?IH; cbn [final log with_fh with_world with_log with_mutex with_errno tally];
          rewrite ?H1, ?H2, ?H3; try reflexivity).
Qed.

(** X10: open, close, read, seek, tell, total, readdir, stat and fcntl never
    ask the backend for a change of the file system: no entry added,
    removed or redirected, no inode allocated, written, marked dirty or
    dereferenced, whatever the handle, the arguments and the state. *)
Theorem handle_ops_never_mutate (s : state B) :
  (forall mnt fn md, unseen is_mutation s (final (fs_ext2_open mnt fn md s))) /\
  (forall h, unseen is_mutation s (final (fs_ext2_close h s))) /\
  (forall fuel h cnt, unseen is_mutation s (final (fs_ext2_read fuel h cnt s))) /\
  (forall h offset whence, unseen is_mutation s (final (fs_ext2_seek h offset whence s))) /\
  (forall h, unseen is_mutation s (final (fs_ext2_tell h s))) /\
  (forall h, unseen is_mutation s (final (fs_ext2_total h s))) /\
  (forall fuel h, unseen is_mutation s (final (fs_ext2_readdir fuel h s))) /\
  (forall mnt fn rv, unseen is_mutation s (final (fs_ext2_stat mnt fn rv s))) /\
  (forall h cmd, unseen is_mutation s (final (fs_ext2_fcntl h cmd s))).
Proof.
  unfold unseen.
  split; [|split; [|split; [|split; [|split; [|split; [|split; [|split]]]]]]]; intros.
  - unfold fs_ext2_open, slot, upd_slot, slot. unfold_ops.
    repeat (break_match; cbn in *; try reflexivity).
  - unfold fs_ext2_close, slot, upd_slot, slot. unfold_ops.
    repeat (break_match; cbn in *; try reflexivity).
  - apply read_tally. reflexivity.
  - unfold fs_ext2_seek, checked_slot, slot, upd_slot, slot. unfold_ops.
    repeat (break_match; cbn in *; try reflexivity).
  - unfold fs_ext2_tell, checked_slot, slot. unfold_ops.
    repeat (break_match; cbn in *; try reflexivity).
  - unfold fs_ext2_total, checked_slot, slot. unfold_ops.
    repeat (break_match; cbn in *; try reflexivity).
  - unfold fs_ext2_readdir, readdir_retry, checked_slot, slot. unfold_ops.
    repeat (break_match; cbn [final log with_fh with_world with_log with_mutex with_errno tally];
            try reflexivity).
    all: match goal with
         | H : readdir_loop ?a1 ?a2 ?a3 ?a4 ?a5 ?s0 = _ |- _ =>
             pose proof (readdir_loop_tally is_mutation ltac:(reflexivity) ltac:(reflexivity)
                           ltac:(reflexivity) a1 a2 a3 a4 a5 s0) as HL;
             rewrite H in HL; cbn in HL; exact HL
         end.
  - unfold fs_ext2_stat. unfold_ops.
    repeat (break_match; cbn in *; try reflexivity).
  - unfold fs_ext2_fcntl, checked_slot, slot. unfold_ops.
    repeat (break_match; cbn in *; try reflexivity).
Qed.

(** *** The structural operations *)

(** X11: [split_last_slash] cuts a path at its last slash: the two parts,
    put together around a slash, give the path back, and the second part
    has no slash in it; there is no result exactly when the path has no
    slash at all. *)
Theorem split_last_slash_spec (s : string) :
  match split_last_slash s with
  | Some (d, e) =>
      s = (d ++ String "/" e)%string /\ ~ In "/"%char (list_ascii_of_string e)
  | None => ~ In "/"%char (list_ascii_of_string s)
  end.
Proof.
  induction s as [|c s IH]; cbn [split_last_slash]; [intros []|].
  destruct (split_last_slash s) as [[d e]|].
  - destruct IH as [-> He]. split; [reflexivity | exact He].
  - destruct (Ascii.eqb c "/") eqn:E.
    + apply Ascii.eqb_eq in E as ->. split; [reflexivity | exact IH].
    + apply Ascii.eqb_neq in E. cbn. intros [H|H]; [congruence | exact (IH H)].
Qed.

(** X12: On a mount without the read-write flag unlink, mkdir, rmdir and
    rename do nothing at all: they return -1, and errno is all that
    changes, to EROFS unless the name is one that the operation turns
    down before it looks at the flag. *)
Theorem read_only_mount_refuses mnt (s : state B) :
  is_rw mnt = false ->
  (forall fn, fs_ext2_unlink mnt (Some fn) s =
     Ret (-1) (with_errno (if String.eqb fn EmptyString then EPERM else EROFS) s)) /\
  (forall fn, fs_ext2_mkdir mnt (Some fn) s = Ret (-1) (with_errno EROFS s)) /\
  (forall fn, fs_ext2_rmdir mnt (Some fn) s =
     Ret (-1) (with_errno (if String.eqb fn EmptyString || String.eqb fn "/"
                           then EPERM else EROFS) s)) /\
  (forall fn1 fn2, fs_ext2_rename mnt (Some fn1) (Some fn2) s =
     Ret (-1) (with_errno (if String.eqb fn1 EmptyString then EINVAL else EROFS) s)).
Proof.
  intros Hro.
  unfold fs_ext2_unlink, fs_ext2_mkdir, fs_ext2_rmdir, fs_ext2_rename. rewrite Hro. cbn.
  repeat split; intros; repeat (break_match; cbn); reflexivity.
Qed.

(** X13: [int_rename] will not put a file in the place of a directory
    (EISDIR), a directory in the place of one that is not empty
    (ENOTEMPTY), or anything in the place of an object that a handle is
    open on (EBUSY).  It says so before it has changed anything, with
    both references of the destination put back and its copy of the
    path freed. *)
Theorem int_rename_guards mnt fn1 fn2 pinode finode fnum isfile dir ent cp w1
    dpinode dpnum w2 de w3 dinode w4 (s : state B) :
  split_last_slash fn2 = Some (dir, ent) ->
  malloc (world s) = (Some cp, w1) ->
  ext2_inode_by_path w1 (mnt_fs mnt) dir = (inr (dpinode, dpnum), w2) ->
  is_dir (inode_load w2 dpinode) = true ->
  ext2_dir_entry w2 (mnt_fs mnt) dpinode ent = (Some de, w3) ->
  ext2_inode_get w3 (mnt_fs mnt) (d_inode de) = (Some dinode, w4) ->
  let refused e (o : outcome B (errno_t + unit)) :=
    exists s', o = Ret (inl e) s' /\ fh s' = fh s /\ unseen is_mutation s s' /\
               balanced s s' /\ copy_freed s s' in
  let o := int_rename mnt fn1 fn2 pinode finode fnum isfile s in
  (is_dir (inode_load w4 dinode) = true -> isfile = true -> refused EISDIR o) /\
  (is_dir (inode_load w4 dinode) = true -> isfile = false ->
   forall w5, ext2_dir_is_empty w4 (mnt_fs mnt) dinode = (0, w5) -> refused ENOTEMPTY o) /\
  (is_dir (inode_load w4 dinode) = false ->
   busy (table s) (d_inode de) = true -> refused EBUSY o).
Proof.
  intros Hsplit Hcp Hp Hpd Hd Hg refused o. subst refused o. cbv beta.
  unfold int_rename. rewrite Hsplit. unfold_ops. cbn. rewrite Hcp. cbn. rewrite Hp. cbn.
  rewrite Hpd. cbn. rewrite Hd. cbn. rewrite Hg. cbn.
  split; [|split].
  - intros -> ->. cbn. eexists. split; [reflexivity|]. cbn.
    unfold unseen, balanced, copy_freed, acquires, releases, allocs, frees. cbn.
    repeat split; lia.
  - intros -> -> w5 He. cbn. rewrite He. cbn. eexists. split; [reflexivity|]. cbn.
    unfold unseen, balanced, copy_freed, acquires, releases, allocs, frees. cbn.
    repeat split; lia.
  - intros -> Hb. cbn. change (table _) with (table s). rewrite Hb. cbn.
    eexists. split; [reflexivity|]. cbn.
    unfold unseen, balanced, copy_freed, acquires, releases, allocs, frees. cbn.
    repeat split; lia.
Qed.

(** X14: [int_rename] of a file to a name that does not exist yet enters
    the file under the new name first and only then removes the old
    entry, so that at no point is the file without a name. *)
Theorem int_rename_moves_file mnt fn1 fn2 pinode finode fnum dir ent cp w1
    dpinode dpnum w2 w3 w4 tmp w5 (s : state B) :
  split_last_slash fn2 = Some (dir, ent) ->
  malloc (world s) = (Some cp, w1) ->
  ext2_inode_by_path w1 (mnt_fs mnt) dir = (inr (dpinode, dpnum), w2) ->
  is_dir (inode_load w2 dpinode) = true ->
  ext2_dir_entry w2 (mnt_fs mnt) dpinode ent = (None, w3) ->
  ext2_dir_add_entry w3 (mnt_fs mnt) dpinode ent fnum finode = (inr tt, w4) ->
  ext2_dir_rm_entry w4 (mnt_fs mnt) pinode fn1 = (inr tmp, w5) ->
  exists s', int_rename mnt fn1 fn2 pinode finode fnum true s = Ret (inr tt) s' /\
    fh s' = fh s /\ errno s' = errno s /\ ext2_mutex s' = ext2_mutex s /\
    log s' =
      [Ev (CPut dpinode) true;
       Ev (CFree cp) true;
       Ev (CRmEntry pinode fn1) true;
       Ev (CAddEntry dpinode ent fnum) true;
       Ev (CDirEntry dpinode ent) false;
       Ev (CByPath (mnt_fs mnt) dir) true;
       Ev CMalloc true] ++ log s.
Proof.
  intros Hsplit Hcp Hp Hpd Hd Ha Hr.
  unfold int_rename. rewrite Hsplit. unfold_ops. cbn. rewrite Hcp. cbn. rewrite Hp. cbn.
  rewrite Hpd. cbn. rewrite Hd. cbn. rewrite Ha. cbn. rewrite Hr. cbn.
  eexists. split; [reflexivity|]. cbn. repeat split.
Qed.

(** X15: rename gives its result back only when it stopped before
    [int_rename]: then the result is -1, the mutex is free and the file
    system has not been touched.  Every call that reaches [int_rename]
    ends in the second [mutex_lock] and never comes back, so rename
    never returns 0. *)
Theorem rename_never_succeeds mnt fn1 fn2 (s : state B) :
  ext2_mutex s = false ->
  match fs_ext2_rename mnt fn1 fn2 s with
  | Ret rv s' =>
      rv = -1 /\ ext2_mutex s' = false /\ unseen is_mutation s s' /\ fh s' = fh s
  | Hang why s' => why = Deadlock /\ ext2_mutex s' = true
  end.
Proof.
  intros Hm. unfold fs_ext2_rename, int_rename, unseen.
  unfold_ops. crunch Hm; auto.
Qed.

(** X16: unlink turns down a directory and rmdir turns down anything that
    is not one, both with EPERM: the two references are put back, the
    path copy is freed, and the file system is not changed. *)
Theorem wrong_type_refused mnt fn dir ent cp w1 pinode pnum w2 dent w3 inode w4
    (s : state B) :
  ext2_mutex s = false ->
  is_rw mnt = true -> fn <> EmptyString -> fn <> "/"%string ->
  split_last_slash fn = Some (dir, ent) ->
  malloc (world s) = (Some cp, w1) ->
  ext2_inode_by_path w1 (mnt_fs mnt) dir = (inr (pinode, pnum), w2) ->
  is_dir (inode_load w2 pinode) = true ->
  ext2_dir_entry w2 (mnt_fs mnt) pinode ent = (Some dent, w3) ->
  ext2_inode_get w3 (mnt_fs mnt) (d_inode dent) = (Some inode, w4) ->
  let refused (o : outcome B Z) :=
    exists s', o = Ret (-1) s' /\ errno s' = EPERM /\ ext2_mutex s' = false /\
               fh s' = fh s /\ unseen is_mutation s s' /\ balanced s s' /\
               copy_freed s s' in
  (is_dir (inode_load w4 inode) = true -> refused (fs_ext2_unlink mnt (Some fn) s)) /\
  (is_dir (inode_load w4 inode) = false -> refused (fs_ext2_rmdir mnt (Some fn) s)).
Proof.
  intros Hm Hrw Hfn Hroot Hsplit Hcp Hp Hpd Hd Hg refused. subst refused. cbv beta.
  split; intros Hi.
  - unfold fs_ext2_unlink. rewrite (eqb_neq_string _ _ Hfn), Hrw, Hsplit.
    unfold_ops. cbn. rewrite Hcp. cbn. rewrite Hm. cbn. rewrite Hp. cbn. rewrite Hpd. cbn.
    rewrite Hd. cbn. rewrite Hg. cbn. rewrite Hi. cbn.
    eexists. split; [reflexivity|]. cbn.
    unfold unseen, balanced, copy_freed, acquires, releases, allocs, frees. cbn.
    repeat split; lia.
  - unfold fs_ext2_rmdir.
    rewrite (eqb_neq_string _ _ Hfn), (eqb_neq_string _ _ Hroot), Hrw, Hsplit.
    unfold_ops. cbn. rewrite Hcp. cbn. rewrite Hm. cbn. rewrite Hp. cbn. rewrite Hpd. cbn.
    rewrite Hd. cbn. rewrite Hg. cbn. rewrite Hi. cbn.
    eexists. split; [reflexivity|]. cbn.
    unfold unseen, balanced, copy_freed, acquires, releases, allocs, frees. cbn.
    repeat split; lia.
Qed.

(** X17: unlink, mkdir and rmdir are all or nothing: when one of them
    returns -1 the backend has carried out no change, unless the backend
    itself failed half way (the dereference after the entry was removed,
    or the set-up of the new directory after its inode was allocated). *)
Theorem failed_mutators_change_nothing mnt fn (s : state B) :
  ext2_mutex s = false ->
  (let o := fs_ext2_unlink mnt fn s in
   returned o = Some (-1) -> unseen failed_deref s (final o) ->
   unseen is_change s (final o)) /\
  (let o := fs_ext2_rmdir mnt fn s in
   returned o = Some (-1) -> unseen failed_deref s (final o) ->
   unseen is_change s (final o)) /\
  (let o := fs_ext2_mkdir mnt fn s in
   returned o = Some (-1) ->
   unseen failed_create_empty s (final o) -> unseen failed_add_entry s (final o) ->
   unseen is_change s (final o)).
Proof.
  intros Hm. cbv zeta.
  repeat split; unfold fs_ext2_unlink, fs_ext2_rmdir, fs_ext2_mkdir, unseen, is_change;
    unfold_ops; crunch Hm; intros; try discriminate; cbn in *; lia.
Qed.

(** X18: unlink, mkdir and rmdir free the copy they make of the path on
    every way out; rename does on every way out on which neither an
    inode-get nor the redirection of ".." fails. *)
Theorem path_copy_always_freed mnt (s : state B) :
  ext2_mutex s = false ->
  (forall fn, copy_freed s (final (fs_ext2_unlink mnt fn s))) /\
  (forall fn, copy_freed s (final (fs_ext2_mkdir mnt fn s))) /\
  (forall fn, copy_freed s (final (fs_ext2_rmdir mnt fn s))) /\
  (forall fn1 fn2,
     let s' := final (fs_ext2_rename mnt fn1 fn2 s) in
     unseen failed_get s s' -> unseen failed_redir s s' -> copy_freed s s').
Proof.
  intros Hm. repeat split; intros;
    unfold fs_ext2_unlink, fs_ext2_mkdir, fs_ext2_rmdir, copy_freed, allocs, frees;
    unfold_ops; try (crunch Hm; fail).
  revert H H0. subst s'.
  unfold fs_ext2_rename, int_rename, unseen. unfold_ops. crunch Hm.
Qed.

(** *** stat and mkdir *)

(** X19: stat of a path that resolves returns 0 and reports the inode
    number, the size and the modification time of the inode; it calls
    the object a directory exactly when unlink and rmdir would; the
    reference is put back, errno and the handle table stay as they
    were. *)
Theorem stat_reports_inode mnt fn inode num w (s : state B) :
  ext2_mutex s = false ->
  EXT2_S_IFDIR <> EXT2_S_IFLNK -> EXT2_S_IFDIR <> EXT2_S_IFREG ->
  ext2_inode_by_path (world s) (mnt_fs mnt) fn = (inr (inode, num), w) ->
  let ino := inode_load w inode in
  exists st s', fs_ext2_stat mnt fn true s = Ret (0, Some st) s' /\
    st_unique st = num /\ st_size st = i_size ino /\ st_time st = i_mtime ino /\
    (st_type st = STAT_TYPE_DIR <-> is_dir ino = true) /\
    st_attr_r st = nz (Z.land (i_mode ino) EXT2_S_IRUSR) /\
    st_attr_w st = nz (Z.land (i_mode ino) EXT2_S_IWUSR) /\
    errno s' = errno s /\ fh s' = fh s /\ ext2_mutex s' = false /\
    log s' = Ev (CPut inode) true :: Ev (CByPath (mnt_fs mnt) fn) true :: log s.
Proof.
  intros Hm Hl Hr Hp ino.
  unfold fs_ext2_stat. unfold_ops. cbn. rewrite Hm. cbn. rewrite Hp. cbn. fold ino.
  eexists. eexists. split; [reflexivity|]. cbn. repeat split.
  - unfold stat_type_of, is_dir.
    destruct (Z.land (i_mode ino) 61440 =? EXT2_S_IFLNK) eqn:E1; [discriminate|].
    destruct (Z.land (i_mode ino) 61440 =? EXT2_S_IFREG) eqn:E2; [discriminate|].
    destruct (Z.land (i_mode ino) 61440 =? EXT2_S_IFDIR) eqn:E3; [reflexivity|].
    destruct (_ || _); discriminate.
  - unfold stat_type_of, is_dir. intros Hd.
    assert (Z.land (i_mode ino) 61440 = EXT2_S_IFDIR) as -> by lia.
    destruct (EXT2_S_IFDIR =? EXT2_S_IFLNK) eqn:E1; [lia|].
    destruct (EXT2_S_IFDIR =? EXT2_S_IFREG) eqn:E2; [lia|].
    now rewrite Z.eqb_refl.
Qed.

(** X20: mkdir, when the parent resolves, has no entry of that name yet and
    the backend carries out each step: the new inode takes mode, owner
    and group from the parent and the current time for its three
    stamps, is set up as an empty directory and entered in the parent,
    whose link count goes up by one; the steps happen in this order and
    both references are put back.  Whether the parent is a directory is
    never checked. *)
Theorem mkdir_creates_directory mnt fn dir nd cp w1 inode inum w2 w3 ninode nnum w4
    now w5 w6 w7 (s : state B) :
  ext2_mutex s = false ->
  is_rw mnt = true -> fn <> EmptyString ->
  split_last_slash fn = Some (dir, nd) ->
  malloc (world s) = (Some cp, w1) ->
  ext2_inode_by_path w1 (mnt_fs mnt) dir = (inr (inode, inum), w2) ->
  ext2_dir_entry w2 (mnt_fs mnt) inode nd = (None, w3) ->
  ext2_inode_alloc w3 (mnt_fs mnt) inum = (inr (ninode, nnum), w4) ->
  time_now w4 = (now, w5) ->
  let fresh := inherit (inode_load w4 inode) now (inode_load w5 ninode) in
  ext2_dir_create_empty (inode_store w5 ninode fresh) (mnt_fs mnt) ninode nnum inum
    = (inr tt, w6) ->
  ext2_dir_add_entry w6 (mnt_fs mnt) inode nd nnum ninode = (inr tt, w7) ->
  let par := inode_load w7 inode in
  exists s', fs_ext2_mkdir mnt (Some fn) s = Ret 0 s' /\
    ext2_mutex s' = false /\ errno s' = errno s /\ fh s' = fh s /\
    i_mode fresh = i_mode (inode_load w4 inode) /\
    log s' =
      [Ev (CFree cp) true;
       Ev (CPut inode) true;
       Ev (CPut ninode) true;
       Ev (CMarkDirty inode) true;
       Ev (CStore inode (set_links (u16 (i_links_count par + 1)) par)) true;
       Ev (CAddEntry inode nd nnum) true;
       Ev (CCreateEmpty ninode nnum inum) true;
       Ev (CStore ninode fresh) true;
       Ev (CAlloc (mnt_fs mnt) inum) true;
       Ev (CDirEntry inode nd) false;
       Ev (CByPath (mnt_fs mnt) dir) true;
       Ev CMalloc true] ++ log s.
Proof.
  intros Hm Hrw Hfn Hsplit Hcp Hp Hd Ha Ht fresh Hce Hae par.
  unfold fs_ext2_mkdir. rewrite (eqb_neq_string _ _ Hfn), Hrw, Hsplit.
  unfold_ops. cbn. rewrite Hcp. cbn. rewrite Hm. cbn. rewrite Hp. cbn.
  rewrite Hd. cbn. rewrite Ha. cbn. rewrite Ht. cbn. fold fresh. rewrite Hce. cbn.
  rewrite Hae. cbn.
  eexists. split; [reflexivity|]. cbn. repeat split.
Qed.

(** *** fcntl *)

(** [fs_ext2_fcntl] on a handle whose slot is in use, as one case
    distinction on the command. *)
Lemma fcntl_run h x cmd (s : state B) :
  ext2_mutex s = false ->
  0 < h <= MAX_EXT2_FILES ->
  fh s !! Z.to_nat (h - 1) = Some x ->
  fh_inode_num x <> 0 ->
  fs_ext2_fcntl h cmd s =
    if cmd =? F_GETFL then Ret (fh_mode x) s
    else if (cmd =? F_SETFL) || (cmd =? F_GETFD) || (cmd =? F_SETFD) then Ret 0 s
    else Ret (-1) (with_errno EINVAL s).
Proof.
  intros Hm Hh Hx Hnum.
  unfold fs_ext2_fcntl, checked_slot, slot. unfold_ops. rewrite Hm. cbn.
  destruct (MAX_EXT2_FILES <=? h - 1) eqn:E1; [unfold MAX_EXT2_FILES in *; lia|].
  destruct (h - 1 <? 0) eqn:E0; [lia|]. cbn. rewrite Hx. cbn.
  destruct (fh_inode_num x =? 0) eqn:E2; [lia|]. cbn.
  destruct (cmd =? F_GETFL); cbn; [now rewrite (relock_id s Hm)|].
  destruct (_ || _); cbn; [now rewrite (relock_id s Hm)|].
  now rewrite (errno_under_lock EINVAL s Hm).
Qed.

(** X21: On a handle whose slot is in use, [F_GETFL] reports the mode stored
    in the slot, [F_SETFL], [F_GETFD] and [F_SETFD] are accepted and
    ignored, and any other command is refused with EINVAL.  Nothing but
    errno ever changes. *)
Theorem fcntl_answers h x (s : state B) :
  ext2_mutex s = false ->
  0 < h <= MAX_EXT2_FILES ->
  fh s !! Z.to_nat (h - 1) = Some x ->
  fh_inode_num x <> 0 ->
  fs_ext2_fcntl h F_GETFL s = Ret (fh_mode x) s /\
  (forall cmd, cmd = F_SETFL \/ cmd = F_GETFD \/ cmd = F_SETFD ->
     fs_ext2_fcntl h cmd s = Ret 0 s) /\
  (forall cmd, cmd <> F_GETFL -> cmd <> F_SETFL -> cmd <> F_GETFD -> cmd <> F_SETFD ->
     fs_ext2_fcntl h cmd s = Ret (-1) (with_errno EINVAL s)).
Proof.
  intros Hm Hh Hx Hnum.
  pose proof getfl_setfl. pose proof getfl_getfd. pose proof getfl_setfd.
  split; [|split].
  - rewrite (fcntl_run h x _ s Hm Hh Hx Hnum), Z.eqb_refl. reflexivity.
  - intros cmd Hc. rewrite (fcntl_run h x _ s Hm Hh Hx Hnum).
    destruct (cmd =? F_GETFL) eqn:E; [destruct Hc as [-> | [-> | ->]]; lia|].
    destruct Hc as [-> | [-> | ->]]; rewrite Z.eqb_refl; cbn; rewrite ?orb_true_r; reflexivity.
  - intros cmd N1 N2 N3 N4. rewrite (fcntl_run h x _ s Hm Hh Hx Hnum).
    destruct (cmd =? F_GETFL) eqn:E1; [lia|].
    destruct (cmd =? F_SETFL) eqn:E2; [lia|].
    destruct (cmd =? F_GETFD) eqn:E3; [lia|].
    destruct (cmd =? F_SETFD) eqn:E4; [lia|]. reflexivity.
Qed.

(** X22: On a handle past the table or on a free slot every fcntl command
    fails with EBADF, where tell on the same handle fails with EINVAL. *)
Theorem fcntl_bad_handle h cmd (s : state B) :
  ext2_mutex s = false ->
  MAX_EXT2_FILES < h \/
  (0 < h /\ exists x, fh s !! Z.to_nat (h - 1) = Some x /\ fh_inode_num x = 0) ->
  fs_ext2_fcntl h cmd s = Ret (-1) (with_errno EBADF s) /\
  fs_ext2_tell h s = Ret (-1) (with_errno EINVAL s).
Proof.
  intros Hm Hbad. split; [|exact (proj1 (free_slot_rejected h s Hm Hbad))].
  unfold fs_ext2_fcntl, checked_slot, slot. unfold_ops. rewrite Hm. cbn.
  destruct Hbad as [Hh|[Hh [x [Hx Hz]]]].
  - destruct (MAX_EXT2_FILES <=? h - 1) eqn:E1; [|lia]. cbn.
    now rewrite (relock_id s Hm).
  - destruct (MAX_EXT2_FILES <=? h - 1) eqn:E1; cbn; [now rewrite (relock_id s Hm)|].
    destruct (h - 1 <? 0) eqn:E0; [lia|]. cbn. rewrite Hx, Hz. cbn.
    now rewrite (relock_id s Hm).
Qed.

(** X23: [F_GETFL] on a handle gives back the mode the handle was opened
    with, and goes on doing so after an [F_SETFL]: the backend must
    not resolve the path to inode number 0, the mark of a free slot. *)
Theorem open_then_getfl mnt fn md h (s s' : state B) :
  ext2_mutex s = false -> wf s ->
  (forall p w, ext2_inode_by_path (world s) (mnt_fs mnt) fn <> (inr (p, 0), w)) ->
  fs_ext2_open mnt fn md s = Ret h s' -> h <> 0 ->
  fs_ext2_fcntl h F_GETFL s' = Ret md s' /\
  fs_ext2_fcntl h F_SETFL s' = Ret 0 s'.
Proof.
  intros Hm Hwf Hnum Ho Hh.
  destruct (open_inv mnt fn md h s s' Hm Hwf Ho Hh)
    as [x [p [n [w [Hfd [Hr [Hx [Hz [Hp [Hfh [Hw [He [Hm' Hl]]]]]]]]]]]]].
  assert (Hn : n <> 0) by (intros ->; exact (Hnum p w Hp)).
  assert (Hlt : (Z.to_nat (h - 1) < length (fh s))%nat) by (apply lookup_lt_is_Some; eauto).
  assert (Hx' : fh s' !! Z.to_nat (h - 1)
                = Some (set_fs mnt (set_ptr 0 (set_mode md (set_inode_num n (set_inode p x)))))).
  { rewrite Hfh. apply list_lookup_insert_eq. exact Hlt. }
  pose proof getfl_setfl.
  rewrite !(fcntl_run h _ _ s' Hm' Hr Hx' Hn), Z.eqb_refl. cbn.
  destruct (F_SETFL =? F_GETFL) eqn:E; [lia|]. rewrite Z.eqb_refl. auto.
Qed.

(** *** mount and unmount *)

(** X24: Whatever the backend answers, [fs_ext2_mount] comes back with the
    mutex free, and what it holds on return depends only on the result:
    after -1 every block it allocated has been freed and an ext2 context
    it set up has been shut down; after 0 it keeps two blocks (the
    record and the handler) and the context, and the registry has one
    more mount. *)
Theorem mount_allocations_balance mp dev flags (s : state B) :
  ext2_mutex s = false ->
  exists rv s', fs_ext2_mount mp dev flags s = Ret rv s' /\
    ext2_mutex s' = false /\ fh s' = fh s /\
    let kept := (allocs (log s') - allocs (log s)) - (frees (log s') - frees (log s)) in
    let ctx := (tally is_fs_init (log s') - tally is_fs_init (log s))
               - (tally is_fs_shutdown (log s') - tally is_fs_shutdown (log s)) in
    (rv = -1 /\ kept = 0 /\ ctx = 0 \/
     rv = 0 /\ kept = 2 /\ ctx = 1 /\ length (ext2_fses s') = S (length (ext2_fses s))).
Proof.
  intros Hm. unfold fs_ext2_mount, fs_shutdown, free_mnt, free_vfsh, allocs, frees.
  unfold_ops.
  repeat (break_match; cbn in *; try rewrite Hm in *; try lia);
    (eexists; eexists; split; [reflexivity|]; cbn;
     split; [first [reflexivity | assumption]|]; split; [reflexivity|];
     first [left; repeat split; lia | right; repeat split; lia]).
Qed.

(** [find_mount] walks past the mounts registered under other paths
    and stops at the first one registered under [mp]. *)
Lemma find_mount_first mp i l2 (s : state B) : forall l1,
  (forall j, j ∈ l1 -> mounted_at s mp false j) ->
  mounted_at s mp true i ->
  find_mount mp (l1 ++ i :: l2) s = Ret (Some i) s.
Proof.
  induction l1 as [|j l1 IH]; intros Hl1 Hi.
  - destruct Hi as [m [v [Hm [Hv Hp]]]]. cbn. unfold_ops. rewrite Hm, Hv, Hp. reflexivity.
  - destruct (Hl1 j ltac:(left)) as [m [v [Hm [Hv Hp]]]].
    cbn. unfold_ops. rewrite Hm, Hv, Hp. apply IH; [|exact Hi].
    intros k Hk. apply Hl1. now right.
Qed.

Lemma find_mount_none mp (s : state B) : forall l,
  (forall j, j ∈ l -> mounted_at s mp false j) ->
  find_mount mp l s = Ret None s.
Proof.
  induction l as [|j l IH]; intros Hl; [reflexivity|].
  destruct (Hl j ltac:(left)) as [m [v [Hm [Hv Hp]]]].
  cbn. unfold_ops. rewrite Hm, Hv, Hp. apply IH.
  intros k Hk. apply Hl. now right.
Qed.

Lemma list_remove_first i l2 : forall l1,
  i ∉ l1 -> list_remove i (l1 ++ i :: l2) = l1 ++ l2.
Proof.
  induction l1 as [|j l1 IH]; intros Hni; cbn.
  - now rewrite Z.eqb_refl.
  - apply not_elem_of_cons in Hni as [Hne Hni].
    destruct (i =? j) eqn:E; [lia|]. now rewrite IH.
Qed.

(** X25: A mount that succeeds puts a fresh record at the head of the list
    and a handler carrying the mount point; unmounting that mount point
    right away undoes it: registry, record memory and handler memory are
    exactly what they were before the mount, and the handle table was
    never touched. *)
Theorem mount_then_unmount_restores mp dev flags fs w1 mnt w2 vfsh w3 w4 (s : state B) :
  ext2_mutex s = false -> initted s = true ->
  (nz (Z.land flags FS_EXT2_MOUNT_READWRITE) && negb (write_blocks dev)) = false ->
  ext2_fs_init (world s) dev flags = (Some fs, w1) ->
  malloc w1 = (Some mnt, w2) ->
  malloc w2 = (Some vfsh, w3) ->
  nmmgr_handler_add w3 vfsh = (0, w4) ->
  mnt_mem s !! mnt = None -> vfs_mem s !! vfsh = None ->
  exists s1, fs_ext2_mount mp dev flags s = Ret 0 s1 /\
    ext2_mutex s1 = false /\
    ext2_fses s1 = mnt :: ext2_fses s /\
    mnt_mem s1 !! mnt = Some {| mnt_vfsh := vfsh; mnt_fs := fs; mount_flags := flags |} /\
    vfs_mem s1 !! vfsh = Some {| pathname := mp; privdata := mnt |} /\
    exists s2, fs_ext2_unmount mp s1 = Ret 0 s2 /\
      ext2_fses s2 = ext2_fses s /\ mnt_mem s2 = mnt_mem s /\ vfs_mem s2 = vfs_mem s /\
      fh s2 = fh s /\ errno s2 = errno s /\ ext2_mutex s2 = false.
Proof.
  intros Hm Hi Hrw Hf Hm1 Hm2 Hn Hfm Hfv.
  unfold fs_ext2_mount, fs_shutdown, free_mnt, free_vfsh. unfold_ops.
  rewrite Hi. cbn. rewrite Hrw, Hm. cbn. rewrite Hf. cbn. rewrite Hm1. cbn.
  rewrite Hm2. cbn. rewrite Hn. cbn.
  eexists. split; [reflexivity|]. cbn.
  split; [reflexivity|]. split; [reflexivity|].
  split; [apply lookup_insert_eq|]. split; [apply lookup_insert_eq|].
  unfold fs_ext2_unmount, free_mnt, free_vfsh. unfold_ops. cbn.
  rewrite !lookup_insert_eq. cbn. rewrite lookup_insert_eq, String.eqb_refl. cbn.
  rewrite ?lookup_insert_eq. cbn.
  eexists. split; [reflexivity|]. cbn. rewrite Z.eqb_refl.
  rewrite insert_insert_eq, !delete_insert_id by assumption. repeat split.
Qed.

(** X26: [fs_ext2_unmount] removes the first mount registered under the
    path, and only that one: its handler leaves the name manager, handler
    and record are freed, the list loses exactly this element.  The
    handle table is not looked at, so handles opened on the mount stay
    in use. *)
Theorem unmount_removes_first_match mp l1 i l2 m (s : state B) :
  ext2_mutex s = false ->
  ext2_fses s = l1 ++ i :: l2 ->
  (forall j, j ∈ l1 -> mounted_at s mp false j) ->
  i ∉ l1 ->
  mnt_mem s !! i = Some m ->
  mounted_at s mp true i ->
  exists s', fs_ext2_unmount mp s = Ret 0 s' /\
    ext2_fses s' = l1 ++ l2 /\
    mnt_mem s' = delete i (mnt_mem s) /\
    vfs_mem s' = delete (mnt_vfsh m) (vfs_mem s) /\
    fh s' = fh s /\ errno s' = errno s /\ ext2_mutex s' = false /\
    log s' = [Ev (CFree i) true; Ev (CFree (mnt_vfsh m)) true;
              Ev (CNmmgrRemove (mnt_vfsh m)) true] ++ log s.
Proof.
  intros Hm Hl Hl1 Hni Hi Hat.
  assert (Hat' : mounted_at (with_mutex true s) mp true i) by exact Hat.
  assert (Hl1' : forall j, j ∈ l1 -> mounted_at (with_mutex true s) mp false j) by exact Hl1.
  unfold fs_ext2_unmount, free_mnt, free_vfsh.
  unfold mutex_lock at 1. unfold bind at 1. rewrite Hm.
  unfold bind at 1, gets at 1. cbn [ext2_fses with_mutex]. rewrite Hl.
  unfold bind at 1. rewrite (find_mount_first mp i l2 _ l1 Hl1' Hat').
  unfold_ops. cbn. rewrite Hi. cbn.
  eexists. split; [reflexivity|]. cbn. rewrite Hl, (list_remove_first i l2 l1 Hni).
  repeat split.
Qed.

(** X27: When no mount is registered under the path, [fs_ext2_unmount]
    fails with ENOENT and changes nothing else. *)
Theorem unmount_unknown_path mp (s : state B) :
  ext2_mutex s = false ->
  (forall j, j ∈ ext2_fses s -> mounted_at s mp false j) ->
  fs_ext2_unmount mp s = Ret (-1) (with_errno ENOENT s).
Proof.
  intros Hm Hl.
  assert (Hl' : forall j, j ∈ ext2_fses s -> mounted_at (with_mutex true s) mp false j)
    by exact Hl.
  unfold fs_ext2_unmount.
  unfold mutex_lock at 1. unfold bind at 1. rewrite Hm.
  unfold bind at 1, gets at 1. cbn [ext2_fses with_mutex].
  unfold bind at 1. rewrite (find_mount_none mp _ _ Hl').
  unfold_ops. cbn. now rewrite (errno_under_lock ENOENT s Hm).
Qed.

(** *** init and shutdown *)

(** X28: [fs_ext2_init] does its work once: from an uninitialised driver it
    leaves an empty registry, a free mutex and sixteen free slots,
    without a single call to the backend (a handle that was open is
    forgotten, its inode not released); on an initialised driver it
    changes nothing, so a second init is always without effect.  After
    the first init every handle is refused. *)
Theorem init_resets_once (s : state B) :
  exists s1, fs_ext2_init s = Ret 0 s1 /\
    fs_ext2_init s1 = Ret 0 s1 /\
    initted s1 = true /\
    (initted s = true -> s1 = s) /\
    (initted s = false ->
       fh s1 = replicate (Z.to_nat MAX_EXT2_FILES) zero_fh /\
       ext2_fses s1 = [] /\ ext2_mutex s1 = false /\
       world s1 = world s /\ log s1 = log s /\
       find_free (fh s1) = 0 /\
       forall h, 0 < h -> fs_ext2_tell h s1 = Ret (-1) (with_errno EINVAL s1)).
Proof.
  destruct (initted s) eqn:Ei.
  - exists s. unfold fs_ext2_init. unfold_ops. rewrite Ei.
    repeat split; try reflexivity; try assumption; discriminate.
  - set (s1 := with_fh (fun _ => replicate (Z.to_nat MAX_EXT2_FILES) zero_fh)
                 (with_initted true (with_mutex false (with_fses (fun _ => []) s)))).
    exists s1. split; [unfold fs_ext2_init; unfold_ops; rewrite Ei; reflexivity|].
    split; [reflexivity|]. split; [reflexivity|]. split; [discriminate|]. intros _.
    do 6 (split; [reflexivity|]).
    intros h Hh. apply (free_slot_rejected h s1 eq_refl).
    destruct (Z_lt_le_dec MAX_EXT2_FILES h) as [Hgt|Hle]; [left; exact Hgt|].
    right. split; [exact Hh|]. exists zero_fh. split; [|reflexivity].
    cbn. apply lookup_replicate_2. unfold MAX_EXT2_FILES in *. lia.
Qed.

(** The loop of shutdown over a list of live, distinct mount records:
    every record and its handler are freed, one removal from the name
    manager each. *)
Lemma shutdown_loop_spec (l : list Z) : forall (s : state B),
  NoDup l -> (forall i, i ∈ l -> is_Some (mnt_mem s !! i)) ->
  exists s', shutdown_loop l s = Ret tt s' /\
    (forall i, i ∈ l -> mnt_mem s' !! i = None) /\
    (forall i, mnt_mem s !! i = None -> mnt_mem s' !! i = None) /\
    (forall i m, i ∈ l -> mnt_mem s !! i = Some m -> vfs_mem s' !! mnt_vfsh m = None) /\
    (forall k, vfs_mem s !! k = None -> vfs_mem s' !! k = None) /\
    fh s' = fh s /\ ext2_mutex s' = ext2_mutex s /\ ext2_fses s' = ext2_fses s /\
    initted s' = initted s /\ errno s' = errno s /\
    tally is_nmmgr_remove (log s') = tally is_nmmgr_remove (log s) + Z.of_nat (length l) /\
    frees (log s') = frees (log s) + 2 * Z.of_nat (length l).
Proof.
  induction l as [|i l IH]; intros s Hnd Hlive.
  - exists s. cbn. repeat split; try reflexivity; try lia; auto.
    + intros i Hi. inversion Hi.
    + intros i m Hi. inversion Hi.
  - apply NoDup_cons in Hnd as [Hni Hnd].
    destruct (Hlive i ltac:(left)) as [m Hm].
    cbn [shutdown_loop]. unfold free_mnt, free_vfsh. unfold_ops. rewrite Hm. cbn.
    match goal with |- context [shutdown_loop l ?s1] =>
      destruct (IH s1 Hnd) as
        [s' [Hrun [H1 [H2 [H3 [H4 [H5 [H6 [H7 [H8 [H9 [H10 H11]]]]]]]]]]]]
    end.
    { intros j Hj. cbn. rewrite lookup_delete_ne; [apply Hlive; now right|].
      intros ->. contradiction. }
    exists s'. rewrite Hrun. cbn in *. split; [reflexivity|].
    split; [|split; [|split; [|split]]].
    + intros j Hj. apply elem_of_cons in Hj as [->|Hj]; [|now apply H1].
      apply H2. apply lookup_delete_eq.
    + intros j Hj. apply H2. destruct (decide (i = j)) as [->|Hne].
      * apply lookup_delete_eq.
      * rewrite lookup_delete_ne by exact Hne. exact Hj.
    + intros j mj Hj Hmj. apply elem_of_cons in Hj as [->|Hj].
      * rewrite Hm in Hmj. injection Hmj as <-. apply H4. apply lookup_delete_eq.
      * apply (H3 j mj Hj). rewrite lookup_delete_ne; [exact Hmj|].
        intros ->. contradiction.
    + intros k Hk. apply H4. destruct (decide (mnt_vfsh m = k)) as [->|Hne].
      * apply lookup_delete_eq.
      * rewrite lookup_delete_ne by exact Hne. exact Hk.
    + unfold frees in *. cbn in *. repeat split; try assumption; lia.
Qed.

(** X29: [fs_ext2_shutdown] on an initialised driver whose registry holds
    live, distinct mount records returns 0 having freed every record and
    every handler and removed each handler from the name manager; the
    handle table is not touched.  The list head is not reset: it still
    names the freed records, and until the next init every mount is
    refused. *)
Theorem shutdown_frees_registry (s : state B) :
  initted s = true ->
  NoDup (ext2_fses s) ->
  (forall i, i ∈ ext2_fses s -> is_Some (mnt_mem s !! i)) ->
  exists s', fs_ext2_shutdown s = Ret 0 s' /\
    initted s' = false /\
    (forall i, i ∈ ext2_fses s -> mnt_mem s' !! i = None) /\
    (forall i m, i ∈ ext2_fses s -> mnt_mem s !! i = Some m ->
                 vfs_mem s' !! mnt_vfsh m = None) /\
    tally is_nmmgr_remove (log s')
      = tally is_nmmgr_remove (log s) + Z.of_nat (length (ext2_fses s)) /\
    frees (log s') = frees (log s) + 2 * Z.of_nat (length (ext2_fses s)) /\
    ext2_fses s' = ext2_fses s /\ fh s' = fh s /\
    (forall mp dev flags, fs_ext2_mount mp dev flags s' = Ret (-1) s').
Proof.
  intros Hi Hnd Hlive.
  destruct (shutdown_loop_spec (ext2_fses s) s Hnd Hlive)
    as [s1 [Hrun [H1 [H2 [H3 [H4 [H5 [H6 [H7 [H8 [H9 [H10 H11]]]]]]]]]]]].
  unfold fs_ext2_shutdown, mutex_destroy. unfold_ops. rewrite Hi. cbn. rewrite Hrun. cbn.
  eexists. split; [reflexivity|]. cbn.
  repeat split; try assumption.
Qed.
End Proofs.

(** * The claims on concrete calls *)

(** C1: rename of "/a/x" to "/b/y" on a read-write mount, the mutex
    free, the backend carrying out both directory changes: the call
    takes the mutex, does its work, and ends in a second [mutex_lock] on
    the mutex it still holds instead of the [mutex_unlock] every other
    operation ends with.  It never returns and the mutex stays held. *)
Theorem rename_locks_mutex_again :
  let s0 := boot (disk rename_script) in
  let o := fs_ext2_rename rw_mount (Some "/a/x"%string) (Some "/b/y"%string) s0 in
  ext2_mutex s0 = false /\
  o = Hang Deadlock (final o) /\
  ext2_mutex (final o) = true /\
  In (Ev (CAddEntry 113 "y" 12) true) (log (final o)) /\
  In (Ev (CRmEntry 102 "x") true) (log (final o)).
Proof.
  cbv zeta. split; [reflexivity|]. split; [vm_compute; reflexivity|].
  split; [vm_compute; reflexivity|]. split; vm_compute; auto 20.
Qed.

(** C2: a mount whose registration with the name manager fails returns
    -1 with the mount record already inserted in [ext2_fses] and then
    freed: the list is not what it was before the call, its head is a
    dangling pointer, and the next unmount walks into it. *)
Theorem failed_mount_stays_registered :
  let s0 := boot (disk mount_script) in
  let o := fs_ext2_mount "/ext2" rw_device 1 s0 in
  returned o = Some (-1) /\
  ext2_fses s0 = [] /\
  ext2_fses (final o) = [500] /\
  mnt_mem (final o) !! 500 = None /\
  In (Ev (CFree 500) true) (log (final o)) /\
  fs_ext2_unmount "/ext2" (final o) = Hang UseAfterFree (with_mutex true (final o)).
Proof.
  cbv zeta. split; [vm_compute; reflexivity|]. split; [reflexivity|].
  split; [vm_compute; reflexivity|]. split; [vm_compute; reflexivity|].
  split; [vm_compute; auto 20|]. vm_compute; reflexivity.
Qed.



(** C4, as stated, fails: on a file of ten bytes, seeking to -1 from
    the start leaves the cursor at 10, not at 0. *)
Lemma seek_below_zero_lands_at_size :
  let o := fs_ext2_seek 1 (-1) SEEK_SET (opened []) in
  seek_target SEEK_SET 0 10 (-1) = Some (-1) /\
  returned o = Some 10 /\
  fh_ptr <$> fh (final o) !! 0%nat = Some 10 /\
  fh_ptr <$> fh (final o) !! 0%nat <> Some 0.
Proof.
  cbv zeta. split; [reflexivity|]. split; [vm_compute; reflexivity|].
  split; [vm_compute; reflexivity|]. vm_compute. discriminate.
Qed.

(** The amended C4 on the same file: seeking to 5 from the start. *)
Lemma seek_clamps_into_file_witness :
  let s1 := opened [] in
  let x1 := set_mode 0 (set_inode_num 12 (set_inode 112 (set_fs rw_mount zero_fh))) in
  (ext2_mutex s1 = false /\ fh s1 !! Z.to_nat (1 - 1) = Some x1 /\
   fh_inode_num x1 <> 0 /\ is_dir_mode x1 = false /\ in_signed off_bits 5) /\
  exists s', fs_ext2_seek 1 5 SEEK_SET s1 = Ret 5 s' /\
             fh s' !! Z.to_nat (1 - 1) = Some (set_ptr 5 x1) /\
             ext2_mutex s' = false.
Proof.
  cbv zeta.
  assert (H1 : ext2_mutex (opened []) = false) by reflexivity.
  assert (H2 : fh (opened []) !! Z.to_nat (1 - 1)
               = Some (set_mode 0 (set_inode_num 12 (set_inode 112 (set_fs rw_mount zero_fh)))))
    by (vm_compute; reflexivity).
  assert (H3 : fh_inode_num (set_mode 0 (set_inode_num 12 (set_inode 112 (set_fs rw_mount zero_fh)))) <> 0)
    by (cbn; lia).
  assert (H4 : is_dir_mode (set_mode 0 (set_inode_num 12 (set_inode 112 (set_fs rw_mount zero_fh)))) = false)
    by reflexivity.
  assert (H5 : in_signed off_bits 5) by (unfold in_signed; cbn; lia).
  split; [auto|].
  exact (proj2 (proj2 (seek_clamps_into_file 1 _ 5 SEEK_SET (opened []) H1
           ltac:(unfold MAX_EXT2_FILES; lia) H2 H3 H4
           ltac:(vm_compute; split; discriminate) ltac:(vm_compute; reflexivity) H5
           ltac:(intros _ _; vm_compute; reflexivity)))).
Defined.

(** C5, as stated, fails: with the create flag alone, opening a path
    that exists returns a handle and fills a slot; errno is not set. *)
Lemma open_create_on_existing_path :
  let o := fs_ext2_open rw_mount "/a/x" O_CREAT (boot (disk open_script)) in
  nz (Z.land O_CREAT O_CREAT) = true /\
  returned o = Some 1 /\
  errno (final o) = Ecode 0 /\
  fh_inode_num <$> fh (final o) !! 0%nat = Some 12.
Proof.
  cbv zeta. split; [reflexivity|]. split; [vm_compute; reflexivity|].
  split; vm_compute; reflexivity.
Qed.

(** The amended C5 on a fresh driver: the create flag on a path the
    backend does not find. *)
Lemma open_rejects_write_intent_witness :
  let s0 := boot (disk [AByPath (inl ENOENT)]) in
  (ext2_mutex s0 = false /\ wf s0 /\
   Z.land O_CREAT (Z.lor O_WRONLY O_TRUNC) = 0 /\ find_free (fh s0) < MAX_EXT2_FILES) /\
  exists s', fs_ext2_open rw_mount "/a/none" O_CREAT s0 = Ret 0 s' /\
             fh s' = fh s0 /\ ext2_mutex s' = false /\ errno s' = EROFS.
Proof.
  cbv zeta. split; [repeat split; reflexivity|].
  exact (proj1 (proj2 (open_rejects_write_intent rw_mount "/a/none" O_CREAT
                         (boot (disk [AByPath (inl ENOENT)])) eq_refl eq_refl))
               eq_refl eq_refl (disk []) eq_refl).
Defined.

(** C6: a file opened with mode 0 ([O_RDONLY] in newlib) gets handle 1;
    [fs_ext2_close] tests [fh[fd].mode], finds 0 and gives nothing up:
    the table is as before, no reference is released, and tell, total
    and seek on the closed handle still succeed. *)
Theorem close_keeps_mode_zero_handle :
  let s1 := opened [] in
  let o2 := fs_ext2_close 1 s1 in
  fh_inode_num <$> fh s1 !! 0%nat = Some 12 /\
  fh_mode <$> fh s1 !! 0%nat = Some 0 /\
  returned o2 = Some tt /\
  fh (final o2) = fh s1 /\
  releases (log (final o2)) = releases (log s1) /\
  fs_ext2_tell 1 (final o2) = Ret 0 (final o2) /\
  fs_ext2_total 1 (final o2) = Ret 10 (final o2) /\
  returned (fs_ext2_seek 1 3 SEEK_SET (final o2)) = Some 3 /\
  errno (final (fs_ext2_seek 1 3 SEEK_SET (final o2))) = Ecode 0.
Proof.
  cbv zeta. repeat split; vm_compute; reflexivity.
Qed.

(** C7 on the file of ten bytes, cursor at 0: a read of 4 bytes. *)
Lemma read_returns_clamped_count_witness :
  let s1 := opened [AReadBlock (inr [1; 2; 3; 4; 5; 6; 7; 8; 9; 10])] in
  let x1 := set_mode 0 (set_inode_num 12 (set_inode 112 (set_fs rw_mount zero_fh))) in
  (ext2_mutex s1 = false /\ fh s1 !! Z.to_nat (1 - 1) = Some x1 /\
   fh_inode_num x1 <> 0 /\ is_dir_mode x1 = false /\
   0 < u32 (ext2_block_size (world s1) (mnt_fs (fh_fs x1)))) /\
  fs_ext2_total 1 s1 = Ret (i_size (inode_load (world s1) (fh_inode x1))) s1 /\
  fs_ext2_tell 1 s1 = Ret (to_signed off_bits (fh_ptr x1)) s1 /\
  exists rv data s',
    fs_ext2_read 4 1 4 s1 = Ret (rv, data) s' /\ ext2_mutex s' = false /\
    (rv = Z.min 4 (i_size (inode_load (world s1) (fh_inode x1)) - fh_ptr x1) /\
     fh s' !! Z.to_nat (1 - 1) = Some (set_ptr (fh_ptr x1 + rv) x1) /\
     unseen failed_read_block s1 s'
     \/
     rv = -1 /\ exists p blk l, log s' = Ev (CReadBlock p blk) false :: l).
Proof.
  cbv zeta.
  split; [repeat split; try reflexivity; cbn; lia|].
  exact (read_returns_clamped_count 4 1 4 _
           (opened [AReadBlock (inr [1; 2; 3; 4; 5; 6; 7; 8; 9; 10])])
           eq_refl ltac:(unfold MAX_EXT2_FILES; lia) eq_refl
           ltac:(cbn; lia) eq_refl
           ltac:(vm_compute; split; discriminate) ltac:(vm_compute; reflexivity)
           ltac:(vm_compute; split; [discriminate | reflexivity])
           ltac:(vm_compute; reflexivity) ltac:(vm_compute; lia)).
Defined.

(** The same read, run: 4 is returned, the four bytes are in the
    buffer and the cursor is at 4. *)
Example read_four_bytes :
  let o := fs_ext2_read 4 1 4 (opened [AReadBlock (inr [1; 2; 3; 4; 5; 6; 7; 8; 9; 10])]) in
  returned o = Some (4, [1; 2; 3; 4]) /\ fh_ptr <$> fh (final o) !! 0%nat = Some 4.
Proof. cbv zeta. split; vm_compute; reflexivity. Qed.

(** A read of 100 bytes with the cursor at 7 returns the 3 that are
    left; a read whose block fetch fails returns -1. *)
Example read_clamped_and_failed :
  let s1 := final (fs_ext2_seek 1 7 SEEK_SET
                     (opened [AReadBlock (inr [1; 2; 3; 4; 5; 6; 7; 8; 9; 10])])) in
  returned (fs_ext2_read 100 1 100 s1) = Some (3, [8; 9; 10]) /\
  returned (fs_ext2_read 100 1 100 (opened [AReadBlock (inl EIO)])) = Some (-1, []).
Proof. cbv zeta. split; vm_compute; reflexivity. Qed.

(** C8 on the directory "/a", opened with [O_DIR]: whatever readdir
    returns comes from an entry with a non-zero inode number. *)
Lemma readdir_skips_tombstones_witness :
  let s1 := opened_dir [AReadBlock (inr tomb_block); AReadBlock (inr tomb_block);
                        AGet (Some 112)] in
  let x1 := set_mode O_DIR (set_inode_num 2 (set_inode 102 (set_fs rw_mount zero_fh))) in
  (ext2_mutex s1 = false /\ fh s1 !! Z.to_nat (1 - 1) = Some x1 /\
   fh_inode_num x1 <> 0 /\ is_dir_mode x1 = true) /\
  forall de s',
    fs_ext2_readdir 2 1 s1 = Ret (Some de) s' ->
    exists dent p l,
      d_inode dent <> 0 /\ d_rec_len dent <> 0 /\
      de_name de = substring 0 (Z.to_nat (d_name_len dent)) (d_name dent) /\
      log s' = Ev (CPut p) true :: Ev (CGet (mnt_fs (fh_fs x1)) (d_inode dent)) true :: l.
Proof.
  cbv zeta.
  split; [repeat split; try reflexivity; cbn; lia|].
  exact (proj2 (proj2 (readdir_skips_tombstones 2 1 _
           (opened_dir [AReadBlock (inr tomb_block); AReadBlock (inr tomb_block);
                        AGet (Some 112)])
           eq_refl ltac:(unfold MAX_EXT2_FILES; lia) eq_refl ltac:(cbn; lia) eq_refl))).
Defined.

(** The same call, run: the deleted entry at offset 0 is passed over,
    the record of "x" is returned and the cursor ends at 1024; the
    next call reports the end of the directory and leaves errno alone. *)
Example readdir_passes_tombstone :
  let s1 := opened_dir [AReadBlock (inr tomb_block); AReadBlock (inr tomb_block);
                        AGet (Some 112)] in
  let o := fs_ext2_readdir 2 1 s1 in
  returned o = Some (Some {| de_size := 10; de_name := "x"; de_time := 7; de_attr := 0 |}) /\
  fh_ptr <$> fh (final o) !! 0%nat = Some 1024 /\
  fs_ext2_readdir 1 1 (final o) = Ret None (final o).
Proof. cbv zeta. repeat split; vm_compute; reflexivity. Qed.

(** An entry with record length zero: NULL and EBADF. *)
Example readdir_zero_record_length :
  let o := fs_ext2_readdir 1 1 (opened_dir [AReadBlock (inr [12; 0; 0; 0; 0; 0; 1; 0; 120])]) in
  returned o = Some None /\ errno (final o) = EBADF.
Proof. cbv zeta. split; vm_compute; reflexivity. Qed.

(** C9: "/a/x" is opened with mode 0.  The first unlink is refused with
    EBUSY and changes nothing, as claimed.  The handle is then closed,
    but [fs_ext2_close] leaves a slot whose mode is 0 as it is (the
    defect of C6), so the same unlink is refused with EBUSY again
    although the backend would have removed the entry. *)
Theorem unlink_still_busy_after_close :
  let s1 := opened (busy_script ++ unlink_script) in
  let o2 := fs_ext2_unlink rw_mount (Some "/a/x"%string) s1 in
  let o3 := fs_ext2_close 1 (final o2) in
  let o4 := fs_ext2_unlink rw_mount (Some "/a/x"%string) (final o3) in
  returned o2 = Some (-1) /\ errno (final o2) = EBUSY /\
  unseen is_mutation s1 (final o2) /\
  returned o3 = Some tt /\
  returned o4 = Some (-1) /\ errno (final o4) = EBUSY /\
  unseen is_mutation s1 (final o4).
Proof. cbv zeta. repeat split; vm_compute; reflexivity. Qed.

(** With any mode that is not 0 the scenario of C9 goes as claimed:
    opened with mode 2 ([O_RDWR] in newlib, which open lets through),
    the file is busy until the close, and the unlink after it returns 0,
    the entry removed before the inode is dereferenced. *)
Example unlink_after_effective_close :
  let s1 := final (fs_ext2_open rw_mount "/a/x" 2
                     (boot (disk (open_script ++ busy_script ++ unlink_script)))) in
  let o2 := fs_ext2_unlink rw_mount (Some "/a/x"%string) s1 in
  let o3 := fs_ext2_close 1 (final o2) in
  let o4 := fs_ext2_unlink rw_mount (Some "/a/x"%string) (final o3) in
  returned o2 = Some (-1) /\ errno (final o2) = EBUSY /\
  fh_inode_num <$> fh (final o3) !! 0%nat = Some 0 /\
  returned o4 = Some 0 /\
  take 7 (log (final o4)) =
    [Ev (CDeref 1 12 false) true; Ev (CFree 4096) true; Ev (CPut 112) true;
     Ev (CPut 102) true; Ev (CStore 102 (set_times_cm 1000 dir2)) true;
     Ev (CRmEntry 102 "x") true; Ev (CGet 1 12) true].
Proof. cbv zeta. repeat split; vm_compute; reflexivity. Qed.



(** The same call, run: what rmdir did to the file system, oldest
    first. *)
Example rmdir_of_non_empty_directory :
  let o := fs_ext2_rmdir rw_mount (Some "/a/sub"%string) (boot (disk rmdir_script)) in
  returned o = Some 0 /\
  filter (fun e => is_mutation e = true) (rev (log (final o))) =
    [Ev (CRmEntry 102 "sub") true;
     Ev (CDeref 1 13 true) true;
     Ev (CStore 102 (set_times_cm 1000 dir2)) true;
     Ev (CStore 102 (set_links 2 (set_times_cm 1000 dir2))) true;
     Ev (CMarkDirty 102) true].
Proof. cbv zeta. split; vm_compute; reflexivity. Qed.

(** * The further properties on concrete calls *)

(** X1: open on a table whose sixteen slots are all taken. *)
Lemma open_table_full_witness :
  (ext2_mutex full_table = false /\ wf full_table /\
   Z.land 0 (Z.lor O_WRONLY O_TRUNC) = 0) /\
  fs_ext2_open rw_mount "/a/x" 0 full_table = Ret 0 (with_errno ENFILE full_table).
Proof.
  split; [repeat split|].
  apply (open_table_full rw_mount "/a/x" 0 full_table eq_refl eq_refl eq_refl).
  vm_compute. repeat constructor; discriminate.
Defined.

(** X2: The directory "/a" opened without [O_DIR]: EISDIR, and slot 0 is
    still the first free one. *)
Lemma open_kind_mismatch_witness :
  let s0 := boot (disk [AByPath (inr (102, 2))]) in
  (ext2_mutex s0 = false /\ wf s0 /\ find_free (fh s0) < MAX_EXT2_FILES /\
   nz (Z.land (i_mode dir2) EXT2_S_IFDIR) = true /\ nz (Z.land 0 O_DIR) = false) /\
  exists s', fs_ext2_open rw_mount "/a" 0 s0 = Ret 0 s' /\
    errno s' = EISDIR /\ find_free (fh s') = 0 /\
    log s' = [Ev (CPut 102) true; Ev (CByPath 1 "/a") true].
Proof.
  cbv zeta. split; [repeat split|].
  destruct (open_kind_mismatch (HD:=dreamcast) (BE:=scripted_backend)
              rw_mount "/a" 0 102 2 (disk [])
              (boot (disk [AByPath (inr (102, 2))]))
              eq_refl eq_refl eq_refl eq_refl eq_refl
              ltac:(vm_compute; discriminate))
    as [x [s' [H1 [H2 [_ [_ [H3 [_ H4]]]]]]]].
  exists s'. split; [exact H1|]. split; [exact H2|]. split; [exact H3 | exact H4].
Defined.

(** X3: "/a/x" and then "/a" opened on a fresh driver: handles 1 and 2. *)
Lemma successive_opens_differ_witness :
  let s0 := boot (disk [AByPath (inr (112, 12)); AByPath (inr (102, 2))]) in
  let o1 := fs_ext2_open rw_mount "/a/x" 0 s0 in
  let o2 := fs_ext2_open rw_mount "/a" O_DIR (final o1) in
  (ext2_mutex s0 = false /\ wf s0 /\ o1 = Ret 1 (final o1) /\ o2 = Ret 2 (final o2)) /\
  2 <> 1 /\ fh (final o2) !! Z.to_nat (1 - 1) = fh (final o1) !! Z.to_nat (1 - 1).
Proof.
  cbv zeta.
  assert (H1 : fs_ext2_open rw_mount "/a/x" 0
                 (boot (disk [AByPath (inr (112, 12)); AByPath (inr (102, 2))]))
               = Ret 1 (final (fs_ext2_open rw_mount "/a/x" 0
                   (boot (disk [AByPath (inr (112, 12)); AByPath (inr (102, 2))])))))
    by (vm_compute; reflexivity).
  assert (H2 : fs_ext2_open rw_mount "/a" O_DIR
                 (final (fs_ext2_open rw_mount "/a/x" 0
                    (boot (disk [AByPath (inr (112, 12)); AByPath (inr (102, 2))]))))
               = Ret 2 (final (fs_ext2_open rw_mount "/a" O_DIR
                   (final (fs_ext2_open rw_mount "/a/x" 0
                      (boot (disk [AByPath (inr (112, 12)); AByPath (inr (102, 2))])))))))
    by (vm_compute; reflexivity).
  split; [split; [reflexivity | split; [reflexivity | split; [exact H1 | exact H2]]]|].
  apply (successive_opens_differ rw_mount "/a/x" 0 rw_mount "/a" O_DIR 1 2
           (boot (disk [AByPath (inr (112, 12)); AByPath (inr (102, 2))])) _ _
           eq_refl eq_refl); [|exact H1|lia|exact H2|lia].
  intros p w. vm_compute. discriminate.
Defined.

(** X4: The directory "/a" opened with [O_DIR] and closed: the handle is
    dead and slot 0 free. *)
Lemma close_then_use_rejected_witness :
  let s1 := opened_dir [] in
  let x1 := set_mode O_DIR (set_inode_num 2 (set_inode 102 (set_fs rw_mount zero_fh))) in
  (ext2_mutex s1 = false /\ fh s1 !! Z.to_nat (1 - 1) = Some x1 /\ fh_mode x1 <> 0) /\
  exists s', fs_ext2_close 1 s1 = Ret tt s' /\
    log s' = Ev (CPut 102) true :: log s1 /\
    fs_ext2_close 1 s' = Ret tt s' /\
    fs_ext2_readdir 5 1 s' = Ret None (with_errno EINVAL s').
Proof.
  cbv zeta.
  assert (H2 : fh (opened_dir []) !! Z.to_nat (1 - 1)
               = Some (set_mode O_DIR (set_inode_num 2 (set_inode 102 (set_fs rw_mount zero_fh)))))
    by (vm_compute; reflexivity).
  assert (H3 : fh_mode (set_mode O_DIR (set_inode_num 2 (set_inode 102
                 (set_fs rw_mount zero_fh)))) <> 0) by (vm_compute; discriminate).
  split; [split; [reflexivity | split; [exact H2 | exact H3]]|].
  destruct (close_then_use_rejected 1 _ (opened_dir []) eq_refl
              ltac:(unfold MAX_EXT2_FILES; lia) H2 H3)
    as [s' [G1 [G2 [_ [G3 [_ [_ [_ [_ G4]]]]]]]]].
  exists s'. split; [exact G1|]. split; [exact G2|]. split; [exact G3 | apply G4].
Defined.

(** X5: A file handle and readdir; a directory handle and tell. *)
Lemma wrong_kind_rejected_witness :
  let s1 := opened [] in
  let x1 := set_mode 0 (set_inode_num 12 (set_inode 112 (set_fs rw_mount zero_fh))) in
  (ext2_mutex s1 = false /\ fh s1 !! Z.to_nat (1 - 1) = Some x1 /\
   fh_inode_num x1 <> 0 /\ is_dir_mode x1 = false) /\
  fs_ext2_readdir 3 1 s1 = Ret None (with_errno EINVAL s1).
Proof.
  cbv zeta.
  assert (H2 : fh (opened []) !! Z.to_nat (1 - 1)
               = Some (set_mode 0 (set_inode_num 12 (set_inode 112 (set_fs rw_mount zero_fh)))))
    by (vm_compute; reflexivity).
  assert (H3 : fh_inode_num (set_mode 0 (set_inode_num 12 (set_inode 112
                 (set_fs rw_mount zero_fh)))) <> 0) by (cbn; lia).
  split; [split; [reflexivity | split; [exact H2 | split; [exact H3 | reflexivity]]]|].
  apply (proj2 (wrong_kind_rejected 1 _ (opened []) eq_refl
                  ltac:(unfold MAX_EXT2_FILES; lia) H2 H3)).
  reflexivity.
Defined.

(** X6: "/a/x" opened with mode 2 and closed again. *)
Lemma open_then_close_balanced_witness :
  let s0 := boot (disk open_script) in
  let s1 := opened_with 2 [] in
  (ext2_mutex s0 = false /\ wf s0 /\ fs_ext2_open rw_mount "/a/x" 2 s0 = Ret 1 s1) /\
  exists s2, fs_ext2_close 1 s1 = Ret tt s2 /\
    balanced s0 s2 /\ find_free (fh s2) = find_free (fh s0).
Proof.
  cbv zeta.
  assert (Ho : fs_ext2_open rw_mount "/a/x" 2 (boot (disk open_script))
               = Ret 1 (opened_with 2 [])) by (vm_compute; reflexivity).
  split; [split; [reflexivity | split; [reflexivity | exact Ho]]|].
  destruct (open_then_close_balanced rw_mount "/a/x" 2 1 (boot (disk open_script))
              (opened_with 2 []) eq_refl eq_refl ltac:(lia) Ho ltac:(lia))
    as [s2 [G1 [G2 [G3 _]]]].
  exists s2. split; [exact G1|]. split; [exact G2 | exact G3].
Defined.

(** X7: On the file of ten bytes: a seek to three before the end returns
    7, and so does the tell after it. *)
Lemma seek_then_tell_witness :
  let s1 := opened [] in
  let x1 := set_mode 0 (set_inode_num 12 (set_inode 112 (set_fs rw_mount zero_fh))) in
  (ext2_mutex s1 = false /\ fh s1 !! Z.to_nat (1 - 1) = Some x1 /\
   fh_inode_num x1 <> 0 /\ is_dir_mode x1 = false /\
   returned (fs_ext2_seek 1 (-3) SEEK_END s1) = Some 7) /\
  exists rv s', fs_ext2_seek 1 (-3) SEEK_END s1 = Ret rv s' /\
    fs_ext2_tell 1 s' = Ret rv s' /\ fs_ext2_total 1 s' = Ret 10 s'.
Proof.
  cbv zeta.
  assert (H2 : fh (opened []) !! Z.to_nat (1 - 1)
               = Some (set_mode 0 (set_inode_num 12 (set_inode 112 (set_fs rw_mount zero_fh)))))
    by (vm_compute; reflexivity).
  assert (H3 : fh_inode_num (set_mode 0 (set_inode_num 12 (set_inode 112
                 (set_fs rw_mount zero_fh)))) <> 0) by (cbn; lia).
  split; [split; [reflexivity | split; [exact H2 | split; [exact H3 |
          split; [reflexivity | vm_compute; reflexivity]]]]|].
  destruct (seek_then_tell 1 _ (-3) SEEK_END (opened []) eq_refl
              ltac:(unfold MAX_EXT2_FILES; lia) H2 H3 eq_refl
              ltac:(right; right; reflexivity))
    as [rv [s' [G1 [G2 [G3 _]]]]].
  exists rv, s'. split; [exact G1|]. split; [exact G2 | exact G3].
Defined.

(** X8: A read of six bytes from offset 3 of the file of ten bytes, on
    blocks of four bytes: the end of one block, a whole block and the
    start of a third. *)
Lemma read_returns_file_bytes_witness :
  let s1 := final (fs_ext2_seek 1 3 SEEK_SET
                     (final (fs_ext2_open rw_mount "/a/x" 0 (boot (small_disk open_script))))) in
  let x1 := set_ptr 3 (set_mode 0 (set_inode_num 12 (set_inode 112 (set_fs rw_mount zero_fh)))) in
  (ext2_mutex s1 = false /\ fh s1 !! Z.to_nat (1 - 1) = Some x1 /\
   fh_inode_num x1 <> 0 /\ is_dir_mode x1 = false /\
   ext2_block_size (world s1) 1 = 4 /\ file_bytes count_up 4 3 6 = [3; 4; 5; 6; 7; 8]) /\
  exists s', fs_ext2_read (BE:=serving count_up) 6 1 6 s1
             = Ret (6, file_bytes count_up 4 3 6) s' /\
    fh_ptr <$> fh s' !! 0%nat = Some 9.
Proof.
  cbv zeta.
  set (s1 := final (fs_ext2_seek 1 3 SEEK_SET
                      (final (fs_ext2_open rw_mount "/a/x" 0 (boot (small_disk open_script)))))).
  set (x1 := set_ptr 3 (set_mode 0 (set_inode_num 12 (set_inode 112 (set_fs rw_mount zero_fh))))).
  assert (H2 : fh s1 !! Z.to_nat (1 - 1) = Some x1) by (vm_compute; reflexivity).
  assert (H3 : fh_inode_num x1 <> 0) by (cbn; lia).
  split; [split; [reflexivity | split; [exact H2 | split; [exact H3 | split; [reflexivity |
          split; vm_compute; reflexivity]]]]|].
  pose proof (read_returns_file_bytes (HD:=dreamcast) (BE:=serving count_up)
                (fun _ => True) count_up 6 1 6 x1 s1
                eq_refl ltac:(unfold MAX_EXT2_FILES; lia) H2 H3 eq_refl
                ltac:(vm_compute; split; discriminate) ltac:(vm_compute; reflexivity)
                ltac:(vm_compute; split; [discriminate | reflexivity])
                ltac:(vm_compute; discriminate) ltac:(vm_compute; reflexivity)
                ltac:(vm_compute; reflexivity)
                ltac:(intros k; unfold count_up; rewrite length_seqZ; reflexivity)
                I
                ltac:(intros w k _; exists w; split; [reflexivity | exact I])
                ltac:(vm_compute; lia)) as G.
  cbv zeta in G. destruct G as [s' [G1 [G2 _]]].
  exists s'. split; [exact G1|]. rewrite G2. vm_compute. reflexivity.
Defined.

(** X9: readdir on "/a" with the entry "x" at the cursor: the record of
    the file, and the cursor at the end of the block. *)
Lemma readdir_returns_entry_witness :
  let s1 := opened_dir [AReadBlock (inr live_block); AGet (Some 112)] in
  let x1 := set_mode O_DIR (set_inode_num 2 (set_inode 102 (set_fs rw_mount zero_fh))) in
  (ext2_mutex s1 = false /\ fh s1 !! Z.to_nat (1 - 1) = Some x1 /\
   fh_inode_num x1 <> 0 /\ is_dir_mode x1 = true) /\
  exists s', fs_ext2_readdir 1 1 s1
             = Ret (Some {| de_size := 10; de_name := "x"; de_time := 7; de_attr := 0 |}) s' /\
    fh_ptr <$> fh s' !! 0%nat = Some 1012 /\ errno s' = errno s1.
Proof.
  cbv zeta.
  assert (H2 : fh (opened_dir [AReadBlock (inr live_block); AGet (Some 112)])
                 !! Z.to_nat (1 - 1)
               = Some (set_mode O_DIR (set_inode_num 2 (set_inode 102 (set_fs rw_mount zero_fh)))))
    by (vm_compute; reflexivity).
  assert (H3 : fh_inode_num (set_mode O_DIR (set_inode_num 2 (set_inode 102
                 (set_fs rw_mount zero_fh)))) <> 0) by (cbn; lia).
  split; [split; [reflexivity | split; [exact H2 | split; [exact H3 | reflexivity]]]|].
  pose proof (readdir_returns_entry (HD:=dreamcast) (BE:=scripted_backend)
                0 1 _ live_block (disk [AGet (Some 112)]) (Some 112) (disk [])
                (opened_dir [AReadBlock (inr live_block); AGet (Some 112)])
                eq_refl ltac:(unfold MAX_EXT2_FILES; lia) H2 H3 eq_refl
                ltac:(vm_compute; reflexivity) ltac:(vm_compute; reflexivity)
                ltac:(vm_compute; discriminate) ltac:(vm_compute; discriminate)
                ltac:(vm_compute; reflexivity)) as G.
  cbv zeta in G. destruct G as [s' [G1 [G2 [G3 _]]]].
  exists s'. split; [exact G1|]. split; [|exact G3].
  rewrite G2. vm_compute. reflexivity.
Defined.

(** X12: The four structural operations on the read-only mount. *)
Lemma read_only_mount_refuses_witness :
  let s0 := boot (disk unlink_script) in
  is_rw ro_mount = false /\
  fs_ext2_unlink ro_mount (Some "/a/x"%string) s0 = Ret (-1) (with_errno EROFS s0) /\
  fs_ext2_mkdir ro_mount (Some EmptyString) s0 = Ret (-1) (with_errno EROFS s0) /\
  fs_ext2_rmdir ro_mount (Some "/"%string) s0 = Ret (-1) (with_errno EPERM s0) /\
  fs_ext2_rename ro_mount (Some "/a/x"%string) (Some "/b/y"%string) s0
    = Ret (-1) (with_errno EROFS s0).
Proof.
  cbv zeta. split; [reflexivity|].
  destruct (read_only_mount_refuses ro_mount (boot (disk unlink_script)) eq_refl)
    as [H1 [H2 [H3 H4]]].
  split; [exact (H1 "/a/x"%string)|]. split; [exact (H2 EmptyString)|].
  split; [exact (H3 "/"%string) | exact (H4 "/a/x"%string "/b/y"%string)].
Defined.

(** X13: [int_rename] of the file "x" onto "/a/sub", a directory. *)
Lemma int_rename_guards_witness :
  let s0 := boot (disk (take 3 rmdir_script)) in
  (is_dir dir2 = true /\ is_dir dir13 = true) /\
  exists s', int_rename rw_mount "x" "/a/sub" 102 112 12 true s0 = Ret (inl EISDIR) s' /\
    unseen is_mutation s0 s' /\ balanced s0 s' /\ copy_freed s0 s'.
Proof.
  cbv zeta. split; [split; reflexivity|].
  destruct (proj1 (int_rename_guards (HD:=dreamcast) (BE:=scripted_backend)
              rw_mount "x" "/a/sub" 102 112 12 true "/a" "sub" 4096
              (disk (take 3 rmdir_script)) 102 2
              (disk [ADirEntry (Some dent_sub); AGet (Some 113)])
              dent_sub
              (disk [AGet (Some 113)])
              113
              (disk [])
              (boot (disk (take 3 rmdir_script)))
              eq_refl eq_refl eq_refl eq_refl eq_refl eq_refl) eq_refl eq_refl)
    as [s' [H1 [_ [H2 [H3 H4]]]]].
  exists s'. auto.
Defined.

(** X14: [int_rename] of the file "x" of "/a" to "/b/y", which does not
    exist. *)
Lemma int_rename_moves_file_witness :
  let s0 := boot (disk (drop 3 rename_script)) in
  is_dir dir13 = true /\
  exists s', int_rename rw_mount "x" "/b/y" 102 112 12 true s0 = Ret (inr tt) s' /\
    log s' = [Ev (CPut 113) true; Ev (CFree 4096) true; Ev (CRmEntry 102 "x") true;
              Ev (CAddEntry 113 "y" 12) true; Ev (CDirEntry 113 "y") false;
              Ev (CByPath 1 "/b") true; Ev CMalloc true].
Proof.
  cbv zeta. split; [reflexivity|].
  destruct (int_rename_moves_file (HD:=dreamcast) (BE:=scripted_backend)
              rw_mount "x" "/b/y" 102 112 12 "/b" "y" 4096
              (disk (drop 3 rename_script)) 113 13
              (disk (drop 4 rename_script))
              (disk (drop 5 rename_script))
              (disk (drop 6 rename_script))
              12
              (disk [])
              (boot (disk (drop 3 rename_script)))
              eq_refl eq_refl eq_refl eq_refl eq_refl eq_refl eq_refl)
    as [s' [H1 [_ [_ [_ H2]]]]].
  exists s'. split; [exact H1 | exact H2].
Defined.

(** X15: rename of "/a/x" when the parent does not resolve: -1, nothing
    touched. *)
Lemma rename_never_succeeds_witness :
  let s0 := boot (disk [AByPath (inl ENOENT)]) in
  let o := fs_ext2_rename rw_mount (Some "/a/x"%string) (Some "/b/y"%string) s0 in
  (ext2_mutex s0 = false /\ returned o = Some (-1)) /\
  match o with
  | Ret rv s' => rv = -1 /\ ext2_mutex s' = false /\ unseen is_mutation s0 s' /\ fh s' = fh s0
  | Hang why s' => why = Deadlock /\ ext2_mutex s' = true
  end.
Proof.
  cbv zeta. split; [split; [reflexivity | vm_compute; reflexivity]|].
  exact (rename_never_succeeds rw_mount (Some "/a/x"%string) (Some "/b/y"%string)
           (boot (disk [AByPath (inl ENOENT)])) eq_refl).
Defined.

(** X16: unlink of the directory "/a/sub". *)
Lemma wrong_type_refused_witness :
  let s0 := boot (disk (take 3 rmdir_script)) in
  (ext2_mutex s0 = false /\ is_rw rw_mount = true /\ is_dir dir13 = true) /\
  exists s', fs_ext2_unlink rw_mount (Some "/a/sub"%string) s0 = Ret (-1) s' /\
    errno s' = EPERM /\ unseen is_mutation s0 s' /\ balanced s0 s' /\ copy_freed s0 s'.
Proof.
  cbv zeta. split; [repeat split|].
  destruct (proj1 (wrong_type_refused (HD:=dreamcast) (BE:=scripted_backend)
              rw_mount "/a/sub" "/a" "sub" 4096
              (disk (take 3 rmdir_script)) 102 2
              (disk [ADirEntry (Some dent_sub); AGet (Some 113)])
              dent_sub
              (disk [AGet (Some 113)])
              113
              (disk [])
              (boot (disk (take 3 rmdir_script)))
              eq_refl eq_refl ltac:(discriminate) ltac:(discriminate) eq_refl
              eq_refl eq_refl eq_refl eq_refl eq_refl) eq_refl)
    as [s' [H1 [H2 [_ [_ [H3 [H4 H5]]]]]]].
  exists s'. auto.
Defined.

(** X17: unlink of "/a/x" while a handle is open on it: -1, and the backend
    has changed nothing. *)
Lemma failed_mutators_change_nothing_witness :
  let s1 := opened busy_script in
  let o := fs_ext2_unlink rw_mount (Some "/a/x"%string) s1 in
  (ext2_mutex s1 = false /\ returned o = Some (-1) /\ unseen failed_deref s1 (final o)) /\
  unseen is_change s1 (final o).
Proof.
  cbv zeta.
  split; [split; [reflexivity | split; vm_compute; reflexivity]|].
  apply (proj1 (failed_mutators_change_nothing rw_mount (Some "/a/x"%string)
                  (opened busy_script) eq_refl)); vm_compute; reflexivity.
Defined.

(** X18: The unlink that runs to its end frees the copy of "/a/x". *)
Lemma path_copy_always_freed_witness :
  let s0 := boot (disk unlink_script) in
  let s' := final (fs_ext2_unlink rw_mount (Some "/a/x"%string) s0) in
  ext2_mutex s0 = false /\ copy_freed s0 s' /\ allocs (log s') = 1.
Proof.
  cbv zeta. split; [reflexivity|]. split.
  - exact (proj1 (path_copy_always_freed rw_mount (boot (disk unlink_script)) eq_refl)
             (Some "/a/x"%string)).
  - vm_compute. reflexivity.
Defined.

(** X19: stat of the directory "/a". *)
Lemma stat_reports_inode_witness :
  let s0 := boot (disk [AByPath (inr (102, 2))]) in
  (ext2_mutex s0 = false /\ EXT2_S_IFDIR <> EXT2_S_IFLNK /\ EXT2_S_IFDIR <> EXT2_S_IFREG) /\
  exists st s', fs_ext2_stat rw_mount "/a" true s0 = Ret (0, Some st) s' /\
    st_unique st = 2 /\ st_size st = 1024 /\ st_time st = 5 /\ st_type st = STAT_TYPE_DIR.
Proof.
  cbv zeta. split; [split; [reflexivity | split; discriminate]|].
  destruct (stat_reports_inode (HD:=dreamcast) (BE:=scripted_backend)
              rw_mount "/a" 102 2 (disk [])
              (boot (disk [AByPath (inr (102, 2))]))
              eq_refl ltac:(discriminate) ltac:(discriminate) eq_refl)
    as [st [s' [H1 [H2 [H3 [H4 [H5 _]]]]]]].
  exists st, s'. split; [exact H1|]. split; [exact H2|]. split; [exact H3|].
  split; [exact H4|]. apply H5. reflexivity.
Defined.

(** X20: mkdir of "/a/new": the new inode 14 has the mode of "/a". *)
Lemma mkdir_creates_directory_witness :
  let s0 := boot (disk mkdir_script) in
  (ext2_mutex s0 = false /\ is_rw rw_mount = true) /\
  exists s', fs_ext2_mkdir rw_mount (Some "/a/new"%string) s0 = Ret 0 s' /\
    ext2_mutex s' = false /\
    In (Ev (CStore 114 (inherit dir2 1000 zero_inode)) true) (log s') /\
    In (Ev (CStore 102 (set_links 4 dir2)) true) (log s').
Proof.
  cbv zeta. split; [repeat split|].
  destruct (mkdir_creates_directory (HD:=dreamcast) (BE:=scripted_backend)
              rw_mount "/a/new" "/a" "new" 4096
              (disk mkdir_script) 102 2
              (disk (drop 1 mkdir_script))
              (disk (drop 2 mkdir_script))
              114 14
              (disk (drop 3 mkdir_script))
              1000
              (disk (drop 3 mkdir_script))
              (sc_rest (inode_store (disk (drop 3 mkdir_script)) 114
                          (inherit dir2 1000 zero_inode)))
              (sc_rest (sc_rest (inode_store (disk (drop 3 mkdir_script)) 114
                          (inherit dir2 1000 zero_inode))))
              (boot (disk mkdir_script))
              eq_refl eq_refl ltac:(discriminate) eq_refl
              eq_refl eq_refl eq_refl eq_refl eq_refl
              ltac:(vm_compute; reflexivity) ltac:(vm_compute; reflexivity))
    as [s' [H1 [H2 [_ [_ [_ H3]]]]]].
  exists s'. split; [exact H1|]. split; [exact H2|].
  rewrite H3. split; vm_compute; auto 20.
Defined.

(** X21: fcntl on "/a/x" opened with mode 2: [F_GETFL] gives 2, [F_SETFL]
    gives 0, command 99 is refused. *)
Lemma fcntl_answers_witness :
  let s1 := opened_with 2 [] in
  let x1 := set_mode 2 (set_inode_num 12 (set_inode 112 (set_fs rw_mount zero_fh))) in
  (ext2_mutex s1 = false /\ fh s1 !! Z.to_nat (1 - 1) = Some x1 /\ fh_inode_num x1 <> 0) /\
  fs_ext2_fcntl 1 F_GETFL s1 = Ret 2 s1 /\
  fs_ext2_fcntl 1 F_SETFL s1 = Ret 0 s1 /\
  fs_ext2_fcntl 1 99 s1 = Ret (-1) (with_errno EINVAL s1).
Proof.
  cbv zeta.
  assert (H2 : fh (opened_with 2 []) !! Z.to_nat (1 - 1)
               = Some (set_mode 2 (set_inode_num 12 (set_inode 112 (set_fs rw_mount zero_fh)))))
    by (vm_compute; reflexivity).
  assert (H3 : fh_inode_num (set_mode 2 (set_inode_num 12 (set_inode 112
                 (set_fs rw_mount zero_fh)))) <> 0) by (cbn; lia).
  split; [split; [reflexivity | split; [exact H2 | exact H3]]|].
  destruct (fcntl_answers 1 _ (opened_with 2 []) eq_refl
              ltac:(unfold MAX_EXT2_FILES; lia) H2 H3) as [G1 [G2 G3]].
  split; [exact G1|]. split; [apply G2; left; reflexivity|].
  apply G3; vm_compute; discriminate.
Defined.

(** X22: fcntl and tell on the handle 2 of a fresh driver, whose slot is
    free. *)
Lemma fcntl_bad_handle_witness :
  let s0 := boot (disk []) in
  (ext2_mutex s0 = false /\ fh_inode_num <$> fh s0 !! Z.to_nat (2 - 1) = Some 0) /\
  fs_ext2_fcntl 2 F_GETFL s0 = Ret (-1) (with_errno EBADF s0) /\
  fs_ext2_tell 2 s0 = Ret (-1) (with_errno EINVAL s0).
Proof.
  cbv zeta. split; [split; reflexivity|].
  apply (fcntl_bad_handle 2 F_GETFL (boot (disk [])) eq_refl).
  right. split; [lia|]. exists zero_fh. split; reflexivity.
Defined.

(** X23: "/a/x" opened with mode 2: [F_GETFL] on the handle gives 2. *)
Lemma open_then_getfl_witness :
  let s0 := boot (disk open_script) in
  let s1 := opened_with 2 [] in
  (ext2_mutex s0 = false /\ wf s0 /\ fs_ext2_open rw_mount "/a/x" 2 s0 = Ret 1 s1) /\
  fs_ext2_fcntl 1 F_GETFL s1 = Ret 2 s1 /\
  fs_ext2_fcntl 1 F_SETFL s1 = Ret 0 s1.
Proof.
  cbv zeta.
  assert (Ho : fs_ext2_open rw_mount "/a/x" 2 (boot (disk open_script))
               = Ret 1 (opened_with 2 [])) by (vm_compute; reflexivity).
  split; [split; [reflexivity | split; [reflexivity | exact Ho]]|].
  apply (open_then_getfl rw_mount "/a/x" 2 1 (boot (disk open_script)) (opened_with 2 [])
           eq_refl eq_refl); [|exact Ho|lia].
  intros p w. vm_compute. discriminate.
Defined.

(** X24: The mount whose registration fails returns -1, and so has given
    back what it took. *)
Lemma mount_allocations_balance_witness :
  let s0 := boot (disk mount_script) in
  (ext2_mutex s0 = false /\ returned (fs_ext2_mount "/ext2" rw_device 1 s0) = Some (-1)) /\
  exists rv s', fs_ext2_mount "/ext2" rw_device 1 s0 = Ret rv s' /\
    ext2_mutex s' = false /\ fh s' = fh s0 /\
    let kept := (allocs (log s') - allocs (log s0)) - (frees (log s') - frees (log s0)) in
    let ctx := (tally is_fs_init (log s') - tally is_fs_init (log s0))
               - (tally is_fs_shutdown (log s') - tally is_fs_shutdown (log s0)) in
    (rv = -1 /\ kept = 0 /\ ctx = 0 \/
     rv = 0 /\ kept = 2 /\ ctx = 1 /\ length (ext2_fses s') = S (length (ext2_fses s0))).
Proof.
  cbv zeta. split; [split; [reflexivity | vm_compute; reflexivity]|].
  exact (mount_allocations_balance "/ext2" rw_device 1 (boot (disk mount_script)) eq_refl).
Defined.

(** X25: A mount of "/ext2" on a fresh driver and the unmount after it. *)
Lemma mount_then_unmount_restores_witness :
  let s0 := boot (disk (take 4 two_mounts_script)) in
  (ext2_mutex s0 = false /\ initted s0 = true /\
   mnt_mem s0 !! 500 = None /\ vfs_mem s0 !! 600 = None) /\
  exists s1, fs_ext2_mount "/ext2" rw_device 1 s0 = Ret 0 s1 /\
    ext2_fses s1 = [500] /\
    exists s2, fs_ext2_unmount "/ext2" s1 = Ret 0 s2 /\
      ext2_fses s2 = [] /\ mnt_mem s2 = ∅ /\ vfs_mem s2 = ∅.
Proof.
  cbv zeta. split; [repeat split; vm_compute; reflexivity|].
  destruct (mount_then_unmount_restores (HD:=dreamcast) (BE:=scripted_backend)
              "/ext2" rw_device 1 1
              (disk [AMalloc (Some 500); AMalloc (Some 600); ANmmgrAdd 0]) 500
              (disk [AMalloc (Some 600); ANmmgrAdd 0]) 600
              (disk [ANmmgrAdd 0]) (disk [])
              (boot (disk (take 4 two_mounts_script)))
              ltac:(vm_compute; reflexivity) ltac:(vm_compute; reflexivity)
              ltac:(vm_compute; reflexivity) ltac:(vm_compute; reflexivity)
              ltac:(vm_compute; reflexivity) ltac:(vm_compute; reflexivity)
              ltac:(vm_compute; reflexivity) ltac:(vm_compute; reflexivity)
              ltac:(vm_compute; reflexivity))
    as [s1 [H1 [_ [H2 [_ [_ [s2 [H3 [H4 [H5 [H6 _]]]]]]]]]]].
  exists s1. split; [exact H1|]. split; [exact H2|].
  exists s2. split; [exact H3|]. split; [exact H4|]. split; [exact H5 | exact H6].
Defined.

(** X26: unmount of "/ext2", the second mount on the list: the list keeps
    "/sd" alone. *)
Lemma unmount_removes_first_match_witness :
  (ext2_mutex two_mounts = false /\ ext2_fses two_mounts = [700] ++ 500 :: [] /\
   mnt_mem two_mounts !! 500 = Some {| mnt_vfsh := 600; mnt_fs := 1; mount_flags := 1 |}) /\
  exists s', fs_ext2_unmount "/ext2" two_mounts = Ret 0 s' /\
    ext2_fses s' = [700] /\ mnt_mem s' !! 500 = None /\ fh s' = fh two_mounts.
Proof.
  assert (Hl : ext2_fses two_mounts = [700] ++ 500 :: []) by (vm_compute; reflexivity).
  assert (Hi : mnt_mem two_mounts !! 500
               = Some {| mnt_vfsh := 600; mnt_fs := 1; mount_flags := 1 |})
    by (vm_compute; reflexivity).
  split; [split; [reflexivity | split; [exact Hl | exact Hi]]|].
  assert (Hl1 : forall j, j ∈ [700] -> mounted_at two_mounts "/ext2" false j).
  { intros j Hj. apply list_elem_of_singleton in Hj as ->.
    eexists. eexists. split; [vm_compute; reflexivity|].
    split; [vm_compute; reflexivity|]. reflexivity. }
  assert (Hni : 500 ∉ [700]).
  { intros H. apply list_elem_of_singleton in H. discriminate. }
  assert (Hat : mounted_at two_mounts "/ext2" true 500).
  { eexists. eexists. split; [exact Hi|]. split; [vm_compute; reflexivity|]. reflexivity. }
  destruct (unmount_removes_first_match "/ext2" [700] 500 [] _ two_mounts eq_refl Hl
              Hl1 Hni Hi Hat) as [s' [H1 [H2 [H3 [_ [H4 _]]]]]].
  exists s'. split; [exact H1|]. split; [exact H2|]. split; [|exact H4].
  rewrite H3. apply lookup_delete_eq.
Defined.

(** X27: unmount of a path nothing is mounted on. *)
Lemma unmount_unknown_path_witness :
  ext2_mutex two_mounts = false /\
  fs_ext2_unmount "/none" two_mounts = Ret (-1) (with_errno ENOENT two_mounts).
Proof.
  split; [reflexivity|].
  apply (unmount_unknown_path "/none" two_mounts eq_refl).
  intros j Hj.
  assert (Hl : ext2_fses two_mounts = [700; 500]) by (vm_compute; reflexivity).
  rewrite Hl in Hj. apply elem_of_cons in Hj as [->|Hj].
  - eexists. eexists. split; [vm_compute; reflexivity|].
    split; [vm_compute; reflexivity|]. reflexivity.
  - apply list_elem_of_singleton in Hj as ->.
    eexists. eexists. split; [vm_compute; reflexivity|].
    split; [vm_compute; reflexivity|]. reflexivity.
Defined.

(** X29: shutdown with the two mounts registered: both records are freed,
    the list still names them. *)
Lemma shutdown_frees_registry_witness :
  (initted two_mounts = true /\ ext2_fses two_mounts = [700; 500]) /\
  exists s', fs_ext2_shutdown two_mounts = Ret 0 s' /\ initted s' = false /\
    mnt_mem s' !! 700 = None /\ mnt_mem s' !! 500 = None /\
    ext2_fses s' = [700; 500] /\
    fs_ext2_mount "/ext2" rw_device 1 s' = Ret (-1) s'.
Proof.
  assert (Hl : ext2_fses two_mounts = [700; 500]) by (vm_compute; reflexivity).
  split; [split; [reflexivity | exact Hl]|].
  destruct (shutdown_frees_registry two_mounts eq_refl) as [s' [H1 [H2 [H3 [_ [_ [_ [H4 [_ H5]]]]]]]]].
  - rewrite Hl. apply NoDup_cons. split; [|apply NoDup_singleton].
    intros H. apply list_elem_of_singleton in H. discriminate.
  - intros i Hi. rewrite Hl in Hi. apply elem_of_cons in Hi as [->|Hi].
    + vm_compute. eauto.
    + apply list_elem_of_singleton in Hi as ->. vm_compute. eauto.
  - exists s'. split; [exact H1|]. split; [exact H2|].
    split; [apply H3; rewrite Hl; left|].
    split; [apply H3; rewrite Hl; right; left|].
    split; [now rewrite H4|]. apply H5.
Defined.
